(** * ConversationalBrowserAgent: a shallow embedding of the turn engine

    The development follows [ConversationalBrowserAgent.py]: the values that
    travel through the program ([pyval]), the text helpers the orchestrator
    relies on ([str.lower], [in], the three [re.search] patterns), the
    Reasoner client ([OpenRouterClient]), the executor ([BrowserController])
    and the orchestrator ([ConversationalBrowserAgent.process_user_input]).

    Everything outside the program (the HTTP provider, the Playwright page,
    [json.loads], Python's rendering of non-string values in f-strings) is
    gathered in a record [World]; the program is a function of it. *)

From Stdlib Require Import String Ascii List ZArith QArith Bool Lia.
From stdpp Require Import base option gmap strings.
Import ListNotations.

Open Scope string_scope.
Open Scope Z_scope.

(** ** Python values

    The values produced by [json.loads] and carried around by the
    dynamically typed code: [None], booleans, integers, floats (taken as
    rationals), strings, lists and dictionaries with string keys. *)

#[warning="-register-all"]
Inductive pyval : Type :=
| PNone
| PBool (b : bool)
| PInt (z : Z)
| PFloat (q : Q)
| PStr (s : string)
| PList (l : list pyval)
| PDict (d : gmap string pyval).

(** Truth value of an object in a condition ([if x:], [not x]). *)
Definition truthy (v : pyval) : bool :=
  match v with
  | PNone => false
  | PBool b => b
  | PInt z => negb (z =? 0)
  | PFloat q => negb (Qeq_bool q 0)
  | PStr s => negb (String.eqb s EmptyString)
  | PList l => match l with [] => false | _ :: _ => true end
  | PDict d => negb (bool_decide (d = ∅))
  end.

(** [x == "literal"] for a value [x] of unknown type. *)
Definition eq_str (v : pyval) (s : string) : bool :=
  match v with
  | PStr t => String.eqb t s
  | _ => false
  end.

(** [x in ["a", "b", ...]]. *)
Definition in_strs (v : pyval) (l : list string) : bool :=
  existsb (eq_str v) l.

(** The exceptions the orchestrator can let escape. *)
Inductive exn : Type :=
| KeyError (key : string)
| TypeError
| AttributeError.

Inductive result (A : Type) : Type :=
| Ok (a : A)
| Exn (e : exn).
Arguments Ok {A} a.
Arguments Exn {A} e.

(** [d.get(k)] and [d.get(k, default)]: only dictionaries have [get]. *)
Definition py_get (v : pyval) (k : string) (default : pyval) : result pyval :=
  match v with
  | PDict d => Ok (match d !! k with Some x => x | None => default end)
  | _ => Exn AttributeError
  end.

(** [d[k]] with a string key: a dictionary without the key raises
    [KeyError], every other value of this universe raises [TypeError]
    (lists and strings want integer indices, the rest is not
    subscriptable). *)
Definition py_index (v : pyval) (k : string) : result pyval :=
  match v with
  | PDict d => match d !! k with Some x => Ok x | None => Exn (KeyError k) end
  | _ => Exn TypeError
  end.

(** ** Text

    Strings are sequences of 8-bit characters (the UTF-8 bytes of the
    Python text).  The Unicode-aware operations are taken on their ASCII
    range: bytes from 128 on are left alone by [lower] and belong to
    neither [\w] nor [\s]. *)

Module Text.

Definition nl : string := String (ascii_of_nat 10) EmptyString.
Definition dq : string := String (ascii_of_nat 34) EmptyString.

Definition lower_char (c : ascii) : ascii :=
  let n := nat_of_ascii c in
  if ((65 <=? n) && (n <=? 90))%nat then ascii_of_nat (n + 32) else c.

(** [s.lower()] *)
Fixpoint lower (s : string) : string :=
  match s with
  | EmptyString => EmptyString
  | String c r => String (lower_char c) (lower r)
  end.

(** [sub in s] *)
Fixpoint contains (sub s : string) : bool :=
  String.prefix sub s ||
  match s with
  | EmptyString => false
  | String _ r => contains sub r
  end.

(** [sep.join(l)] *)
Fixpoint join (sep : string) (l : list string) : string :=
  match l with
  | [] => EmptyString
  | [x] => x
  | x :: r => x +:+ sep +:+ join sep r
  end.



(** *** The patterns given to [re.search]

    A pattern is a sequence of items: one character of a class, one or
    more characters of a class (greedy [+] or lazy [+?]), and the two
    ends of the capturing group.  The matcher tries the alternatives in
    the order of a backtracking engine, so the first success is the
    match [re] reports. *)

Inductive item : Type :=
| One (cls : ascii -> bool)
| Plus (greedy : bool) (cls : ascii -> bool)
| GroupOpen
| GroupClose.

Definition push (rec : bool) (acc : string) (c : ascii) : string :=
  if rec then acc +:+ String c EmptyString else acc.

(** [match_here p s rec acc]: match [p] at the start of [s]; [rec] tells
    whether the group is open and [acc] is what it captured so far.
    The result is the text of group 1. *)
Fixpoint match_here (p : list item) (s : string) (rec : bool) (acc : string)
  : option string :=
  match p with
  | [] => Some acc
  | One cls :: p' =>
      match s with
      | String c r => if cls c then match_here p' r rec (push rec acc c) else None
      | EmptyString => None
      end
  | GroupOpen :: p' => match_here p' s true EmptyString
  | GroupClose :: p' => match_here p' s false acc
  | Plus greedy cls :: p' =>
      (fix more (s : string) (acc : string) : option string :=
         match s with
         | String c r =>
             if cls c then
               let acc' := push rec acc c in
               if greedy then
                 match more r acc' with
                 | Some g => Some g
                 | None => match_here p' r rec acc'
                 end
               else
                 match match_here p' r rec acc' with
                 | Some g => Some g
                 | None => more r acc'
                 end
             else None
         | EmptyString => None
         end) s acc
  end.

(** [re.search(p, s)] followed by [.group(1)]: the leftmost start
    position at which the pattern matches. *)
Fixpoint search (p : list item) (s : string) : option string :=
  match match_here p s false EmptyString with
  | Some g => Some g
  | None =>
      match s with
      | EmptyString => None
      | String _ r => search p r
      end
  end.

Definition is_char (x : string) (c : ascii) : bool :=
  match x with
  | String a EmptyString => Ascii.eqb a c
  | _ => false
  end.

Definition lit (s : string) : list item :=
  map (fun a => One (Ascii.eqb a)) (list_ascii_of_string s).

(** [\s]: the ASCII characters for which [str.isspace] holds. *)
Definition space (c : ascii) : bool :=
  let n := nat_of_ascii c in
  ((9 <=? n) && (n <=? 13) || (28 <=? n) && (n <=? 32))%nat.

(** [\w] *)
Definition word (c : ascii) : bool :=
  let n := nat_of_ascii c in
  ((48 <=? n) && (n <=? 57) || (65 <=? n) && (n <=? 90)
   || (97 <=? n) && (n <=? 122) || (n =? 95))%nat.

(** [[\w\.-]] *)
Definition addr (c : ascii) : bool :=
  word c || is_char "." c || is_char "-" c.

(** The class of the two quote characters, single and double. *)
Definition quote (c : ascii) : bool :=
  is_char "'" c || is_char dq c.

(** [.] *)
Definition dot (c : ascii) : bool := negb (is_char nl c).

(** [to\s+([\w\.-]+@[\w\.-]+)], the recipient. *)
Definition re_recipient : list item :=
  lit "to" ++ [Plus true space; GroupOpen; Plus true addr]
    ++ lit "@" ++ [Plus true addr; GroupClose].

(** The subject and body patterns: the keyword, [\s+], a quote of
    either kind, the group [(.+?)], a quote of either kind. *)
Definition re_quoted (keyword : string) : list item :=
  lit keyword ++ [Plus true space; One quote; GroupOpen; Plus false dot;
                  GroupClose; One quote].

Definition re_subject : list item := re_quoted "subject".
Definition re_body : list item := re_quoted "body".


(** [quoted s] is [s] with every backquote replaced by a double quote:
    the texts of the program that contain double quotes are written
    with backquotes below. *)
Fixpoint quoted (s : string) : string :=
  match s with
  | EmptyString => EmptyString
  | String c r =>
      (if Ascii.eqb c (ascii_of_nat 96) then dq else String c EmptyString)
      +:+ quoted r
  end.

End Text.

Import Text.

(** ** Data model *)

Inductive AgentState : Type :=
| IDLE
| THINKING
| ACTING
| WAITING_FOR_INPUT
| COMPLETED
| ERROR.

(** [BrowserAction].  The fields hold whatever the payload held; [delay]
    is a float, taken as a rational. *)
Record BrowserAction : Type := mkBrowserAction {
  action_type : pyval;
  target : pyval;
  text : pyval;
  description : pyval;
  delay : Q;
  value : pyval
}.

Definition default_delay : Q := 1.

Definition set_text (a : BrowserAction) (t : pyval) : BrowserAction :=
  mkBrowserAction (action_type a) (target a) t (description a) (delay a)
    (value a).

(** An entry of [conversation_history] and of the [messages] sent to the
    provider: a dictionary with the keys [role] and [content]. *)
Record entry : Type := mkEntry {
  role : string;
  content : pyval
}.

(** [ConversationMessage]; the timestamp (the wall clock) is left out. *)
Record ConversationMessage : Type := mkConversationMessage {
  cm_role : string;
  cm_content : pyval;
  cm_screenshot : option string;
  cm_action : option BrowserAction
}.

(** ** The outside world *)

(** The operations of the Playwright page (and context) the controller
    uses, with the arguments it passes. *)
Inductive page_call : Type :=
| Goto (url : pyval) (timeout : Z)
| WaitForLoadState (load_state : string) (timeout : Z)
| Cookies
| WaitForSelector (selector : pyval) (timeout : Z)
| Click (selector : pyval)
| Fill (selector : pyval) (filled : pyval)
| ScrollIntoViewIfNeeded (selector : pyval) (timeout : Z)
| Evaluate (expression : string)
| WaitForTimeout (ms : Z)
| SelectOption (selector : pyval) (option_value : pyval)
| QuerySelector (selector : pyval)
| TextContent (selector : pyval)
| FrameLocator (selector : pyval)
| Reload (timeout : Z)
| Screenshot (full_page : bool) (timeout : Z).

Inductive answer : Type :=
| Returns (v : pyval)
| Raises (message : string).

(** What [requests.post] gives: a response with a status code whose body
    carries the text [choices[0].message.content], or an exception
    (transport error, or a body of another shape). *)
Inductive http_answer : Type :=
| Http (status_code : Z) (body_content : string)
| HttpRaises.

(** The log of what crossed the boundaries of the components, oldest
    first: the calls of [analyze_intent] with the messages sent and the
    plan returned, the page operations with their answers, the calls of
    [execute_action] with their results, and the pacing sleeps. *)
Inductive event : Type :=
| EvAnalyze (messages : list entry) (intent_data : pyval)
| EvPage (c : page_call) (a : answer)
| EvExecute (action : BrowserAction) (success : bool) (outcome : string)
| EvSleep (seconds : Q).

(** The world answers a call knowing everything that happened before:
    [post] is the provider behind [requests.post], [page] the browser
    behind the Playwright page, [json_loads] is [json.loads] ([None] for
    a text it rejects with [JSONDecodeError]) and [py_repr] is Python's
    [str] of a value that is no string. *)
Record World : Type := mkWorld {
  post : list event -> list entry -> http_answer;
  page : list event -> page_call -> answer;
  json_loads : string -> option pyval;
  py_repr : pyval -> string
}.

(** ** State *)

(** [BrowserController]: [page_open] tells whether [self.page] is set,
    [current_frame] is [None] until a frame was switched to. *)
Record BrowserController : Type := mkBrowserController {
  page_open : bool;
  is_initialized : bool;
  current_frame : pyval
}.

(** [ConversationalBrowserAgent].  The field [trace] is no attribute of
    the Python object: it is the log of events the embedding keeps. *)
Record Agent : Type := mkAgent {
  state : AgentState;
  conversation_history : list entry;
  task_context : gmap string pyval;
  browser : BrowserController;
  trace : list event
}.

Definition set_state (st : AgentState) (s : Agent) : Agent :=
  mkAgent st (conversation_history s) (task_context s) (browser s) (trace s).

Definition append_history (e : entry) (s : Agent) : Agent :=
  mkAgent (state s) (conversation_history s ++ [e]) (task_context s)
    (browser s) (trace s).

Definition set_context (k : string) (v : pyval) (s : Agent) : Agent :=
  mkAgent (state s) (conversation_history s) (<[k := v]> (task_context s))
    (browser s) (trace s).

Definition set_current_frame (f : pyval) (s : Agent) : Agent :=
  mkAgent (state s) (conversation_history s) (task_context s)
    (mkBrowserController (page_open (browser s)) (is_initialized (browser s)) f)
    (trace s).

Definition log (ev : event) (s : Agent) : Agent :=
  mkAgent (state s) (conversation_history s) (task_context s) (browser s)
    (trace s ++ [ev]).

(** [self.task_context.get(k)] *)
Definition context_get (ctx : gmap string pyval) (k : string) : pyval :=
  match ctx !! k with Some v => v | None => PNone end.

(** [self.task_context[k]] *)
Definition context_index (ctx : gmap string pyval) (k : string) : result pyval :=
  match ctx !! k with Some v => Ok v | None => Exn (KeyError k) end.

(** Code that changes the agent and may raise. *)
Definition M (A : Type) : Type := Agent -> result A * Agent.

Definition ret {A} (a : A) : M A := fun s => (Ok a, s).
Definition raise {A} (e : exn) : M A := fun s => (Exn e, s).
Definition bind {A B} (m : M A) (k : A -> M B) : M B :=
  fun s => match m s with
           | (Ok a, s') => k a s'
           | (Exn e, s') => (Exn e, s')
           end.
Definition lift {A} (r : result A) : M A := fun s => (r, s).
Definition update (f : Agent -> Agent) : M unit := fun s => (Ok tt, f s).
Definition total {A} (f : Agent -> A * Agent) : M A :=
  fun s => let (a, s') := f s in (Ok a, s').

Notation "'let*' x ':=' m 'in' k" := (bind m (fun x => k))
  (at level 10, x name, m at level 100, k at level 200).
Notation "m ';;' k" := (bind m (fun _ => k))
  (at level 100, k at level 200, right associativity).

Section Program.

Variable W : World.

(** What an f-string writes for [{x}]. *)
Definition py_str (v : pyval) : string :=
  match v with
  | PStr s => s
  | _ => py_repr W v
  end.

(** [int(x)] for a float: truncation towards zero. *)
Definition py_int (q : Q) : Z := Z.quot (Qnum q) (Zpos (Qden q)).

(** *** OpenRouterClient *)

Definition system_prompt : string := quoted
"You are an AI browser automation agent. Your job is to understand user requests and determine what browser actions are needed.

Given a user request, analyze it and respond with a JSON object containing:
{
    `intent`: `description of what the user wants`,
    `actions`: [
        {
            `action_type`: `navigate|click|type|scroll|wait|screenshot|select|extract|switch_frame`,
            `target`: `URL or CSS selector or frame selector`,
            `text`: `text to type or select (if applicable)`,
            `description`: `human-readable description of this action`,
            `value`: `additional data if needed (e.g., select option value or extraction details)`
        }
    ],
    `requires_info`: [`list of information needed from user`],
    `response`: `conversational response to the user`
}

Support a wide range of browser automation tasks, including but not limited to:
- Navigating to websites
- Filling forms (text inputs, dropdowns, checkboxes)
- Clicking buttons or links
- Sending emails
- Searching for information
- Taking screenshots
- Extracting text or data from elements
- Handling iframes
- Scrolling to specific elements
- Selecting options from dropdowns

Be precise with CSS selectors and provide conversational, helpful responses. If the request is ambiguous, ask for clarification in the 'requires_info' field.

Examples:
- User: `send email to test@example.com about meeting`
  Response: {
    `intent`: `send an email`,
    `actions`: [
      {`action_type`: `navigate`, `target`: `https://mail.google.com`, `description`: `Navigate to Gmail`},
      {`action_type`: `wait`, `target`: ``, `delay`: 2.0, `description`: `Wait for page load`}
    ],
    `requires_info`: [`email address`, `password`, `email subject`, `email body`],
    `response`: `I'll help you send an email. Please provide your Gmail address, password (use a test account), subject, and email body.`
  }
- User: `search for Python tutorials`
  Response: {
    `intent`: `perform web search`,
    `actions`: [
      {`action_type`: `navigate`, `target`: `https://www.google.com`, `description`: `Navigate to Google`},
      {`action_type`: `type`, `target`: `input[name='q']`, `text`: `Python tutorials`, `description`: `Enter search query`},
      {`action_type`: `click`, `target`: `input[name='btnK']`, `description`: `Click search button`},
      {`action_type`: `wait`, `target`: ``, `delay`: 2.0, `description`: `Wait for results`}
    ],
    `requires_info`: [],
    `response`: `Searching for Python tutorials on Google.`
  }
- User: `extract the main headline from bbc.com`
  Response: {
    `intent`: `extract text from website`,
    `actions`: [
      {`action_type`: `navigate`, `target`: `https://www.bbc.com`, `description`: `Navigate to BBC`},
      {`action_type`: `extract`, `target`: `h1`, `description`: `Extract main headline`}
    ],
    `requires_info`: [],
    `response`: `Extracting the main headline from BBC.`
  }
".

(** [generate_response] never raises and always returns a text. *)
Definition generate_response (messages : list entry) (tr : list event)
  : string :=
  match post W tr messages with
  | Http status_code body_content =>
      if status_code =? 200 then body_content
      else "I apologize, but I'm having trouble processing your request right now."
  | HttpRaises => "I encountered an error while processing your request."
  end.

(** [conversation_history[-5:]] *)
Definition last5 (h : list entry) : list entry :=
  skipn (length h - 5) h.

Definition analyze_messages (user_input : string) (h : list entry)
  : list entry :=
  [ mkEntry "system" (PStr system_prompt);
    mkEntry "user" (PStr ("User request: " +:+ user_input)) ]
  ++ last5 h.

Definition fallback_plan : pyval :=
  PDict (<["intent" := PStr "unclear request"]>
         (<["actions" := PList []]>
         (<["requires_info" :=
              PList [PStr "Please clarify your request with more details."]]>
         (<["response" :=
              PStr "I'm sorry, I didn't understand your request. Could you provide more details?"]>
          ∅)))).

(** The [try ... except json.JSONDecodeError] of [analyze_intent]. *)
Definition parse_response (response : string) : pyval :=
  match json_loads W response with
  | Some intent_data => intent_data
  | None => fallback_plan
  end.

Definition analyze_intent (user_input : string) (h : list entry)
  : Agent -> pyval * Agent :=
  fun s =>
    let messages := analyze_messages user_input h in
    let response := generate_response messages (trace s) in
    let intent_data := parse_response response in
    (intent_data, log (EvAnalyze messages intent_data) s).

(** *** BrowserController *)

(** One page operation: ask the world, record call and answer. *)
Definition call (c : page_call) (s : Agent) : answer * Agent :=
  let a := page W (trace s) c in (a, log (EvPage c a) s).

(** The body of a [try]: page operations in sequence, each of which can
    raise; [inr e] is the exception with [str(e) = e]. *)
Definition T (A : Type) : Type := Agent -> (A + string) * Agent.

Definition done {A} (a : A) : T A := fun s => (inl a, s).

Definition await (c : page_call) : T pyval :=
  fun s => match call c s with
           | (Returns v, s') => (inl v, s')
           | (Raises e, s') => (inr e, s')
           end.

Definition then_ {A B} (m : T A) (k : A -> T B) : T B :=
  fun s => match m s with
           | (inl a, s') => k a s'
           | (inr e, s') => (inr e, s')
           end.

Notation "'await!' c 'as' x 'in' k" := (then_ (await c) (fun x => k))
  (at level 10, x name, c at level 9, k at level 200).
Notation "'await!' c 'in' k" := (then_ (await c) (fun _ => k))
  (at level 10, c at level 9, k at level 200).

(** [take_screenshot] *)
Definition take_screenshot (s : Agent) : string * Agent :=
  if negb (page_open (browser s)) then (EmptyString, s)
  else match call (Screenshot true 10000) s with
       | (Returns (PStr screenshot_b64), s') => (screenshot_b64, s')
       | (_, s') => (EmptyString, s')
       end.

(** The [try] block of [execute_action]. *)
Definition attempt (action : BrowserAction) : T (bool * string) :=
  if eq_str (action_type action) "navigate" then
    await! (Goto (target action) 30000) in
    await! (WaitForLoadState "domcontentloaded" 30000) in
    await! Cookies in
    done (true, "Navigated to " +:+ py_str (target action))
  else if eq_str (action_type action) "click" then
    await! (WaitForSelector (target action) 10000) in
    await! (Click (target action)) in
    done (true, "Clicked on " +:+ py_str (target action))
  else if eq_str (action_type action) "type" then
    await! (WaitForSelector (target action) 10000) in
    await! (Fill (target action) (text action)) in
    done (true, "Typed '" +:+ py_str (text action) +:+ "' into "
                  +:+ py_str (target action))
  else if eq_str (action_type action) "scroll" then
    if truthy (target action) then
      await! (ScrollIntoViewIfNeeded (target action) 10000) in
      done (true, "Scrolled to element " +:+ py_str (target action))
    else
      await! (Evaluate "window.scrollTo(0, document.body.scrollHeight)") in
      done (true, "Scrolled to bottom of page")
  else if eq_str (action_type action) "wait" then
    await! (WaitForTimeout (py_int (delay action * 1000))) in
    done (true, "Waited for " +:+ py_str (PFloat (delay action))
                  +:+ " seconds")
  else if eq_str (action_type action) "screenshot" then
    done (true, "Screenshot taken")
  else if eq_str (action_type action) "select" then
    await! (WaitForSelector (target action) 10000) in
    await! (SelectOption (target action) (text action)) in
    done (true, "Selected option '" +:+ py_str (text action) +:+ "' in "
                  +:+ py_str (target action))
  else if eq_str (action_type action) "extract" then
    await! (WaitForSelector (target action) 10000) in
    await! (QuerySelector (target action)) as element in
    if truthy element then
      await! (TextContent (target action)) as text in
      done (true, "Extracted text: " +:+ py_str text)
    else
      done (true, "Extracted text: " +:+ EmptyString)
  else if eq_str (action_type action) "switch_frame" then
    await! (FrameLocator (target action)) as frame in
    fun s => (inl (true, "Switched to iframe " +:+ py_str (target action)),
              set_current_frame frame s)
  else
    done (false, "Unknown action type: " +:+ py_str (action_type action)).

(** The [except Exception as e] handler: one reload, then the report. *)
Definition recover (e : string) (s : Agent) : (bool * string) * Agent :=
  match call (Reload 30000) s with
  | (Returns _, s') =>
      ((false, "Action failed: " +:+ e +:+ ". Page reloaded for retry."), s')
  | (Raises _, s') =>
      ((false, "Action failed: " +:+ e +:+ ". Could not recover."), s')
  end.

Definition execute_action_body (action : BrowserAction) (s : Agent)
  : (bool * string) * Agent :=
  if negb (page_open (browser s)) then
    ((false, "Browser not initialized"), s)
  else
    match attempt action s with
    | (inl r, s') => (r, s')
    | (inr e, s') => recover e s'
    end.

(** [execute_action]: the body above, its call and result recorded. *)
Definition execute_action (action : BrowserAction) (s : Agent)
  : (bool * string) * Agent :=
  let '((success, outcome), s') := execute_action_body action s in
  ((success, outcome), log (EvExecute action success outcome) s').

(** *** ConversationalBrowserAgent *)

(** [not screenshot] *)
Definition no_screenshot (screenshot : option string) : bool :=
  match screenshot with
  | None => true
  | Some b64 => String.eqb b64 EmptyString
  end.

Definition email_task (user_input : string) (ctx : gmap string pyval) : bool :=
  contains "send email" (lower user_input)
  && truthy (context_get ctx "email_credentials").

Definition ask_credentials : string :=
  "Please provide your Gmail address and password (use a test account only) to proceed with sending an email.".

Definition ask_details : string := quoted
  "Please provide the recipient's email, subject, and body. Example: 'Send email to test@example.com, subject `Meeting`, body `Let's meet tomorrow.`'".

Definition reply (c : pyval) (screenshot : option string)
  : ConversationMessage :=
  mkConversationMessage "assistant" c screenshot None.

(** [response_content += s]: a string is extended, a list takes the
    characters of [s] one by one, any other value raises. *)
Definition iadd_str (v : pyval) (s : string) : result pyval :=
  match v with
  | PStr r => Ok (PStr (r +:+ s))
  | PList l =>
      Ok (PList (l ++ map (fun c => PStr (String c EmptyString))
                        (list_ascii_of_string s)))
  | _ => Exn TypeError
  end.

(** The construction of the [BrowserAction] from one element of
    [intent_data["actions"]]; [delay] is not passed. *)
Definition make_action (action_data : pyval) : result BrowserAction :=
  match py_index action_data "action_type" with
  | Exn e => Exn e
  | Ok ty =>
      match py_get action_data "target" (PStr EmptyString),
            py_get action_data "text" (PStr EmptyString),
            py_get action_data "description" (PStr EmptyString),
            py_get action_data "value" PNone with
      | Ok tg, Ok tx, Ok ds, Ok vl =>
          Ok (mkBrowserAction ty tg tx ds default_delay vl)
      | Exn e, _, _, _ | _, Exn e, _, _ | _, _, Exn e, _ | _, _, _, Exn e =>
          Exn e
      end
  end.

(** [self.task_context[k].get(field, "")] *)
Definition stored (ctx : gmap string pyval) (k field : string)
  : result pyval :=
  match context_index ctx k with
  | Ok d => py_get d field (PStr EmptyString)
  | Exn e => Exn e
  end.

Definition with_text (action : BrowserAction) (r : result pyval)
  : result BrowserAction :=
  match r with
  | Ok t => Ok (set_text action t)
  | Exn e => Exn e
  end.

(** The override of the action text with stored values. *)
Definition substitute (user_input : string) (ctx : gmap string pyval)
    (action : BrowserAction) : result BrowserAction :=
  if email_task user_input ctx then
    if eq_str (target action) "input#identifierId" then
      with_text action (stored ctx "email_credentials" "email")
    else if eq_str (target action) "input[type='password']" then
      with_text action (stored ctx "email_credentials" "password")
    else if eq_str (target action) "input[aria-label='To']" then
      with_text action (stored ctx "email_details" "recipient")
    else if eq_str (target action) "input[aria-label='Subject']" then
      with_text action (stored ctx "email_details" "subject")
    else if eq_str (target action) "div[aria-label='Message Body']" then
      with_text action (stored ctx "email_details" "body")
    else Ok action
  else Ok action.

(** The variables of the action loop. *)
Record locals : Type := mkLocals {
  response_content : pyval;
  screenshot : option string;
  extracted_data : list string
}.

Definition success_line (action : BrowserAction) (outcome : string) : string :=
  nl +:+ nl +:+ "✅ " +:+ py_str (description action) +:+ ": " +:+ outcome.

Definition failure_line (outcome : string) : string :=
  nl +:+ nl +:+ "❌ Failed: " +:+ outcome.

(** One iteration; [true] in the result stands for [break]. *)
Definition step (user_input : string) (action_data : pyval) (v : locals)
  : M (bool * locals) :=
  let* action := lift (make_action action_data) in
  let* action := (fun s => (substitute user_input (task_context s) action, s)) in
  let* r := total (execute_action action) in
  let '(success, outcome) := r in
  if success then
    let* rc := lift (iadd_str (response_content v) (success_line action outcome)) in
    let extracted :=
      if eq_str (action_type action) "extract"
      then (extracted_data v ++ [outcome])%list else extracted_data v in
    let* shot :=
      (if in_strs (action_type action)
            ["navigate"; "click"; "type"; "select"; "switch_frame"]
       then let* b64 := total take_screenshot in ret (Some b64)
       else ret (screenshot v)) in
    update (log (EvSleep (delay action))) ;;
    ret (false, mkLocals rc shot extracted)
  else
    let* rc := lift (iadd_str (response_content v) (failure_line outcome)) in
    update (set_state ERROR) ;;
    ret (true, mkLocals rc (screenshot v) (extracted_data v)).

(** [for action_data in intent_data["actions"]: ...] *)
Fixpoint run_actions (user_input : string) (actions : list pyval) (v : locals)
  : M locals :=
  match actions with
  | [] => ret v
  | action_data :: rest =>
      let* r := step user_input action_data v in
      let '(stop, v') := r in
      if stop then ret v' else run_actions user_input rest v'
  end.

(** The values a [for] loop draws from [intent_data["actions"]] once the
    value was found true.  A list gives its elements.  A dictionary or a
    string gives strings, a number or [True] cannot be iterated: the
    first [action_data["action_type"]], or the loop itself, raises
    [TypeError] before anything else happens. *)
Definition iterate (user_input : string) (actions : pyval) (v : locals)
  : M locals :=
  match actions with
  | PList l => run_actions user_input l v
  | _ => raise TypeError
  end.

(** [if intent_data.get("actions"): for action_data in
    intent_data["actions"]: ...] *)
Definition run_plan (user_input : string) (intent_data : pyval) (v : locals)
  : M locals :=
  let* actions := lift (py_get intent_data "actions" PNone) in
  if truthy actions then
    let* actions := lift (py_index intent_data "actions") in
    iterate user_input actions v
  else ret v.

(** The end of the turn: the final screenshot, the extracted data, the
    history and the state. *)
Definition finish (v : locals) : M ConversationMessage :=
  let* shot :=
    (fun s => if no_screenshot (screenshot v) && is_initialized (browser s)
              then let (b64, s') := take_screenshot s in (Ok (Some b64), s')
              else (Ok (screenshot v), s)) in
  let* rc :=
    (match extracted_data v with
     | [] => ret (response_content v)
     | _ :: _ =>
         lift (iadd_str (response_content v)
                 (nl +:+ nl +:+ "📋 Extracted Data:" +:+ nl
                  +:+ join nl (extracted_data v)))
     end) in
  update (append_history (mkEntry "assistant" rc)) ;;
  update (set_state IDLE) ;;
  ret (reply rc shot).

(** The turn from the plan on (the code after [analyze_intent]). *)
Definition act_on (user_input : string) (intent_data : pyval)
  : M ConversationMessage :=
  let* requires_info := lift (py_get intent_data "requires_info" PNone) in
  if truthy requires_info then
    update (set_state WAITING_FOR_INPUT) ;;
    let* response := lift (py_index intent_data "response") in
    ret (reply response None)
  else
    update (set_state ACTING) ;;
    let* response := lift (py_index intent_data "response") in
    let* v := run_plan user_input intent_data (mkLocals response None []) in
    finish v.

(** [process_user_input] *)
Definition process_user_input (user_input : string)
  : M ConversationMessage :=
  update (append_history (mkEntry "user" (PStr user_input))) ;;
  fun s =>
  if contains "send email" (lower user_input)
     && negb (truthy (context_get (task_context s) "email_credentials"))
  then
    (update (set_state WAITING_FOR_INPUT) ;;
     ret (reply (PStr ask_credentials) None)) s
  else
    let gate : M bool :=
      if email_task user_input (task_context s) then
        match search re_recipient user_input,
              search re_subject user_input,
              search re_body user_input with
        | Some recipient, Some subject, Some body =>
            update (set_context "email_details"
                      (PDict (<["recipient" := PStr recipient]>
                             (<["subject" := PStr subject]>
                             (<["body" := PStr body]> ∅))))) ;;
            ret true
        | _, _, _ =>
            update (set_state WAITING_FOR_INPUT) ;; ret false
        end
      else ret true in
    (let* go := gate in
     if go then
       update (set_state THINKING) ;;
       let* intent_data :=
         (fun s => let (d, s') :=
                     analyze_intent user_input (conversation_history s) s
                   in (Ok d, s')) in
       act_on user_input intent_data
     else ret (reply (PStr ask_details) None)) s.

End Program.

(** ** Reading the log

    The statements below speak about a turn through the events it adds
    to the log. *)

Section Reading.

Variable W : World.

(** The events one call of [process_user_input] appends. *)
Definition events_of_turn (user_input : string) (s : Agent) : list event :=
  skipn (length (trace s)) (trace (snd (process_user_input W user_input s))).

(** The outcome lines the orchestrator writes for the executed steps,
    in order. *)
Fixpoint lines (evs : list event) : string :=
  match evs with
  | [] => EmptyString
  | EvExecute a true r :: t => success_line W a r +:+ lines t
  | EvExecute a false r :: t => failure_line r +:+ lines t
  | _ :: t => lines t
  end.

(** The results of the successful [extract] steps, in order. *)
Fixpoint extracts (evs : list event) : list string :=
  match evs with
  | [] => []
  | EvExecute a true r :: t =>
      if eq_str (action_type a) "extract" then r :: extracts t
      else extracts t
  | _ :: t => extracts t
  end.

(** The block appended to the reply for the extracted data. *)
Definition extracted_block (l : list string) : string :=
  match l with
  | [] => EmptyString
  | _ :: _ => nl +:+ nl +:+ "📋 Extracted Data:" +:+ nl +:+ join nl l
  end.

(** Some step failed. *)
Fixpoint failed (evs : list event) : bool :=
  match evs with
  | [] => false
  | EvExecute _ false _ :: _ => true
  | _ :: t => failed t
  end.

(** Nothing follows a failed step. *)
Fixpoint halts (evs : list event) : Prop :=
  match evs with
  | [] => True
  | EvExecute _ false _ :: t => t = []
  | _ :: t => halts t
  end.

(** The screenshot taken by [take_screenshot]. *)
Definition is_shot (ev : event) : Prop :=
  match ev with
  | EvPage (Screenshot true 10000) _ => True
  | _ => False
  end.

(** What the [try] block of [execute_action] may do for [a]: page
    operations other than a reload or a screenshot, a wait being for
    [a]'s delay in milliseconds. *)
Definition attempt_event (a : BrowserAction) (ev : event) : Prop :=
  match ev with
  | EvPage (Reload _) _ => False
  | EvPage (Screenshot _ _) _ => False
  | EvPage (WaitForTimeout ms) _ => ms = py_int (delay a * 1000)
  | EvPage _ _ => True
  | _ => False
  end.

(** The durations a turn asks for: every wait is for 1000 ms, every
    sleep for one second, every executed step carries the default
    delay. *)
Definition paced (ev : event) : Prop :=
  match ev with
  | EvPage (WaitForTimeout ms) _ => ms = 1000
  | EvSleep seconds => seconds = default_delay
  | EvExecute a _ _ => delay a = default_delay
  | _ => True
  end.

(** An [EvExecute] records a result [execute_action] really gave. *)
Definition genuine (ev : event) : Prop :=
  match ev with
  | EvExecute a ok r =>
      exists s s', execute_action_body W a s = ((ok, r), s')
  | _ => True
  end.

(** The events of the action loop. *)
Definition loop_event (ev : event) : Prop :=
  match ev with
  | EvAnalyze _ _ => False
  | _ => paced ev /\ genuine ev
  end.

(** Anything but the record of an executed step. *)
Definition quiet (ev : event) : Prop :=
  match ev with
  | EvExecute _ _ _ => False
  | _ => True
  end.

(** The events of one [execute_action] before its record: page
    operations, no screenshot among them. *)
Definition executor_event (ev : event) : Prop :=
  match ev with
  | EvPage (Screenshot _ _) _ => False
  | EvPage _ _ => True
  | _ => False
  end.

(** [s'] is [s] after the events [evs]; the history is untouched. *)
Definition after (s : Agent) (evs : list event) (s' : Agent) : Prop :=
  trace s' = (trace s ++ evs)%list
  /\ conversation_history s' = conversation_history s.

(** What a [try] body does for the action [a]: page operations allowed
    to it, the raising one last. *)
Definition tried (a : BrowserAction) {A} (m : T A) : Prop :=
  forall s x s', m s = (x, s') ->
    exists pe, after s pe s' /\ Forall (attempt_event a) pe
      /\ forall e, x = inr e ->
           exists pe' c, pe = (pe' ++ [EvPage c (Raises e)])%list.

(** What one iteration of the action loop leaves behind. *)
Definition iteration (v : locals) (evs : list event)
    (res : result (bool * locals)) : Prop :=
  Forall loop_event evs /\ halts evs
  /\ forall stop v', res = Ok (stop, v') ->
       stop = failed evs
       /\ (forall b, response_content v = PStr b ->
             response_content v' = PStr (b +:+ lines evs))
       /\ extracted_data v' = (extracted_data v ++ extracts evs)%list.

(** What the loop leaves behind. *)
Definition looped (v : locals) (evs : list event) (res : result locals)
  : Prop :=
  Forall loop_event evs /\ halts evs
  /\ forall v', res = Ok v' ->
       (forall b, response_content v = PStr b ->
          response_content v' = PStr (b +:+ lines evs))
       /\ extracted_data v' = (extracted_data v ++ extracts evs)%list.

End Reading.


(** The action vocabulary of [execute_action]. *)
Definition known_kinds : list string :=
  ["navigate"; "click"; "type"; "scroll"; "wait"; "screenshot"; "select";
   "extract"; "switch_frame"].

(** The context handed to the provider after the system prompt and the
    request: the messages from the third on. *)
Definition context_window (messages : list entry) : list entry :=
  skipn 2 messages.


(** ** The ways a turn can go

    [turn W u s res s' evs]: the call of [process_user_input] on the
    utterance [u] in the state [s] gave [res], left the state [s'] and
    added the events [evs]; one constructor per way through the code. *)

Section Turns.

Variable W : World.

Definition user_entry (u : string) : entry := mkEntry "user" (PStr u).

(** The messages of the turn's [analyze_intent] call and the plan it
    returns. *)
Definition turn_messages (u : string) (s : Agent) : list entry :=
  analyze_messages u (conversation_history s ++ [user_entry u]).

Definition turn_plan (u : string) (s : Agent) : pyval :=
  parse_response W (generate_response W (turn_messages u s) (trace s)).

Inductive turn (u : string) (s : Agent)
  : result ConversationMessage -> Agent -> list event -> Prop :=
| turn_short (prompt : string) (s' : Agent) :
    (* the e-mail preconditions are not met: nothing is called *)
    prompt = ask_credentials \/ prompt = ask_details ->
    state s' = WAITING_FOR_INPUT ->
    conversation_history s' = (conversation_history s ++ [user_entry u])%list ->
    turn u s (Ok (reply (PStr prompt) None)) s' []
| turn_malformed (e : exn) (s' : Agent) :
    (* the plan is no dictionary *)
    py_get (turn_plan u s) "requires_info" PNone = Exn e ->
    state s' = THINKING ->
    conversation_history s' = (conversation_history s ++ [user_entry u])%list ->
    turn u s (Exn e) s' [EvAnalyze (turn_messages u s) (turn_plan u s)]
| turn_wait (ri : pyval) (s' : Agent) :
    (* the plan asks for more information *)
    py_get (turn_plan u s) "requires_info" PNone = Ok ri ->
    truthy ri = true ->
    state s' = WAITING_FOR_INPUT ->
    conversation_history s' = (conversation_history s ++ [user_entry u])%list ->
    turn u s
      (match py_index (turn_plan u s) "response" with
       | Ok r => Ok (reply r None)
       | Exn e => Exn e
       end)
      s' [EvAnalyze (turn_messages u s) (turn_plan u s)]
| turn_act (ri : pyval) (res : result ConversationMessage) (s' : Agent)
      (loop shots : list event) :
    (* the plan is acted on *)
    py_get (turn_plan u s) "requires_info" PNone = Ok ri ->
    truthy ri = false ->
    Forall (loop_event W) loop ->
    halts loop ->
    Forall is_shot shots ->
    (exists t, conversation_history s'
               = (conversation_history s ++ user_entry u :: t)%list) ->
    (forall m, res = Ok m ->
       state s' = IDLE
       /\ conversation_history s'
          = (conversation_history s
             ++ [user_entry u; mkEntry "assistant" (cm_content m)])%list
       /\ forall b, py_index (turn_plan u s) "response" = Ok (PStr b) ->
            cm_content m
            = PStr (b +:+ lines W loop +:+ extracted_block (extracts loop))) ->
    turn u s res s'
      (EvAnalyze (turn_messages u s) (turn_plan u s) :: loop ++ shots).

End Turns.

(** ** Scenarios

    Concrete worlds, plans and states on which the statements are
    exercised. *)

Module Scenario.

(** A stand-in for Python's rendering of non-string values, exact on
    the values the scenarios print. *)
Definition repr (v : pyval) : string :=
  match v with
  | PNone => "None"
  | PBool true => "True"
  | PBool false => "False"
  | PFloat q => if Qeq_bool q 1 then "1.0" else "<float>"
  | _ => "<object>"
  end.

(** A world whose provider always answers [text], which decodes to
    [plan]; every other text is no JSON for it. *)
Definition world (text : string) (plan : pyval)
    (page : list event -> page_call -> answer) : World :=
  mkWorld (fun _ _ => Http 200 text) page
    (fun t => if String.eqb t text then Some plan else None) repr.

(** A page on which everything works. *)
Definition page_fine (_ : list event) (c : page_call) : answer :=
  match c with
  | Screenshot _ _ => Returns (PStr "aGk=")
  | TextContent _ => Returns (PStr "Breaking news")
  | QuerySelector _ => Returns (PBool true)
  | _ => Returns PNone
  end.

(** A page on which no selector ever becomes actionable. *)
Definition page_stuck (_ : list event) (c : page_call) : answer :=
  match c with
  | WaitForSelector _ _ => Raises "Timeout 10000ms exceeded."
  | Screenshot _ _ => Returns (PStr "aGk=")
  | _ => Returns PNone
  end.

(** A page that is gone: the reload fails as well. *)
Definition page_closed (_ : list event) (c : page_call) : answer :=
  Raises "Target page, context or browser has been closed".

Definition plan (response : string) (requires_info actions : list pyval)
  : pyval :=
  PDict (<["intent" := PStr "task"]>
         (<["actions" := PList actions]>
         (<["requires_info" := PList requires_info]>
         (<["response" := PStr response]> ∅)))).

Definition action_data (kind selector typed label : string) : pyval :=
  PDict (<["action_type" := PStr kind]>
         (<["target" := PStr selector]>
         (<["text" := PStr typed]>
         (<["description" := PStr label]> ∅)))).

(** An agent freshly initialized, with the given vault. *)
Definition fresh (ctx : gmap string pyval) : Agent :=
  mkAgent IDLE [] ctx (mkBrowserController true true PNone) [].

Definition credentials (email password : string) : gmap string pyval :=
  <["email_credentials" :=
      PDict (<["email" := PStr email]> (<["password" := PStr password]> ∅))]> ∅.

(** *** A plan whose only step fails *)

Definition click_text : string := quoted
  "{`intent`: `task`, `actions`: [{`action_type`: `click`, `target`: `button.close`, `text`: ``, `description`: `Close the dialog`}], `requires_info`: [], `response`: `Closing the dialog.`}".

Definition click_plan : pyval :=
  plan "Closing the dialog." []
    [action_data "click" "button.close" EmptyString "Close the dialog"].

Definition click_world : World := world click_text click_plan page_stuck.

Definition click_action : BrowserAction :=
  mkBrowserAction (PStr "click") (PStr "button.close") (PStr EmptyString)
    (PStr "Close the dialog") default_delay PNone.

Definition click_failure : string :=
  "Action failed: Timeout 10000ms exceeded.. Page reloaded for retry.".

(** *** A plan that asks for more information *)

Definition ask_text : string := quoted
  "{`intent`: `task`, `actions`: [{`action_type`: `navigate`, `target`: `https://mail.google.com`, `text`: ``, `description`: `Navigate to Gmail`}], `requires_info`: [`email subject`], `response`: `What should the subject be?`}".

Definition ask_plan : pyval :=
  plan "What should the subject be?" [PStr "email subject"]
    [action_data "navigate" "https://mail.google.com" EmptyString
       "Navigate to Gmail"].

Definition ask_world : World := world ask_text ask_plan page_fine.

(** *** The same failing step, announced with a cross *)





(** *** Signing in with the stored password *)

Definition secret : string := "hunter2-Zq".

Definition vault : gmap string pyval :=
  credentials "agent.test@gmail.com" secret.

Definition sign_in_text : string := quoted
  "{`intent`: `task`, `actions`: [{`action_type`: `type`, `target`: `input[type='password']`, `text`: ``, `description`: `Enter the password`}], `requires_info`: [], `response`: `Signing in to Gmail.`}".

Definition sign_in_plan : pyval :=
  plan "Signing in to Gmail." []
    [action_data "type" "input[type='password']" EmptyString
       "Enter the password"].

Definition sign_in_world : World := world sign_in_text sign_in_plan page_fine.

Definition sign_in_request : string :=
  "Send email to bob@example.com, subject 'Hi', body 'See you'".

Definition sign_in_action : BrowserAction :=
  mkBrowserAction (PStr "type") (PStr "input[type='password']") (PStr secret)
    (PStr "Enter the password") default_delay PNone.

Definition sign_in_result : string :=
  "Typed 'hunter2-Zq' into input[type='password']".

Definition sign_in_reply : string :=
  "Signing in to Gmail." +:+ nl +:+ nl +:+
  "✅ Enter the password: Typed 'hunter2-Zq' into input[type='password']".

Definition follow_up : string := "what happened?".

(** *** A step of a kind the executor does not know *)





(** *** A vault that holds the address only *)



(** *** A conversation of five entries *)

Definition five : list entry :=
  [ mkEntry "user" (PStr "open example.com");
    mkEntry "assistant" (PStr "Opening example.com.");
    mkEntry "user" (PStr "scroll down");
    mkEntry "assistant" (PStr "Scrolling.");
    mkEntry "user" (PStr "take a screenshot") ].

Definition talked : Agent :=
  mkAgent IDLE five ∅ (mkBrowserController true true PNone) [].

(** *** Named pieces of the runs *)

Definition click_request : string := "close the dialog".

Definition click_reply : string :=
  "Closing the dialog." +:+ nl +:+ nl +:+
  "❌ Failed: Action failed: Timeout 10000ms exceeded.. Page reloaded for retry.".

Definition click_wait : event :=
  EvPage (WaitForSelector (PStr "button.close") 10000)
    (Raises "Timeout 10000ms exceeded.").

Definition click_reload : event := EvPage (Reload 30000) (Returns PNone).


Definition other_vault : gmap string pyval :=
  credentials "someone.else@gmail.com" "correct horse battery".

Definition after_sign_in : Agent :=
  snd (process_user_input sign_in_world sign_in_request (fresh vault)).

Definition follow_up_messages : list entry :=
  analyze_messages follow_up
    [ mkEntry "user" (PStr sign_in_request);
      mkEntry "assistant" (PStr sign_in_reply);
      mkEntry "user" (PStr follow_up) ].

Definition next_request : string := "and then?".

Definition next_messages : list entry :=
  [ mkEntry "system" (PStr system_prompt);
    mkEntry "user" (PStr ("User request: " +:+ next_request));
    mkEntry "assistant" (PStr "Opening example.com.");
    mkEntry "user" (PStr "scroll down");
    mkEntry "assistant" (PStr "Scrolling.");
    mkEntry "user" (PStr "take a screenshot");
    mkEntry "user" (PStr next_request) ].

(** *** A text that decodes to a list *)




End Scenario.

(** ** More readers of the log and of the state *)

(** The steps handed to [execute_action], in order. *)
Fixpoint executed (evs : list event) : list BrowserAction :=
  match evs with
  | [] => []
  | EvExecute a _ _ :: t => a :: executed t
  | _ :: t => executed t
  end.

(** The step the loop builds from one element of the plan: the
    construction, then the override with stored values. *)
Definition built (user_input : string) (ctx : gmap string pyval)
    (action_data : pyval) : result BrowserAction :=
  match make_action action_data with
  | Ok a => substitute user_input ctx a
  | Exn e => Exn e
  end.

(** The values [+=] accepts a string for. *)
Definition addable (v : pyval) : Prop :=
  match v with
  | PStr _ | PList _ => True
  | _ => False
  end.

(** What the executor and the loop leave alone in the agent. *)
Definition keeps (s s' : Agent) : Prop :=
  task_context s' = task_context s
  /\ conversation_history s' = conversation_history s
  /\ page_open (browser s') = page_open (browser s)
  /\ is_initialized (browser s') = is_initialized (browser s).

(** A [try] body that leaves these, and the state, alone. *)
Definition gentle {A} (m : T A) : Prop :=
  forall s x s', m s = (x, s') -> keeps s s' /\ state s' = state s.

(** The dictionary stored under [email_details]. *)
Definition email_details (recipient subject body : string) : pyval :=
  PDict (<["recipient" := PStr recipient]>
         (<["subject" := PStr subject]>
         (<["body" := PStr body]> ∅))).

(** The elements the action loop draws from a plan: those of the list
    under [actions], none when there is no such list. *)
Definition plan_steps (intent_data : pyval) : list pyval :=
  match py_get intent_data "actions" PNone with
  | Ok (PList l) => l
  | _ => []
  end.

(** The refusal of a step for want of a page. *)
Definition refused (ev : event) : Prop :=
  exists a, ev = EvExecute a false "Browser not initialized".

(** ** More readers of the executor *)

(** A page operation that returned. *)
Definition answered (ev : event) : Prop :=
  match ev with
  | EvPage _ (Returns _) => True
  | _ => False
  end.

(** A [try] body whose page operations all return, but the last when it
    raises. *)
Definition orderly (W : World) {A} (m : T A) : Prop :=
  forall s x s', m s = (x, s') ->
    exists pe, trace s' = (trace s ++ pe)%list
      /\ match x with
         | inl _ => Forall answered pe
         | inr e =>
             exists pre c, pe = (pre ++ [EvPage c (Raises e)])%list
                           /\ Forall answered pre
         end.

(** A [try] body that reports success when it ends. *)
Definition verdict (m : T (bool * string)) : Prop :=
  forall s ok r s', m s = (inl (ok, r), s') -> ok = true.

(** Two agents that differ at most in the frame last switched to. *)
Definition alike (s1 s2 : Agent) : Prop :=
  state s1 = state s2
  /\ conversation_history s1 = conversation_history s2
  /\ task_context s1 = task_context s2
  /\ page_open (browser s1) = page_open (browser s2)
  /\ is_initialized (browser s1) = is_initialized (browser s2)
  /\ trace s1 = trace s2.

(** Code that does not look at the frame: on agents that are alike it
    gives the same result and leaves agents that are alike. *)
Definition blind {X} (m : Agent -> X * Agent) : Prop :=
  forall s1 s2, alike s1 s2 ->
    fst (m s1) = fst (m s2) /\ alike (snd (m s1)) (snd (m s2)).

(** ** The provider's answers *)

(** The two texts [generate_response] returns in place of the
    provider's. *)
Definition apology_status : string :=
  "I apologize, but I'm having trouble processing your request right now.".

Definition apology_exception : string :=
  "I encountered an error while processing your request.".

(** The provider answered with status 200. *)
Definition delivered (a : http_answer) : bool :=
  match a with
  | Http status_code _ => status_code =? 200
  | HttpRaises => false
  end.

(** The reply of the fallback plan. *)
Definition ask_to_clarify : string :=
  "I'm sorry, I didn't understand your request. Could you provide more details?".

(** A [try] body whose report is not the refusal for want of a page. *)
Definition outspoken (m : T (bool * string)) : Prop :=
  forall s ok r s', m s = (inl (ok, r), s') -> r <> "Browser not initialized".

(** ** More readers of texts *)






(** ** Counting in the log *)

(** The pacing sleeps. *)
Fixpoint pauses (evs : list event) : nat :=
  match evs with
  | [] => 0
  | EvSleep _ :: t => S (pauses t)
  | _ :: t => pauses t
  end.

(** The steps that succeeded. *)
Fixpoint successes (evs : list event) : nat :=
  match evs with
  | [] => 0
  | EvExecute _ true _ :: t => S (successes t)
  | _ :: t => successes t
  end.

(** Code that sleeps once after each step that succeeded, when it
    returns; when it raises, the last success may be without its
    sleep. *)
Definition paces {A} (m : M A) : Prop :=
  forall s res s', m s = (res, s') ->
    exists evs, trace s' = (trace s ++ evs)%list
      /\ (pauses evs <= successes evs <= S (pauses evs))%nat
      /\ forall a, res = Ok a -> pauses evs = successes evs.

(** ** The life of the controller

    [BrowserController.initialize] and [cleanup], and the two methods
    of the agent that call them.  What they ask of
    Playwright and of the file system is answered by a host, which
    knows everything it was asked before. *)

Definition user_data_dir : string := "./browser_data".

(** The calls made to the host.  The two launches of the persistent
    context differ in the channel alone: the other arguments (the
    command-line switches, the viewport, the user agent) are the same
    constants in both. *)
Inductive host_call : Type :=
| StartPlaywright
| MakeDirs (path : string) (exist_ok : bool)
| LaunchPersistentContext (path : string) (headless : bool)
    (channel : option string)
| NewPage
| ContextCookies
| ClosePage
| CloseContext
| StopPlaywright
| RemoveTree (path : string) (ignore_errors : bool).

Definition host_event : Type := host_call * answer.

Definition Host : Type := list host_event -> host_call -> answer.

(** The agent with the two handles of its controller that the record
    [BrowserController] above leaves out: [self.context] and
    [self.playwright] are set. *)
Record System : Type := mkSystem {
  agent : Agent;
  context_open : bool;
  playwright_on : bool
}.

(** A system and the log of the host. *)
Definition Live : Type := System * list host_event.

Definition set_browser (b : BrowserController) (s : Agent) : Agent :=
  mkAgent (state s) (conversation_history s) (task_context s) b (trace s).

Definition on_agent (f : Agent -> Agent) (x : Live) : Live :=
  (mkSystem (f (agent (fst x))) (context_open (fst x)) (playwright_on (fst x)),
   snd x).

Definition with_page (x : Live) : Live :=
  on_agent (fun s => set_browser
                       (mkBrowserController true
                          (is_initialized (browser s))
                          (current_frame (browser s))) s) x.

Definition with_initialized (b : bool) (x : Live) : Live :=
  on_agent (fun s => set_browser
                       (mkBrowserController (page_open (browser s)) b
                          (current_frame (browser s))) s) x.

Definition with_context (x : Live) : Live :=
  (mkSystem (agent (fst x)) true (playwright_on (fst x)), snd x).

Definition with_playwright (x : Live) : Live :=
  (mkSystem (agent (fst x)) (context_open (fst x)) true, snd x).

(** One call to the host, recorded with its answer. *)
Definition ask (H : Host) (c : host_call) (x : Live) : answer * Live :=
  let a := H (snd x) c in (a, (fst x, (snd x ++ [(c, a)])%list)).

Module Controller.

(** The two launches: Chrome, and the bundled Chromium when Chrome
    raised. *)
Definition launch (H : Host) (headless : bool) (x : Live)
  : option string * Live :=
  match ask H (LaunchPersistentContext user_data_dir headless (Some "chrome")) x
  with
  | (Returns _, x1) => (None, with_context x1)
  | (Raises _, x1) =>
      match ask H (LaunchPersistentContext user_data_dir headless None) x1 with
      | (Returns _, x2) => (None, with_context x2)
      | (Raises e, x2) => (Some e, x2)
      end
  end.

(** [initialize]: [None] when it returns, [Some e] when it raises [e]
    again from its handler. *)
Definition initialize (H : Host) (headless : bool) (x : Live)
  : option string * Live :=
  match ask H StartPlaywright x with
  | (Raises e, x1) => (Some e, x1)
  | (Returns _, x1) =>
      match ask H (MakeDirs user_data_dir true) (with_playwright x1) with
      | (Raises e, x2) => (Some e, x2)
      | (Returns _, x2) =>
          match launch H headless x2 with
          | (Some e, x3) => (Some e, x3)
          | (None, x3) =>
              match ask H NewPage x3 with
              | (Raises e, x4) => (Some e, x4)
              | (Returns _, x4) =>
                  match ask H ContextCookies
                          (with_initialized true (with_page x4)) with
                  | (Raises e, x5) => (Some e, x5)
                  | (Returns _, x5) => (None, x5)
                  end
              end
          end
      end
  end.

(** One step of [cleanup]: the close is asked for when the handle is
    set. *)
Definition close (H : Host) (handle : bool) (c : host_call) (x : Live)
  : option string * Live :=
  if handle then
    match ask H c x with
    | (Returns _, x1) => (None, x1)
    | (Raises e, x1) => (Some e, x1)
    end
  else (None, x).

(** [cleanup]: it returns in every case, its handler logs and goes
    on. *)
Definition cleanup (H : Host) (x : Live) : Live :=
  match close H (page_open (browser (agent (fst x)))) ClosePage x with
  | (Some _, x1) => x1
  | (None, x1) =>
      match close H (context_open (fst x1)) CloseContext x1 with
      | (Some _, x2) => x2
      | (None, x2) =>
          match close H (playwright_on (fst x2)) StopPlaywright x2 with
          | (Some _, x3) => x3
          | (None, x3) => with_initialized false x3
          end
      end
  end.

End Controller.

Module Orchestrator.

(** [ConversationalBrowserAgent.__init__] *)
Definition new : System :=
  mkSystem (mkAgent IDLE [] ∅ (mkBrowserController false false PNone) [])
    false false.

(** [ConversationalBrowserAgent.initialize] *)
Definition initialize (H : Host) (x : Live) : option string * Live :=
  match Controller.initialize H false x with
  | (Some e, x1) => (Some e, x1)
  | (None, x1) => (None, on_agent (set_state IDLE) x1)
  end.

(** [ConversationalBrowserAgent.cleanup] *)
Definition cleanup (H : Host) (x : Live) : Live := Controller.cleanup H x.

(** A turn of the agent of the system. *)
Definition converse (W : World) (user_input : string) (x : Live)
  : result ConversationMessage * Live :=
  let (res, s') := process_user_input W user_input (agent (fst x)) in
  (res, on_agent (fun _ => s') x).

End Orchestrator.

(** What can be done to a system, one after the other, from the start
    of the host. *)
Inductive reachable (W : World) (H : Host) : Live -> Prop :=
| reach_new (hl : list host_event) :
    reachable W H (Orchestrator.new, hl)
| reach_initialize (x : Live) :
    reachable W H x -> reachable W H (snd (Orchestrator.initialize H x))
| reach_converse (x : Live) (u : string) :
    reachable W H x -> reachable W H (snd (Orchestrator.converse W u x))
| reach_cleanup (x : Live) :
    reachable W H x -> reachable W H (Orchestrator.cleanup H x)
| reach_store (x : Live) (k : string) (v : pyval) :
    (* a caller writes to [task_context], as the application does *)
    reachable W H x -> reachable W H (on_agent (set_context k v) x).

(** ** The session of the application

    [BrowserAgentApp]: what one run of the Streamlit script does to
    [st.session_state] when the Initialize button was pressed, when the
    Clear button was pressed, and when a command was submitted.  The
    layout of the page is left out; the notices the handlers show are
    recorded. *)

(** An entry of [st.session_state.messages]; the time stamp of a reply
    is left out, as in [ConversationMessage]. *)
Record ui_message : Type := mkUiMessage {
  ui_role : string;
  ui_content : pyval;
  ui_screenshot : option string
}.

(** What a handler shows: [st.error] and [st.success] with their text
    (for [st.error] after an exception of a turn, the text before the
    exception), and [st.rerun]. *)
Inductive display : Type :=
| StError (text : string)
| StErrorOf (text : string) (e : exn)
| StSuccess (text : string)
| StRerun.

Record Session : Type := mkSession {
  messages : list ui_message;
  agent_initialized : bool;
  session_agent : option System;
  openrouter_api_key : option string;
  shown : list display;
  host_log : list host_event
}.

Module App.

(** [BrowserAgentApp.__init__] on a new session. *)
Definition start (hl : list host_event) : Session :=
  mkSession [] false None None [] hl.

Definition show (d : display) (x : Session) : Session :=
  mkSession (messages x) (agent_initialized x) (session_agent x)
    (openrouter_api_key x) (shown x ++ [d]) (host_log x).

Definition add_message (m : ui_message) (x : Session) : Session :=
  mkSession (messages x ++ [m]) (agent_initialized x) (session_agent x)
    (openrouter_api_key x) (shown x) (host_log x).

(** The session after the agent's methods ran on its system. *)
Definition put (l : Live) (x : Session) : Session :=
  mkSession (messages x) (agent_initialized x) (Some (fst l))
    (openrouter_api_key x) (shown x) (snd l).

(** The credentials the Initialize handler stores. *)
Definition gmail (gmail_email gmail_password : string) : pyval :=
  PDict (<["email" := PStr gmail_email]>
         (<["password" := PStr gmail_password]> ∅)).

(** The agent the Initialize handler makes, with the credentials when
    both were entered. *)
Definition made (gmail_email gmail_password : string) : System :=
  if truthy (PStr gmail_email) && truthy (PStr gmail_password) then
    mkSystem
      (set_context "email_credentials" (gmail gmail_email gmail_password)
         (agent Orchestrator.new))
      false false
  else Orchestrator.new.

(** The Initialize button. *)
Definition press_initialize (H : Host)
    (key gmail_email gmail_password : string) (x : Session) : Session :=
  if truthy (PStr key) then
    let x1 :=
      mkSession (messages x) true (Some (made gmail_email gmail_password))
        (Some key) (shown x) (host_log x) in
    match Orchestrator.initialize H
            (made gmail_email gmail_password, host_log x1) with
    | (None, l) =>
        show (StSuccess "✅ Agent initialized! Start chatting below.")
          (put l x1)
    | (Some e, l) =>
        show (StError ("❌ Failed to initialize agent: " +:+ e)) (put l x1)
    end
  else show (StError "Please provide OpenRouter API key") x.

(** The Clear button, which is there when the session is marked
    initialized. *)
Definition press_clear (H : Host) (x : Session) : Session :=
  if agent_initialized x then
    match session_agent x with
    | None =>
        show (StErrorOf "❌ Failed to clear browser data: " AttributeError) x
    | Some sys =>
        let l :=
          if is_initialized (browser (agent sys))
          then Orchestrator.cleanup H (sys, host_log x)
          else (sys, host_log x) in
        match ask H (RemoveTree user_data_dir true) l with
        | (Returns _, l1) =>
            let x1 :=
              show (StSuccess "✅ Browser data cleared. Next session will be fresh.")
                (put l1 x) in
            mkSession (messages x1) false None (openrouter_api_key x1)
              (shown x1) (host_log x1)
        | (Raises e, l1) =>
            show (StError ("❌ Failed to clear browser data: " +:+ e))
              (put l1 x)
        end
    end
  else x.

(** The entry made for a reply. *)
Definition message_data (response : ConversationMessage) : ui_message :=
  mkUiMessage "assistant" (cm_content response)
    (if negb (no_screenshot (cm_screenshot response))
     then cm_screenshot response else None).

(** [run_coroutine]: the result of the coroutine, or [None] after a
    notice when it raised. *)
Definition run_coroutine {A} (r : result A) (x : Session)
  : option A * Session :=
  match r with
  | Ok a => (Some a, x)
  | Exn e => (None, show (StErrorOf "Error: " e) x)
  end.

(** A command submitted in the chat input. *)
Definition submit (W : World) (user_input : string) (x : Session) : Session :=
  if truthy (PStr user_input) then
    if negb (agent_initialized x) then
      show (StError "Please initialize the agent first using the sidebar.") x
    else
      let x1 := add_message (mkUiMessage "user" (PStr user_input) None) x in
      match session_agent x1 with
      | None =>
          show (StErrorOf "❌ Error processing command: " AttributeError) x1
      | Some sys =>
          let (r, l) := Orchestrator.converse W user_input (sys, host_log x1) in
          match run_coroutine r (put l x1) with
          | (Some response, x2) =>
              show StRerun (add_message (message_data response) x2)
          | (None, x2) => x2
          end
      end
  else x.

End App.

(** ** More scenarios *)

Module Cases.

Import Scenario.

(** An agent whose browser never started: no page, not initialized. *)
Definition pageless : Agent :=
  mkAgent IDLE [] ∅ (mkBrowserController false false PNone) [].

(** *** Writing a message *)

Definition compose_text : string := quoted
  "{`intent`: `task`, `actions`: [{`action_type`: `type`, `target`: `input[aria-label='To']`, `text`: `someone`, `description`: `Fill in the recipient`}, {`action_type`: `type`, `target`: `input[aria-label='Subject']`, `text`: `something`, `description`: `Fill in the subject`}, {`action_type`: `type`, `target`: `div[aria-label='Message Body']`, `text`: `some text`, `description`: `Write the message`}], `requires_info`: [], `response`: `Writing the message.`}".

Definition compose_plan : pyval :=
  plan "Writing the message." []
    [ action_data "type" "input[aria-label='To']" "someone"
        "Fill in the recipient";
      action_data "type" "input[aria-label='Subject']" "something"
        "Fill in the subject";
      action_data "type" "div[aria-label='Message Body']" "some text"
        "Write the message" ].

Definition compose_world : World := world compose_text compose_plan page_fine.


Definition compose_steps : list BrowserAction :=
  [ mkBrowserAction (PStr "type") (PStr "input[aria-label='To']")
      (PStr "bob@example.com") (PStr "Fill in the recipient") default_delay
      PNone;
    mkBrowserAction (PStr "type") (PStr "input[aria-label='Subject']")
      (PStr "Hi") (PStr "Fill in the subject") default_delay PNone;
    mkBrowserAction (PStr "type") (PStr "div[aria-label='Message Body']")
      (PStr "See you") (PStr "Write the message") default_delay PNone ].


(** *** The provider is down *)

Definition down_world : World :=
  mkWorld (fun _ _ => Http 503 "Service Unavailable") page_fine
    (fun _ => None) repr.

(** *** The command the application gives as an example *)



End Cases.

(** ** Scenarios of the life cycle and of the session *)

Module Stage.

Import Scenario.

(** A host on which everything works. *)
Definition host_fine : Host := fun _ _ => Returns PNone.

(** A host without browsers: nothing of Playwright works, files do. *)
Definition host_down : Host :=
  fun _ c =>
    match c with
    | MakeDirs _ _ | RemoveTree _ _ => Returns PNone
    | _ => Raises "Playwright is not installed"
    end.

(** A host on which the cookies of the context cannot be read. *)
Definition host_no_cookies : Host :=
  fun _ c =>
    match c with
    | ContextCookies => Raises "cookies unavailable"
    | _ => Returns PNone
    end.

(** A session whose agent is up. *)
Definition ready : Session :=
  mkSession [] true (Some (mkSystem (fresh ∅) true true)) (Some "sk-test")
    [] [].

End Stage.

(** * Proofs *)

(** ** Facts about the text helpers *)

Module TextFacts.

Lemma app_cons (x : ascii) (a b : string) :
  String x a +:+ b = String x (a +:+ b).
Proof. reflexivity. Qed.

Lemma app_nil_l (b : string) : EmptyString +:+ b = b.
Proof. reflexivity. Qed.

Lemma app_assoc (a b c : string) : (a +:+ b) +:+ c = a +:+ (b +:+ c).
Proof.
  induction a as [|x a IH]; [reflexivity|].
  rewrite !app_cons. f_equal. exact IH.
Qed.

Lemma app_nil_r (a : string) : a +:+ EmptyString = a.
Proof.
  induction a as [|x a IH]; [reflexivity|].
  rewrite app_cons. f_equal. exact IH.
Qed.

Lemma prefix_app (sub b : string) : String.prefix sub (sub +:+ b) = true.
Proof.
  induction sub as [|x sub IH].
  - now destruct b.
  - rewrite app_cons. simpl.
    destruct (ascii_dec x x) as [_|N]; [exact IH | now destruct N].
Qed.

Lemma prefix_inv (sub s : string) :
  String.prefix sub s = true -> exists b, s = sub +:+ b.
Proof.
  revert s; induction sub as [|x sub IH]; intros s H.
  - now exists s.
  - destruct s as [|y s]; simpl in H; [discriminate|].
    destruct (ascii_dec x y) as [->|]; [|discriminate].
    destruct (IH _ H) as [b ->]. now exists b.
Qed.

Lemma contains_prefix (sub s : string) :
  String.prefix sub s = true -> contains sub s = true.
Proof. intros H. destruct s; cbn [contains]; rewrite H; reflexivity. Qed.

(** [sub in s] holds exactly when [s] splits around a copy of [sub]. *)
Lemma contains_intro (a sub b : string) :
  contains sub (a +:+ sub +:+ b) = true.
Proof.
  induction a as [|x a IH].
  - rewrite app_nil_l. apply contains_prefix, prefix_app.
  - rewrite app_cons. simpl. rewrite IH. apply orb_true_r.
Qed.

Lemma contains_inv (sub s : string) :
  contains sub s = true -> exists a b, s = a +:+ sub +:+ b.
Proof.
  induction s as [|x s IH]; cbn [contains]; intros H.
  - rewrite orb_false_r in H. destruct (prefix_inv _ _ H) as [b E].
    exists EmptyString, b. exact E.
  - apply orb_true_iff in H as [H|H].
    + destruct (prefix_inv _ _ H) as [b E]. exists EmptyString, b. exact E.
    + destruct (IH H) as (a & b & ->). now exists (String x a), b.
Qed.

Lemma contains_app_r (sub a b : string) :
  contains sub b = true -> contains sub (a +:+ b) = true.
Proof.
  intros H. destruct (contains_inv _ _ H) as (p & q & ->).
  rewrite <- app_assoc. apply contains_intro.
Qed.

Lemma contains_app_l (sub a b : string) :
  contains sub a = true -> contains sub (a +:+ b) = true.
Proof.
  intros H. destruct (contains_inv _ _ H) as (p & q & ->).
  rewrite !app_assoc. apply contains_intro.
Qed.

Lemma contains_refl (s : string) : contains s s = true.
Proof.
  pose proof (contains_intro EmptyString s EmptyString) as H.
  now rewrite app_nil_l, app_nil_r in H.
Qed.

Lemma lower_app (a b : string) : lower (a +:+ b) = lower a +:+ lower b.
Proof.
  induction a as [|x a IH]; [reflexivity|].
  rewrite app_cons. simpl. rewrite app_cons. f_equal. exact IH.
Qed.

(** Lower-casing keeps occurrences: an utterance that contains [sub]
    contains [lower sub] once lower-cased. *)
Lemma contains_lower (sub s : string) :
  contains sub s = true -> contains (lower sub) (lower s) = true.
Proof.
  intros H. destruct (contains_inv _ _ H) as (a & b & ->).
  rewrite !lower_app. apply contains_intro.
Qed.

End TextFacts.

(** ** Counting occurrences across a separator *)

Module CountFacts.

Import TextFacts.



End CountFacts.

(** ** Facts about the log readers *)

Section ReadingFacts.

Variable W : World.

Lemma is_shot_quiet ev : is_shot ev -> quiet ev.
Proof. destruct ev; simpl; tauto. Qed.

Lemma lines_app (e1 e2 : list event) :
  lines W (e1 ++ e2) = lines W e1 +:+ lines W e2.
Proof.
  induction e1 as [|ev e1 IH]; [reflexivity|].
  destruct ev as [| |a [] r|]; simpl; rewrite ?IH; try reflexivity;
    now rewrite TextFacts.app_assoc.
Qed.

Lemma extracts_app (e1 e2 : list event) :
  extracts (e1 ++ e2) = (extracts e1 ++ extracts e2)%list.
Proof.
  induction e1 as [|ev e1 IH]; [reflexivity|].
  destruct ev as [| |a [] r|]; simpl; rewrite ?IH; try reflexivity.
  now destruct (eq_str (action_type a) "extract").
Qed.

Lemma failed_app (e1 e2 : list event) :
  failed (e1 ++ e2) = failed e1 || failed e2.
Proof.
  induction e1 as [|ev e1 IH]; [reflexivity|].
  destruct ev as [| |a [] r|]; simpl; rewrite ?IH; reflexivity.
Qed.

Lemma halts_app (e1 e2 : list event) :
  failed e1 = false -> halts e2 -> halts (e1 ++ e2).
Proof.
  induction e1 as [|ev e1 IH]; [intros _ H; exact H|].
  destruct ev as [| |a [] r|]; simpl; intros F H; auto; discriminate.
Qed.

Lemma quiet_lines (evs : list event) :
  Forall quiet evs -> lines W evs = EmptyString.
Proof.
  induction 1 as [|ev evs Q _ IH]; [reflexivity|].
  destruct ev; simpl in *; try exact IH; contradiction.
Qed.

Lemma quiet_extracts (evs : list event) :
  Forall quiet evs -> extracts evs = [].
Proof.
  induction 1 as [|ev evs Q _ IH]; [reflexivity|].
  destruct ev; simpl in *; try exact IH; contradiction.
Qed.

Lemma quiet_failed (evs : list event) :
  Forall quiet evs -> failed evs = false.
Proof.
  induction 1 as [|ev evs Q _ IH]; [reflexivity|].
  destruct ev; simpl in *; try exact IH; contradiction.
Qed.

Lemma quiet_halts (evs : list event) : Forall quiet evs -> halts evs.
Proof.
  induction 1 as [|ev evs Q _ IH]; [exact I|].
  destruct ev; simpl in *; try exact IH; contradiction.
Qed.

(** Fail-fast read off an explicit split of the log. *)
Lemma halts_split (t1 t2 : list event) a r :
  halts (t1 ++ EvExecute a false r :: t2) -> t2 = [].
Proof.
  induction t1 as [|ev t1 IH]; simpl; [tauto|].
  destruct ev as [| |a' [] r'|]; auto.
  intros H. now destruct t1.
Qed.

End ReadingFacts.

(** ** Facts about the executor *)

Section ExecutorFacts.

Variable W : World.

Lemma after_nil s : after s [] s.
Proof. split; [now rewrite app_nil_r | reflexivity]. Qed.

Lemma after_trans s e1 s1 e2 s2 :
  after s e1 s1 -> after s1 e2 s2 -> after s (e1 ++ e2) s2.
Proof.
  intros [T1 H1] [T2 H2]. split; [|congruence].
  rewrite T2, T1. now rewrite app_assoc.
Qed.

Lemma after_log s ev : after s [ev] (log ev s).
Proof. split; reflexivity. Qed.

Lemma after_set_state s st : after s [] (set_state st s).
Proof. split; [simpl; now rewrite app_nil_r | reflexivity]. Qed.

Lemma call_spec c s : after s [EvPage c (fst (call W c s))] (snd (call W c s)).
Proof. split; reflexivity. Qed.

Lemma tried_done a {A} (x : A) : tried a (done x).
Proof.
  intros s y s' E. inversion E; subst. exists []. split; [apply after_nil|].
  split; [constructor | discriminate].
Qed.

Lemma tried_await a c :
  (forall ans, attempt_event a (EvPage c ans)) -> tried a (await W c).
Proof.
  intros P s x s' E. unfold await in E.
  pose proof (call_spec c s) as C. destruct (call W c s) as [ans s1] eqn:Ec.
  simpl in C. exists [EvPage c ans].
  destruct ans as [v|e]; inversion E; subst; (split; [exact C|]);
    (split; [repeat constructor; apply P|]); intros e' Ee; inversion Ee; subst.
  exists [], c. reflexivity.
Qed.

Lemma tried_then a {A B} (m : T A) (k : A -> T B) :
  tried a m -> (forall x, tried a (k x)) -> tried a (then_ m k).
Proof.
  intros Hm Hk s y s' E. unfold then_ in E.
  destruct (m s) as [[x|e] s1] eqn:Em.
  - destruct (Hm _ _ _ Em) as (pe1 & A1 & F1 & _).
    destruct (Hk x _ _ _ E) as (pe2 & A2 & F2 & R2).
    exists (pe1 ++ pe2)%list. split; [eapply after_trans; eauto|].
    split; [apply Forall_app; auto|].
    intros e Ee. destruct (R2 e Ee) as (pe' & c & ->).
    exists (pe1 ++ pe')%list, c. now rewrite app_assoc.
  - inversion E; subst. destruct (Hm _ _ _ Em) as (pe1 & A1 & F1 & R1).
    exists pe1. split; [exact A1|]. split; [exact F1|].
    intros e' Ee. inversion Ee; subst. apply (R1 e' eq_refl).
Qed.

Lemma tried_attempt a : tried a (attempt W a).
Proof.
  unfold attempt.
  repeat match goal with
  | |- tried _ (if ?b then _ else _) => destruct b
  | |- tried _ (then_ _ _) => apply tried_then; [|intros ?]
  | |- tried _ (await _ _) => apply tried_await; intros ?; simpl; auto
  | |- tried _ (done _) => apply tried_done
  end.
  intros s0 y s1 E. inversion E; subst. exists []. split.
  - split; [simpl; now rewrite app_nil_r | reflexivity].
  - split; [constructor | discriminate].
Qed.

Lemma attempt_executor a ev : attempt_event a ev -> executor_event ev.
Proof. destruct ev as [|c ?| |]; simpl; auto. destruct c; auto. Qed.

Lemma attempt_paced a ev :
  delay a = default_delay -> attempt_event a ev -> paced ev.
Proof.
  intros D. destruct ev as [|c ans| |]; simpl; try tauto.
  destruct c; simpl; try tauto. intros ->. rewrite D. reflexivity.
Qed.

Lemma execute_action_spec a s ok r s' :
  execute_action W a s = ((ok, r), s') ->
  exists pe, after s (pe ++ [EvExecute a ok r]) s'
    /\ Forall executor_event pe
    /\ (delay a = default_delay -> Forall paced pe)
    /\ genuine W (EvExecute a ok r).
Proof.
  unfold execute_action. intros E.
  destruct (execute_action_body W a s) as [[ok' r'] s1] eqn:B.
  inversion E; subst. clear E.
  assert (exists pe, after s pe s1 /\ Forall executor_event pe
                     /\ (delay a = default_delay -> Forall paced pe)) as (pe & A & F & P).
  { unfold execute_action_body in B.
    destruct (negb (page_open (browser s))).
    - inversion B; subst. exists []. split; [apply after_nil|]. split; constructor.
    - destruct (attempt W a s) as [[x|e] s2] eqn:Ea;
        destruct (tried_attempt a _ _ _ Ea) as (pe & A & F & _).
      + inversion B; subst. exists pe. split; [exact A|]. split.
        * eapply Forall_impl; [exact F|]. apply attempt_executor.
        * intros D. eapply Forall_impl; [exact F|].
          intros ev. now apply attempt_paced.
      + unfold recover in B. pose proof (call_spec (Reload 30000) s2) as C.
        destruct (call W (Reload 30000) s2) as [ans s3]. simpl in C.
        exists (pe ++ [EvPage (Reload 30000) ans])%list.
        assert (s1 = s3) as -> by (destruct ans; inversion B; reflexivity).
        split; [eapply after_trans; eauto|]. split.
        * apply Forall_app. split; [|repeat constructor].
          eapply Forall_impl; [exact F|]. apply attempt_executor.
        * intros D. apply Forall_app. split; [|repeat constructor].
          eapply Forall_impl; [exact F|].
          intros ev. now apply attempt_paced. }
  exists pe. split; [eapply after_trans; [exact A | apply after_log]|].
  split; [exact F|]. split; [exact P|]. simpl. eauto.
Qed.

Lemma take_screenshot_spec s :
  exists pe, after s pe (snd (take_screenshot W s)) /\ Forall is_shot pe.
Proof.
  unfold take_screenshot. destruct (negb (page_open (browser s))).
  - exists []. split; [apply after_nil | constructor].
  - pose proof (call_spec (Screenshot true 10000) s) as C.
    destruct (call W (Screenshot true 10000) s) as [ans s1]. simpl in C.
    exists [EvPage (Screenshot true 10000) ans].
    split; [|repeat constructor].
    destruct ans as [[]|]; exact C.
Qed.

End ExecutorFacts.

(** ** Facts about the action loop *)

Section LoopFacts.

Variable W : World.

Lemma make_action_delay d a : make_action d = Ok a -> delay a = default_delay.
Proof.
  unfold make_action. destruct d as [| | | | | |dd]; simpl; try discriminate.
  destruct (dd !! "action_type"); [|discriminate].
  intros E. inversion E. reflexivity.
Qed.

Lemma with_text_delay a r a' : with_text a r = Ok a' -> delay a' = delay a.
Proof. destruct r; simpl; [|discriminate]. intros E. now inversion E. Qed.

Lemma substitute_delay u ctx a a' :
  substitute u ctx a = Ok a' -> delay a' = delay a.
Proof.
  unfold substitute.
  repeat match goal with
  | |- (if ?b then _ else _) = _ -> _ => destruct b
  end; try apply with_text_delay; intros E; now inversion E.
Qed.

Lemma lines_step pe a ok r post :
  Forall quiet pe -> Forall quiet post ->
  lines W (pe ++ EvExecute a ok r :: post)
  = if ok then success_line W a r else failure_line r.
Proof.
  intros Q1 Q2. rewrite lines_app, (quiet_lines W pe Q1), TextFacts.app_nil_l.
  destruct ok; simpl; rewrite (quiet_lines W post Q2); apply TextFacts.app_nil_r.
Qed.

Lemma extracts_step pe a ok r post :
  Forall quiet pe -> Forall quiet post ->
  extracts (pe ++ EvExecute a ok r :: post)
  = if ok && eq_str (action_type a) "extract" then [r] else [].
Proof.
  intros Q1 Q2. rewrite extracts_app, (quiet_extracts pe Q1). simpl.
  destruct ok; simpl; rewrite (quiet_extracts post Q2); [|reflexivity].
  now destruct (eq_str (action_type a) "extract").
Qed.

Lemma failed_step pe a ok r post :
  Forall quiet pe -> Forall quiet post ->
  failed (pe ++ EvExecute a ok r :: post) = negb ok.
Proof.
  intros Q1 Q2. rewrite failed_app, (quiet_failed pe Q1). simpl.
  destruct ok; simpl; [apply (quiet_failed post Q2) | reflexivity].
Qed.

Lemma halts_step pe a ok r post :
  Forall quiet pe -> Forall quiet post -> (ok = false -> post = []) ->
  halts (pe ++ EvExecute a ok r :: post).
Proof.
  intros Q1 Q2 H. apply halts_app; [apply (quiet_failed pe Q1)|].
  destruct ok; simpl; [apply (quiet_halts post Q2) | now apply H].
Qed.

Lemma executor_quiet ev : executor_event ev -> quiet ev.
Proof. destruct ev; simpl; tauto. Qed.

Lemma executor_not_analyze ev : executor_event ev -> paced ev -> loop_event W ev.
Proof. destruct ev; simpl; tauto. Qed.

Lemma shot_loop ev : is_shot ev -> loop_event W ev.
Proof.
  destruct ev as [|c ?| |]; simpl; try tauto.
  destruct c; simpl; try tauto.
Qed.

Lemma iadd_str_text v line rc b :
  iadd_str v line = Ok rc -> v = PStr b -> rc = PStr (b +:+ line).
Proof. intros E ->. simpl in E. now inversion E. Qed.

Lemma iteration_raised v evs e :
  Forall (loop_event W) evs -> halts evs -> iteration W v evs (Exn e).
Proof. intros F H. split; [exact F|]. split; [exact H|]. discriminate. Qed.

Lemma step_spec u d v s res s' :
  step W u d v s = (res, s') ->
  exists evs, after s evs s' /\ iteration W v evs res.
Proof.
  unfold step, bind, lift, total, update, ret. intros E.
  destruct (make_action d) as [a0|e] eqn:Em.
  2:{ inversion E; subst. exists []. split; [apply after_nil|].
      apply iteration_raised; [constructor | exact I]. }
  destruct (substitute u (task_context s) a0) as [a|e] eqn:Es.
  2:{ inversion E; subst. exists []. split; [apply after_nil|].
      apply iteration_raised; [constructor | exact I]. }
  assert (delay a = default_delay) as D.
  { rewrite (substitute_delay _ _ _ _ Es). apply (make_action_delay _ _ Em). }
  destruct (execute_action W a s) as [[ok r] s1] eqn:Ex.
  destruct (execute_action_spec W _ _ _ _ _ Ex) as (pe & A1 & Fe & Fp & G).
  specialize (Fp D).
  assert (Forall quiet pe) as Qpe
    by (eapply Forall_impl; [exact Fe | apply executor_quiet]).
  assert (Forall (loop_event W) pe) as Lpe.
  { apply Forall_forall. intros ev Hin.
    apply executor_not_analyze; [eapply Forall_forall in Fe | eapply Forall_forall in Fp]; eauto. }
  assert (loop_event W (EvExecute a ok r)) as Lx by (split; [exact D | exact G]).
  destruct ok.
  - destruct (iadd_str (response_content v) (success_line W a r)) as [rc|e] eqn:Ei.
    2:{ inversion E; subst. exists (pe ++ [EvExecute a true r])%list.
        split; [exact A1|]. apply iteration_raised.
        - apply Forall_app; split; [exact Lpe | constructor; [exact Lx | constructor]].
        - apply halts_step; [exact Qpe | constructor | discriminate]. }
    set (shoot := in_strs (action_type a)
                    ["navigate"; "click"; "type"; "select"; "switch_frame"]) in *.
    assert (exists shots s2 shot,
               after s1 shots s2 /\ Forall is_shot shots
               /\ (res, s') = (Ok (false,
                                   mkLocals rc shot
                                     (if eq_str (action_type a) "extract"
                                      then (extracted_data v ++ [r])%list
                                      else extracted_data v)),
                               log (EvSleep (delay a)) s2))
      as (shots & s2 & shot & A2 & Fs & E2).
    { destruct shoot.
      - destruct (take_screenshot_spec W s1) as (shots & A2 & Fs).
        destruct (take_screenshot W s1) as [b64 s2]. simpl in A2.
        exists shots, s2, (Some b64). now rewrite <- E.
      - exists [], s1, (screenshot v). split; [apply after_nil|].
        split; [constructor | now rewrite <- E]. }
    inversion E2; subst. clear E2 E.
    assert (Forall quiet (shots ++ [EvSleep (delay a)])) as Qpost.
    { apply Forall_app; split; [|repeat constructor].
      eapply Forall_impl; [exact Fs | apply is_shot_quiet]. }
    exists (pe ++ EvExecute a true r :: shots ++ [EvSleep (delay a)])%list.
    split.
    { replace (pe ++ EvExecute a true r :: shots ++ [EvSleep (delay a)])%list
        with ((pe ++ [EvExecute a true r]) ++ shots ++ [EvSleep (delay a)])%list
        by (now rewrite <- app_assoc).
      eapply after_trans; [exact A1|]. eapply after_trans; [exact A2|].
      apply after_log. }
    split.
    { apply Forall_app; split; [exact Lpe|]. constructor; [exact Lx|].
      apply Forall_app; split.
      - eapply Forall_impl; [exact Fs | apply shot_loop].
      - constructor; [split; [exact D | exact I] | constructor]. }
    split; [apply halts_step; [exact Qpe | exact Qpost | discriminate]|].
    intros stop v' Eo. inversion Eo; subst. clear Eo.
    rewrite lines_step, extracts_step, failed_step by assumption. simpl.
    split; [reflexivity|]. split.
    + intros b Hb. now apply (iadd_str_text _ _ _ _ Ei).
    + now destruct (eq_str (action_type a) "extract"); rewrite ?app_nil_r.
  - destruct (iadd_str (response_content v) (failure_line r)) as [rc|e] eqn:Ei.
    2:{ inversion E; subst. exists (pe ++ [EvExecute a false r])%list.
        split; [exact A1|]. apply iteration_raised.
        - apply Forall_app; split; [exact Lpe | constructor; [exact Lx | constructor]].
        - apply halts_step; [exact Qpe | constructor | reflexivity]. }
    inversion E; subst. clear E.
    exists (pe ++ [EvExecute a false r])%list. split.
    { destruct A1 as [T1 H1]. split; assumption. }
    split; [apply Forall_app; split; [exact Lpe | constructor; [exact Lx | constructor]]|].
    split; [apply halts_step; [exact Qpe | constructor | reflexivity]|].
    intros stop v' Eo. inversion Eo; subst. clear Eo.
    rewrite lines_step, extracts_step, failed_step by (assumption || constructor).
    simpl. split; [reflexivity|]. split.
    + intros b Hb. now apply (iadd_str_text _ _ _ _ Ei).
    + now rewrite app_nil_r.
Qed.

Lemma run_actions_spec u actions : forall v s res s',
  run_actions W u actions v s = (res, s') ->
  exists evs, after s evs s' /\ looped W v evs res.
Proof.
  induction actions as [|d rest IH]; intros v s res s' E.
  - inversion E; subst. exists []. split; [apply after_nil|].
    split; [constructor|]. split; [exact I|].
    intros v' Ev. inversion Ev; subst. split.
    + intros b Hb. simpl. now rewrite TextFacts.app_nil_r.
    + simpl. now rewrite app_nil_r.
  - simpl in E. unfold bind in E.
    destruct (step W u d v s) as [[[stop v1]|e] s1] eqn:Es;
      destruct (step_spec _ _ _ _ _ _ Es) as (e1 & A1 & F1 & H1 & R1).
    2:{ inversion E; subst. exists e1. split; [exact A1|].
        split; [exact F1|]. split; [exact H1|]. discriminate. }
    destruct (R1 _ _ eq_refl) as (Hstop & Hc & Hx).
    destruct stop.
    + inversion E; subst. exists e1. split; [exact A1|].
      split; [exact F1|]. split; [exact H1|].
      intros v' Ev. inversion Ev; subst. split; assumption.
    + destruct (IH _ _ _ _ E) as (e2 & A2 & F2 & H2 & R2).
      exists (e1 ++ e2)%list. split; [eapply after_trans; eauto|].
      split; [apply Forall_app; auto|].
      split; [apply halts_app; [now symmetry | exact H2]|].
      intros v' Ev. destruct (R2 _ Ev) as (Hc2 & Hx2). split.
      * intros b Hb. rewrite (Hc2 _ (Hc _ Hb)), lines_app.
        now rewrite TextFacts.app_assoc.
      * rewrite Hx2, Hx, extracts_app. now rewrite app_assoc.
Qed.

End LoopFacts.

(** ** Facts about the turn *)

Section TurnFacts.

Variable W : World.

Lemma act_on_waiting u d s ri :
  py_get d "requires_info" PNone = Ok ri -> truthy ri = true ->
  act_on W u d s
  = (match py_index d "response" with
     | Ok r => Ok (reply r None)
     | Exn e => Exn e
     end, set_state WAITING_FOR_INPUT s).
Proof.
  intros G T. unfold act_on, bind, lift, update, ret. rewrite G, T.
  now destruct (py_index d "response").
Qed.

Lemma act_on_malformed u d s e :
  py_get d "requires_info" PNone = Exn e -> act_on W u d s = (Exn e, s).
Proof. intros G. unfold act_on, bind, lift. now rewrite G. Qed.

Lemma looped_nothing v : looped W v [] (Ok v).
Proof.
  split; [constructor|]. split; [exact I|].
  intros v' Ev. inversion Ev; subst. simpl. split.
  - intros b Hb. now rewrite TextFacts.app_nil_r.
  - now rewrite app_nil_r.
Qed.

Lemma looped_raised v e : looped W v [] (Exn e).
Proof. split; [constructor|]. split; [exact I | discriminate]. Qed.

Lemma run_plan_spec u d v s res s' :
  run_plan W u d v s = (res, s') ->
  exists loop, after s loop s' /\ looped W v loop res.
Proof.
  unfold run_plan, bind, lift, ret. intros E.
  destruct (py_get d "actions" PNone) as [acts|e].
  2:{ inversion E; subst. exists []. split; [apply after_nil | apply looped_raised]. }
  destruct (truthy acts).
  2:{ inversion E; subst. exists []. split; [apply after_nil | apply looped_nothing]. }
  destruct (py_index d "actions") as [actions|e].
  2:{ inversion E; subst. exists []. split; [apply after_nil | apply looped_raised]. }
  destruct actions; simpl in E;
    try (inversion E; subst; exists []; split; [apply after_nil | apply looped_raised]).
  now apply (run_actions_spec W u l).
Qed.

Lemma finish_spec v s res s' :
  finish W v s = (res, s') ->
  exists shots, trace s' = (trace s ++ shots)%list /\ Forall is_shot shots
    /\ (exists t, conversation_history s' = (conversation_history s ++ t)%list)
    /\ forall m, res = Ok m ->
         state s' = IDLE
         /\ conversation_history s'
            = (conversation_history s ++ [mkEntry "assistant" (cm_content m)])%list
         /\ forall b, response_content v = PStr b ->
              cm_content m = PStr (b +:+ extracted_block (extracted_data v)).
Proof.
  unfold finish, bind, lift, update, ret. intros E.
  assert (exists shot s1 shots,
             (if no_screenshot (screenshot v) && is_initialized (browser s)
              then let (b64, s1) := take_screenshot W s in (Ok (Some b64), s1)
              else (Ok (screenshot v), s)) = (Ok shot, s1)
             /\ after s shots s1 /\ Forall is_shot shots)
    as (shot & s1 & shots & Es & [Ts Hs] & Fs).
  { destruct (no_screenshot (screenshot v) && is_initialized (browser s)).
    - destruct (take_screenshot_spec W s) as (shots & As & Fs).
      destruct (take_screenshot W s) as [b64 s1]. simpl in As.
      exists (Some b64), s1, shots. auto.
    - exists (screenshot v), s, []. split; [reflexivity|].
      split; [apply after_nil | constructor]. }
  rewrite Es in E. clear Es. exists shots.
  destruct (extracted_data v) as [|x xs] eqn:Ex.
  - inversion E; subst. simpl. split; [exact Ts|]. split; [exact Fs|]. split.
    + exists [mkEntry "assistant" (response_content v)]. now rewrite Hs.
    + intros m Em. inversion Em; subst. simpl. split; [reflexivity|].
      split; [now rewrite Hs|]. intros b ->. now rewrite TextFacts.app_nil_r.
  - destruct (iadd_str (response_content v) _) as [rc|e] eqn:Ei.
    + inversion E; subst. simpl. split; [exact Ts|]. split; [exact Fs|]. split.
      * exists [mkEntry "assistant" rc]. now rewrite Hs.
      * intros m Em. inversion Em; subst. simpl. split; [reflexivity|].
        split; [now rewrite Hs|]. intros b Hb.
        now rewrite (iadd_str_text _ _ _ _ Ei Hb).
    + inversion E; subst. split; [exact Ts|]. split; [exact Fs|]. split.
      * exists []. now rewrite app_nil_r.
      * discriminate.
Qed.

Lemma act_on_acting u d s ri res s' :
  py_get d "requires_info" PNone = Ok ri -> truthy ri = false ->
  act_on W u d s = (res, s') ->
  exists loop shots,
    trace s' = (trace s ++ loop ++ shots)%list
    /\ Forall (loop_event W) loop /\ halts loop /\ Forall is_shot shots
    /\ (exists t, conversation_history s' = (conversation_history s ++ t)%list)
    /\ forall m, res = Ok m ->
         state s' = IDLE
         /\ conversation_history s'
            = (conversation_history s ++ [mkEntry "assistant" (cm_content m)])%list
         /\ forall b, py_index d "response" = Ok (PStr b) ->
              cm_content m
              = PStr (b +:+ lines W loop +:+ extracted_block (extracts loop)).
Proof.
  intros G T E. unfold act_on, bind, lift, update, ret in E. rewrite G, T in E.
  assert (forall s0 : Agent, exists t,
             conversation_history s0 = (conversation_history s0 ++ t)%list) as Hid
    by (intros s0; exists []; now rewrite app_nil_r).
  destruct (py_index d "response") as [resp|e] eqn:Er.
  2:{ inversion E; subst. exists [], []. simpl. rewrite app_nil_r.
      split; [reflexivity|]. split; [constructor|]. split; [exact I|].
      split; [constructor|]. split; [apply Hid | discriminate]. }
  destruct (run_plan W u d _ (set_state ACTING s)) as [rl s1] eqn:El.
  destruct (run_plan_spec _ _ _ _ _ _ El) as (loop & [Tl Hl] & Fl & Hh & Rl).
  simpl in Tl, Hl.
  destruct rl as [v|e].
  2:{ inversion E; subst. exists loop, []. rewrite app_nil_r.
      split; [exact Tl|]. split; [exact Fl|]. split; [exact Hh|].
      split; [constructor|]. split; [|discriminate].
      exists []. rewrite app_nil_r. exact Hl. }
  destruct (Rl v eq_refl) as (Hc & Hx). simpl in Hx.
  destruct (finish_spec _ _ _ _ E) as (shots & Ts & Fs & (t & Ht) & R).
  exists loop, shots. split; [rewrite Ts, Tl; now rewrite app_assoc|].
  split; [exact Fl|]. split; [exact Hh|]. split; [exact Fs|]. split.
  - exists t. now rewrite Ht, Hl.
  - intros m Em. destruct (R m Em) as (St & Hm & Hb).
    split; [exact St|]. split; [now rewrite Hm, Hl|].
    intros b Eb. inversion Eb; subst.
    rewrite (Hb _ (Hc _ eq_refl)), Hx. now rewrite TextFacts.app_assoc.
Qed.

(** The events a turn adds are those of one of the four ways. *)
Lemma turn_spec u s res s' :
  process_user_input W u s = (res, s') ->
  exists evs, trace s' = (trace s ++ evs)%list /\ turn W u s res s' evs.
Proof.
  unfold process_user_input, bind, update, ret.
  set (s0 := append_history (mkEntry "user" (PStr u)) s).
  destruct (contains "send email" (lower u)
            && negb (truthy (context_get (task_context s0) "email_credentials"))).
  { intros E. inversion E; subst. exists []. split; [simpl; now rewrite app_nil_r|].
    apply turn_short; auto. }
  (* the state in which the plan is asked for *)
  assert (forall s1 : Agent,
             trace s1 = trace s ->
             conversation_history s1 = conversation_history s0 ->
             act_on W u
               (fst (analyze_intent W u (conversation_history s1) (set_state THINKING s1)))
               (snd (analyze_intent W u (conversation_history s1) (set_state THINKING s1)))
             = (res, s') ->
             exists evs, trace s' = (trace s ++ evs)%list /\ turn W u s res s' evs)
    as Hact.
  { intros s1 T1 H1 E. unfold analyze_intent in E. simpl in E.
    rewrite T1, H1 in E. simpl in E.
    change (parse_response W
              (generate_response W
                 (analyze_messages u (conversation_history s ++ [mkEntry "user" (PStr u)]))
                 (trace s)))
      with (turn_plan W u s) in E.
    change (analyze_messages u (conversation_history s ++ [mkEntry "user" (PStr u)]))
      with (turn_messages u s) in E.
    set (sa := log (EvAnalyze (turn_messages u s) (turn_plan W u s))
                 (set_state THINKING s1)) in *.
    assert (trace sa = (trace s ++ [EvAnalyze (turn_messages u s) (turn_plan W u s)])%list)
      as Ta by (simpl; now rewrite T1).
    assert (conversation_history sa
            = (conversation_history s ++ [user_entry u])%list) as Ha
      by (simpl; now rewrite H1).
    destruct (py_get (turn_plan W u s) "requires_info" PNone) as [ri|e] eqn:G.
    - destruct (truthy ri) eqn:T.
      + rewrite (act_on_waiting _ _ _ _ G T) in E. inversion E; subst.
        eexists. split; [exact Ta|]. eapply turn_wait; eauto.
      + destruct (act_on_acting _ _ _ _ _ _ G T E)
          as (loop & shots & Tt & Fl & Hl & Fs & (t & Ht) & R).
        exists (EvAnalyze (turn_messages u s) (turn_plan W u s) :: loop ++ shots).
        split; [rewrite Tt, Ta; now rewrite <- app_assoc|].
        eapply turn_act; eauto.
        * exists t. rewrite Ht, Ha. now rewrite <- app_assoc.
        * intros m Em. destruct (R m Em) as (St & Hh & Hc).
          split; [exact St|]. split; [|exact Hc].
          rewrite Hh, Ha. now rewrite <- app_assoc.
    - rewrite (act_on_malformed _ _ _ _ G) in E. inversion E; subst.
      eexists. split; [exact Ta|]. eapply turn_malformed; eauto. }
  destruct (email_task u (task_context s0)).
  - destruct (search re_recipient u) as [recipient|];
      [destruct (search re_subject u) as [subject|];
       [destruct (search re_body u) as [body|]|]|];
      try (intros E; inversion E; subst; exists [];
           split; [simpl; now rewrite app_nil_r|]; apply turn_short; auto).
    intros E. eapply (Hact (set_context _ _ s0)); [reflexivity | reflexivity |].
    exact E.
  - intros E. apply (Hact s0); [reflexivity | reflexivity |]. exact E.
Qed.

End TurnFacts.

(** ** The events of a turn *)

Section Events.

Variable W : World.

Lemma events_of_turn_spec u s :
  trace (snd (process_user_input W u s))
  = (trace s ++ events_of_turn W u s)%list
  /\ turn W u s (fst (process_user_input W u s))
       (snd (process_user_input W u s)) (events_of_turn W u s).
Proof.
  unfold events_of_turn.
  destruct (process_user_input W u s) as [res s'] eqn:E. simpl.
  destruct (turn_spec W _ _ _ _ E) as (evs & T & H).
  rewrite T. rewrite drop_app_length. auto.
Qed.

Lemma events_of_turn_run u s res s' :
  process_user_input W u s = (res, s') ->
  trace s' = (trace s ++ events_of_turn W u s)%list
  /\ turn W u s res s' (events_of_turn W u s).
Proof.
  intros E. pose proof (events_of_turn_spec u s) as H.
  now rewrite E in H.
Qed.

Lemma loop_has_no_analyze loop shots msgs d :
  Forall (loop_event W) loop -> Forall is_shot shots ->
  ~ In (EvAnalyze msgs d) (loop ++ shots).
Proof.
  intros Fl Fs Hin. apply in_app_or in Hin as [Hin|Hin].
  - rewrite Forall_forall in Fl. apply list_elem_of_In in Hin.
    exact (Fl _ Hin).
  - rewrite Forall_forall in Fs. apply list_elem_of_In in Hin.
    exact (Fs _ Hin).
Qed.

(** The plan analysed in a turn is the one the log records. *)
Lemma analyzed_plan u s res s' evs msgs d :
  turn W u s res s' evs -> In (EvAnalyze msgs d) evs ->
  msgs = turn_messages u s /\ d = turn_plan W u s.
Proof.
  intros H Hin. destruct H; simpl in Hin.
  - contradiction.
  - destruct Hin as [E|[]]. now inversion E.
  - destruct Hin as [E|[]]. now inversion E.
  - destruct Hin as [E|Hin]; [now inversion E|].
    now apply loop_has_no_analyze in Hin.
Qed.

End Events.

(** ** Claims *)

Section Claims.

Variable W : World.

(** The first precondition check, for an utterance that holds the
    trigger in any letter case. *)
Lemma short_circuit_any_case u s :
  contains "send email" (lower u) = true ->
  truthy (context_get (task_context s) "email_credentials") = false ->
  process_user_input W u s
  = (Ok (reply (PStr ask_credentials) None),
     set_state WAITING_FOR_INPUT (append_history (user_entry u) s)).
Proof.
  intros C T. unfold process_user_input, bind, update, ret. simpl.
  now rewrite C, T.
Qed.

(** C8: for every utterance containing [send email], when no e-mail
    credentials are stored in the task context, the turn ends in
    WaitingForInput with the reply that asks for the Gmail address and
    password, and the Reasoner is not called during the turn: the turn
    adds no event at all to the log. *)
Theorem C8_send_email_without_credentials u s :
  contains "send email" u = true ->
  truthy (context_get (task_context s) "email_credentials") = false ->
  fst (process_user_input W u s) = Ok (reply (PStr ask_credentials) None)
  /\ contains "Gmail address and password" ask_credentials = true
  /\ state (snd (process_user_input W u s)) = WAITING_FOR_INPUT
  /\ events_of_turn W u s = []
  /\ forall msgs d, ~ In (EvAnalyze msgs d) (events_of_turn W u s).
Proof.
  intros C T. apply TextFacts.contains_lower in C. simpl (lower _) in C.
  assert (events_of_turn W u s = []) as E.
  { unfold events_of_turn. rewrite (short_circuit_any_case u s C T). simpl.
    apply drop_all. }
  rewrite (short_circuit_any_case u s C T), E. simpl.
  repeat split; auto.
Qed.

(** C3: for every plan returned by the analysis of a turn whose
    [requires_info] is true in a condition (a non-empty list is), no
    browser step is executed during that turn: the analysis is the only
    event of the turn, so nothing is executed and no page operation is
    made, the orchestrator enters WaitingForInput, and the turn returns
    the plan's reply. *)
Theorem C3_missing_info_blocks_execution u s msgs d ri :
  In (EvAnalyze msgs d) (events_of_turn W u s) ->
  py_get d "requires_info" PNone = Ok ri ->
  truthy ri = true ->
  events_of_turn W u s = [EvAnalyze msgs d]
  /\ (forall a ok r, ~ In (EvExecute a ok r) (events_of_turn W u s))
  /\ (forall c a, ~ In (EvPage c a) (events_of_turn W u s))
  /\ state (snd (process_user_input W u s)) = WAITING_FOR_INPUT
  /\ fst (process_user_input W u s)
     = match py_index d "response" with
       | Ok r => Ok (reply r None)
       | Exn e => Exn e
       end.
Proof.
  intros Hin G T. destruct (events_of_turn_spec W u s) as [_ H].
  destruct (analyzed_plan W _ _ _ _ _ _ _ H Hin) as [-> ->].
  assert (events_of_turn W u s
          = [EvAnalyze (turn_messages u s) (turn_plan W u s)]
          /\ state (snd (process_user_input W u s)) = WAITING_FOR_INPUT
          /\ fst (process_user_input W u s)
             = match py_index (turn_plan W u s) "response" with
               | Ok r => Ok (reply r None)
               | Exn e => Exn e
               end) as (E & St & R).
  { destruct H as [? ? ? ? ?|e s' G' ? ?|ri' s' G' T' ? ?|ri' res s' loop shots G' T' ? ? ? ? ?].
    - contradiction.
    - congruence.
    - auto.
    - congruence. }
  rewrite E. repeat split; auto.
  - intros a ok r [X|[]]. discriminate.
  - intros c a [X|[]]. discriminate.
Qed.



(** C6: for every step whose browser operation raises, [execute_action]
    catches the exception and returns [(false, explanation)] after
    exactly one recovery action, a reload of the page with a timeout of
    30 s: the operations of the step end with the one that raised and
    hold no reload, then comes the one reload, then the result.  When
    the reload returns the explanation ends with [Page reloaded for
    retry.], when it raises too the explanation says [Could not
    recover.].  The result is a pair in every case: no exception leaves
    [execute_action]. *)
Theorem C6_failure_is_caught_and_recovered_once a s e s1 :
  page_open (browser s) = true ->
  attempt W a s = (inr e, s1) ->
  exists pe c,
    trace s1 = (trace s ++ pe ++ [EvPage c (Raises e)])%list
    /\ Forall (attempt_event a) (pe ++ [EvPage c (Raises e)])
    /\ let reloaded := page W (trace s1) (Reload 30000) in
       let explanation :=
         "Action failed: " +:+ e +:+
         match reloaded with
         | Returns _ => ". Page reloaded for retry."
         | Raises _ => ". Could not recover."
         end in
       fst (execute_action W a s) = (false, explanation)
       /\ trace (snd (execute_action W a s))
          = (trace s ++ pe ++ [EvPage c (Raises e);
                               EvPage (Reload 30000) reloaded;
                               EvExecute a false explanation])%list.
Proof.
  intros P E.
  destruct (tried_attempt W a _ _ _ E) as (pe0 & [T _] & F & R).
  destruct (R e eq_refl) as (pe & c & ->).
  exists pe, c. split; [exact T|]. split; [exact F|].
  unfold execute_action, execute_action_body, recover, call.
  rewrite P, E. simpl.
  destruct (page W (trace s1) (Reload 30000)); simpl; (split; [reflexivity|]);
    rewrite T, <- !app_assoc; reflexivity.
Qed.

(** C5 (what the code does): whenever a turn in which a step failed
    returns its reply, the state it leaves is IDLE, not ERROR. *)
Theorem C5_state_after_failed_step u s m s' a r :
  process_user_input W u s = (Ok m, s') ->
  In (EvExecute a false r) (events_of_turn W u s) ->
  state s' = IDLE.
Proof.
  intros E Hin. destruct (events_of_turn_run W _ _ _ _ E) as [_ H].
  remember (Ok m) as res eqn:Em.
  destruct H as [prompt s' ? ? ?|e s' ? ? ?|ri s' ? ? ? ?
                |ri res s' loop shots G T Fl Hl Fs Hh R]; simpl in Hin.
  - contradiction.
  - destruct Hin as [D|[]]. discriminate.
  - destruct Hin as [D|[]]. discriminate.
  - now destruct (R m Em).
Qed.

End Claims.

Lemma last5_snoc (h : list entry) (x : entry) :
  last5 (h ++ [x]) = (skipn (length h - 4) h ++ [x])%list.
Proof.
  unfold last5. rewrite length_app. simpl.
  replace (length h + 1 - 5)%nat with (length h - 4)%nat by lia.
  rewrite skipn_app.
  replace (length h - 4 - length h)%nat with 0%nat by lia.
  reflexivity.
Qed.

(** The entry before the last one is among the last five. *)
Lemma last5_previous (h : list entry) (x y : entry) :
  In x (last5 ((h ++ [x]) ++ [y])).
Proof.
  rewrite last5_snoc. apply in_or_app. left.
  rewrite skipn_app, length_app. simpl.
  apply in_or_app. right.
  replace (length h + 1 - 4 - length h)%nat with 0%nat by lia.
  now left.
Qed.

Section Corrections.

Variable W : World.




Lemma lines_contains evs a r :
  In (EvExecute a true r) evs -> contains r (lines W evs) = true.
Proof.
  induction evs as [|ev evs IH]; [contradiction|].
  intros [->|Hin].
  - change (lines W (EvExecute a true r :: evs))
      with (success_line W a r +:+ lines W evs).
    apply TextFacts.contains_app_l. unfold success_line.
    repeat apply TextFacts.contains_app_r. apply TextFacts.contains_refl.
  - specialize (IH Hin). destruct ev as [| |a' [] r'|]; cbn [lines]; auto;
      now apply TextFacts.contains_app_r.
Qed.

Lemma type_step_result a s r s' :
  execute_action_body W a s = ((true, r), s') ->
  action_type a = PStr "type" ->
  r = "Typed '" +:+ py_str W (text a) +:+ "' into " +:+ py_str W (target a).
Proof.
  unfold execute_action_body. intros E Ty.
  destruct (negb (page_open (browser s))); [discriminate|].
  unfold attempt in E. rewrite Ty in E. simpl in E.
  unfold then_, await, done, recover in E.
  repeat match type of E with
  | context [call W ?c ?x] => destruct (call W c x) as [[?|?] ?]
  end; now inversion E.
Qed.

(** C1 (amended): the messages sent to the Reasoner in a turn are the
    system prompt, the request and the last five entries of the history
    with the utterance: they are built without reading the vault, so
    two runs from states with the same history send the same messages
    whatever the vaults hold.  The reply, though, quotes the result of
    every successful step, and the result of a [type] step quotes the
    typed text; the reply is what the turn appends to the history, and
    the messages of the next analysis hold it. *)
Theorem C1_vault_not_read_for_payload_but_typed_text_echoed u s :
  (forall msgs d, In (EvAnalyze msgs d) (events_of_turn W u s) ->
     msgs = analyze_messages u (conversation_history s ++ [user_entry u]))
  /\ (forall s2 msgs d msgs2 d2,
        conversation_history s2 = conversation_history s ->
        In (EvAnalyze msgs d) (events_of_turn W u s) ->
        In (EvAnalyze msgs2 d2) (events_of_turn W u s2) ->
        msgs2 = msgs)
  /\ (forall m s' b a r,
        process_user_input W u s = (Ok m, s') ->
        py_index (turn_plan W u s) "response" = Ok (PStr b) ->
        In (EvExecute a true r) (events_of_turn W u s) ->
        exists c,
          cm_content m = PStr c
          /\ contains r c = true
          /\ last (conversation_history s') = Some (mkEntry "assistant" (PStr c))
          /\ (action_type a = PStr "type" ->
              r = "Typed '" +:+ py_str W (text a) +:+ "' into "
                  +:+ py_str W (target a))
          /\ (forall u2 msgs2 d2,
                In (EvAnalyze msgs2 d2) (events_of_turn W u2 s') ->
                In (mkEntry "assistant" (PStr c)) msgs2)).
Proof.
  assert (forall u0 s0 msgs d, In (EvAnalyze msgs d) (events_of_turn W u0 s0) ->
            msgs = analyze_messages u0 (conversation_history s0 ++ [user_entry u0]))
    as Hmsgs.
  { intros u0 s0 msgs d Hin. destruct (events_of_turn_spec W u0 s0) as [_ H].
    now destruct (analyzed_plan W _ _ _ _ _ _ _ H Hin) as [-> _]. }
  split; [apply Hmsgs|]. split.
  { intros s2 msgs d msgs2 d2 Eh H1 H2.
    rewrite (Hmsgs _ _ _ _ H1), (Hmsgs _ _ _ _ H2). now rewrite Eh. }
  intros m s' b a r E Hb Hin.
  destruct (events_of_turn_run W _ _ _ _ E) as [_ H].
  remember (Ok m) as res eqn:Em.
  destruct H as [prompt s' ? ? ?|e s' ? ? ?|ri s' ? ? ? ?
                |ri res s' loop shots G T Fl Hl Fs Hh R]; simpl in Hin.
  - contradiction.
  - destruct Hin as [D|[]]. discriminate.
  - destruct Hin as [D|[]]. discriminate.
  - destruct Hin as [D|Hin]; [discriminate|].
    apply in_app_or in Hin as [Hin|Hin].
    2:{ exfalso. rewrite Forall_forall in Fs. apply list_elem_of_In in Hin.
        exact (Fs _ Hin). }
    destruct (R m Em) as (_ & Hh' & Hc).
    exists (b +:+ lines W loop +:+ extracted_block (extracts loop)).
    split; [apply (Hc b Hb)|]. split.
    { apply TextFacts.contains_app_r, TextFacts.contains_app_l.
      exact (lines_contains _ _ _ Hin). }
    split.
    { rewrite Hh', (Hc b Hb).
      change [user_entry u; mkEntry "assistant" (PStr (b +:+ lines W loop +:+ extracted_block (extracts loop)))]
        with ([user_entry u] ++ [mkEntry "assistant" (PStr (b +:+ lines W loop +:+ extracted_block (extracts loop)))])%list.
      rewrite !app_assoc. apply last_snoc. }
    split.
    { intros Ty. rewrite Forall_forall in Fl.
      apply list_elem_of_In in Hin. destruct (Fl _ Hin) as [_ (sa & sb & Ex)].
      exact (type_step_result _ _ _ _ Ex Ty). }
    intros u2 msgs2 d2 Hin2. rewrite (Hmsgs _ _ _ _ Hin2), Hh', (Hc b Hb).
    unfold analyze_messages. apply in_or_app. right.
    change [user_entry u; mkEntry "assistant" (PStr (b +:+ lines W loop +:+ extracted_block (extracts loop)))]
      with ([user_entry u] ++ [mkEntry "assistant" (PStr (b +:+ lines W loop +:+ extracted_block (extracts loop)))])%list.
    rewrite !app_assoc. apply last5_previous.
Qed.

Lemma unknown_kind a :
  in_strs (action_type a) known_kinds = false ->
  attempt W a
  = done (false, "Unknown action type: " +:+ py_str W (action_type a)).
Proof.
  unfold in_strs, known_kinds. simpl. intros K.
  repeat (apply orb_false_iff in K as [? K]).
  unfold attempt.
  repeat match goal with
  | H : eq_str _ _ = false |- _ => rewrite H; clear H
  end.
  reflexivity.
Qed.


End Corrections.


Section Window.

Variable W : World.

(** C9 (amended): the context supplied to the analysis is the last five
    entries of the history as it stands once the utterance was appended
    to it: the utterance itself, counted among the five and also passed
    apart as the request, after at most the last four prior entries.
    The full history is retained: the history after the turn starts
    with the prior one and the utterance. *)
Theorem C9_context_window_counts_the_utterance u s msgs d :
  In (EvAnalyze msgs d) (events_of_turn W u s) ->
  let h := conversation_history s in
  msgs = ([ mkEntry "system" (PStr system_prompt);
            mkEntry "user" (PStr ("User request: " +:+ u)) ]
          ++ context_window msgs)%list
  /\ context_window msgs = (skipn (length h - 4) h ++ [user_entry u])%list
  /\ (length (context_window msgs) <= 5)%nat
  /\ exists t, conversation_history (snd (process_user_input W u s))
               = (h ++ user_entry u :: t)%list.
Proof.
  intros Hin h. destruct (events_of_turn_spec W u s) as [_ H].
  destruct (analyzed_plan W _ _ _ _ _ _ _ H Hin) as [-> _].
  unfold turn_messages, analyze_messages, context_window. simpl skipn.
  fold h. rewrite last5_snoc.
  split; [reflexivity|]. split; [reflexivity|]. split.
  - rewrite drop_0, length_app, length_skipn. simpl. lia.
  - destruct H as [prompt s' ? ? Hh|e s' ? ? Hh|ri s' ? ? ? Hh
                  |ri res s' loop shots G T Fl Hl Fs Hh R].
    + exists []. exact Hh.
    + exists []. exact Hh.
    + exists []. exact Hh.
    + exact Hh.
Qed.

End Window.

(** ** The statements on the scenarios *)

Import Scenario.

Lemma C8_witness :
  contains "send email" "send email to a@b.com" = true
  /\ truthy (context_get (task_context (fresh ∅)) "email_credentials") = false
  /\ fst (process_user_input ask_world "send email to a@b.com" (fresh ∅))
     = Ok (reply (PStr ask_credentials) None)
  /\ state (snd (process_user_input ask_world "send email to a@b.com" (fresh ∅)))
     = WAITING_FOR_INPUT
  /\ events_of_turn ask_world "send email to a@b.com" (fresh ∅) = [].
Proof.
  assert (contains "send email" "send email to a@b.com" = true) as H1
    by reflexivity.
  assert (truthy (context_get (task_context (fresh ∅)) "email_credentials")
          = false) as H2 by reflexivity.
  destruct (C8_send_email_without_credentials ask_world _ _ H1 H2)
    as (R & _ & S & E & _).
  split; [exact H1|]. split; [exact H2|]. split; [exact R|].
  split; [exact S | exact E].
Defined.

Lemma C3_witness :
  In (EvAnalyze (turn_messages "write to my boss" (fresh ∅)) ask_plan)
    (events_of_turn ask_world "write to my boss" (fresh ∅))
  /\ py_get ask_plan "requires_info" PNone = Ok (PList [PStr "email subject"])
  /\ truthy (PList [PStr "email subject"]) = true
  /\ events_of_turn ask_world "write to my boss" (fresh ∅)
     = [EvAnalyze (turn_messages "write to my boss" (fresh ∅)) ask_plan]
  /\ state (snd (process_user_input ask_world "write to my boss" (fresh ∅)))
     = WAITING_FOR_INPUT
  /\ fst (process_user_input ask_world "write to my boss" (fresh ∅))
     = Ok (reply (PStr "What should the subject be?") None).
Proof.
  assert (In (EvAnalyze (turn_messages "write to my boss" (fresh ∅)) ask_plan)
            (events_of_turn ask_world "write to my boss" (fresh ∅))) as H1
    by (vm_compute; left; reflexivity).
  assert (py_get ask_plan "requires_info" PNone
          = Ok (PList [PStr "email subject"])) as H2 by reflexivity.
  assert (truthy (PList [PStr "email subject"]) = true) as H3 by reflexivity.
  destruct (C3_missing_info_blocks_execution ask_world _ _ _ _ _ H1 H2 H3)
    as (E & _ & _ & S & R).
  split; [exact H1|]. split; [exact H2|]. split; [exact H3|].
  split; [exact E|]. split; [exact S | exact R].
Defined.

Lemma C6_witness :
  page_open (browser (fresh ∅)) = true
  /\ attempt click_world click_action (fresh ∅)
     = (inr "Timeout 10000ms exceeded.", log click_wait (fresh ∅))
  /\ fst (execute_action click_world click_action (fresh ∅))
     = (false, click_failure)
  /\ trace (snd (execute_action click_world click_action (fresh ∅)))
     = [click_wait; click_reload; EvExecute click_action false click_failure].
Proof.
  assert (page_open (browser (fresh ∅)) = true) as H1 by reflexivity.
  assert (attempt click_world click_action (fresh ∅)
          = (inr "Timeout 10000ms exceeded.", log click_wait (fresh ∅))) as H2
    by reflexivity.
  destruct (C6_failure_is_caught_and_recovered_once click_world _ _ _ _ H1 H2)
    as (pe & c & T & _ & R & L).
  split; [exact H1|]. split; [exact H2|]. split; [exact R|].
  vm_compute. reflexivity.
Defined.

(** The same step on a page that is gone: the report says so. *)
Example recovery_fails :
  fst (execute_action (world click_text click_plan page_closed) click_action
         (fresh ∅))
  = (false,
     "Action failed: Target page, context or browser has been closed. Could not recover.").
Proof. reflexivity. Qed.

Lemma C5_witness :
  process_user_input click_world click_request (fresh ∅)
  = (Ok (reply (PStr click_reply) (Some "aGk=")),
     snd (process_user_input click_world click_request (fresh ∅)))
  /\ In (EvExecute click_action false click_failure)
       (events_of_turn click_world click_request (fresh ∅))
  /\ state (snd (process_user_input click_world click_request (fresh ∅))) = IDLE.
Proof.
  assert (process_user_input click_world click_request (fresh ∅)
          = (Ok (reply (PStr click_reply) (Some "aGk=")),
             snd (process_user_input click_world click_request (fresh ∅))))
    as H1 by (vm_compute; reflexivity).
  assert (In (EvExecute click_action false click_failure)
            (events_of_turn click_world click_request (fresh ∅))) as H2
    by (vm_compute; right; right; right; left; reflexivity).
  split; [exact H1|]. split; [exact H2|].
  exact (C5_state_after_failed_step click_world _ _ _ _ _ _ H1 H2).
Defined.



(** C1, as stated, fails: the password stored in the vault, which neither
    the user nor the Reasoner wrote, is in the reply appended to the
    history after the [type] step, and in the messages of the next
    analysis. *)
Lemma C1_counterexample :
  stored vault "email_credentials" "password" = Ok (PStr secret)
  /\ contains secret sign_in_request = false
  /\ contains secret sign_in_text = false
  /\ conversation_history after_sign_in
     = [ mkEntry "user" (PStr sign_in_request);
         mkEntry "assistant" (PStr sign_in_reply) ]
  /\ contains secret sign_in_reply = true
  /\ hd_error (events_of_turn sign_in_world follow_up after_sign_in)
     = Some (EvAnalyze follow_up_messages sign_in_plan)
  /\ In (mkEntry "assistant" (PStr sign_in_reply)) follow_up_messages.
Proof.
  split; [reflexivity|]. split; [vm_compute; reflexivity|].
  split; [vm_compute; reflexivity|]. split; [vm_compute; reflexivity|].
  split; [vm_compute; reflexivity|]. split; [vm_compute; reflexivity|].
  right; right; right; left; reflexivity.
Qed.

Lemma C1_witness :
  In (EvAnalyze (turn_messages sign_in_request (fresh vault)) sign_in_plan)
    (events_of_turn sign_in_world sign_in_request (fresh vault))
  /\ In (EvAnalyze (turn_messages sign_in_request (fresh other_vault)) sign_in_plan)
       (events_of_turn sign_in_world sign_in_request (fresh other_vault))
  /\ turn_messages sign_in_request (fresh other_vault)
     = turn_messages sign_in_request (fresh vault)
  /\ In (EvExecute sign_in_action true sign_in_result)
       (events_of_turn sign_in_world sign_in_request (fresh vault))
  /\ exists c,
       cm_content (reply (PStr sign_in_reply) (Some "aGk=")) = PStr c
       /\ contains sign_in_result c = true
       /\ last (conversation_history after_sign_in)
          = Some (mkEntry "assistant" (PStr c))
       /\ sign_in_result
          = "Typed '" +:+ py_str sign_in_world (text sign_in_action)
            +:+ "' into " +:+ py_str sign_in_world (target sign_in_action)
       /\ In (EvAnalyze follow_up_messages sign_in_plan)
            (events_of_turn sign_in_world follow_up after_sign_in)
       /\ In (mkEntry "assistant" (PStr c)) follow_up_messages.
Proof.
  assert (In (EvAnalyze (turn_messages sign_in_request (fresh vault)) sign_in_plan)
            (events_of_turn sign_in_world sign_in_request (fresh vault))) as H1
    by (vm_compute; left; reflexivity).
  assert (In (EvAnalyze (turn_messages sign_in_request (fresh other_vault)) sign_in_plan)
            (events_of_turn sign_in_world sign_in_request (fresh other_vault))) as H2
    by (vm_compute; left; reflexivity).
  assert (process_user_input sign_in_world sign_in_request (fresh vault)
          = (Ok (reply (PStr sign_in_reply) (Some "aGk=")), after_sign_in)) as H3
    by (vm_compute; reflexivity).
  assert (py_index (turn_plan sign_in_world sign_in_request (fresh vault)) "response"
          = Ok (PStr "Signing in to Gmail.")) as H4 by (vm_compute; reflexivity).
  assert (In (EvExecute sign_in_action true sign_in_result)
            (events_of_turn sign_in_world sign_in_request (fresh vault))) as H5
    by (vm_compute; right; right; right; left; reflexivity).
  destruct (C1_vault_not_read_for_payload_but_typed_text_echoed
              sign_in_world sign_in_request (fresh vault)) as (_ & Same & Echo).
  split; [exact H1|]. split; [exact H2|].
  split; [exact (Same (fresh other_vault) _ _ _ _ eq_refl H1 H2)|].
  split; [exact H5|].
  assert (In (EvAnalyze follow_up_messages sign_in_plan)
            (events_of_turn sign_in_world follow_up after_sign_in)) as H6
    by (vm_compute; left; reflexivity).
  destruct (Echo _ _ _ _ _ H3 H4 H5) as (c & Hc & Hin & Hl & Ht & Hn).
  exists c. split; [exact Hc|]. split; [exact Hin|]. split; [exact Hl|].
  split; [exact (Ht eq_refl)|]. split; [exact H6 | exact (Hn _ _ _ H6)].
Defined.





(** C9, as stated, fails: after five prior entries the context holds the
    utterance itself and the last four prior entries only; the oldest of
    the last five prior entries is not in it. *)
Lemma C9_counterexample :
  length (conversation_history talked) = 5%nat
  /\ events_of_turn ask_world next_request talked
     = [EvAnalyze next_messages ask_plan]
  /\ In (mkEntry "user" (PStr next_request)) (context_window next_messages)
  /\ ~ In (mkEntry "user" (PStr "open example.com")) (context_window next_messages)
  /\ context_window next_messages <> last5 (conversation_history talked).
Proof.
  split; [reflexivity|]. split; [vm_compute; reflexivity|].
  split; [simpl; tauto|]. split.
  - simpl. intros [H|[H|[H|[H|[H|[]]]]]]; discriminate.
  - simpl. discriminate.
Qed.

Lemma C9_witness :
  In (EvAnalyze next_messages ask_plan)
    (events_of_turn ask_world next_request talked)
  /\ context_window next_messages
     = (skipn (length five - 4) five ++ [user_entry next_request])%list
  /\ (length (context_window next_messages) <= 5)%nat
  /\ exists t, conversation_history
                 (snd (process_user_input ask_world next_request talked))
               = (five ++ user_entry next_request :: t)%list.
Proof.
  assert (In (EvAnalyze next_messages ask_plan)
            (events_of_turn ask_world next_request talked)) as H1
    by (vm_compute; left; reflexivity).
  destruct (C9_context_window_counts_the_utterance ask_world _ _ _ _ H1)
    as (_ & Hw & Hl & Hh).
  split; [exact H1|]. split; [exact Hw|]. split; [exact Hl | exact Hh].
Defined.

(** A plan that asks for a delay of two seconds is paced like any other:
    the wait is for one second. *)
Example requested_delay_is_ignored :
  make_action
    (PDict (<["action_type" := PStr "wait"]> (<["delay" := PFloat 2]> ∅)))
  = Ok (mkBrowserAction (PStr "wait") (PStr EmptyString) (PStr EmptyString)
          (PStr EmptyString) 1 PNone)
  /\ fst (attempt ask_world
            (mkBrowserAction (PStr "wait") (PStr EmptyString)
               (PStr EmptyString) (PStr EmptyString) 1 PNone)
            (fresh ∅))
     = inl (true, "Waited for 1.0 seconds")
  /\ trace (snd (attempt ask_world
                   (mkBrowserAction (PStr "wait") (PStr EmptyString)
                      (PStr EmptyString) (PStr EmptyString) 1 PNone)
                   (fresh ∅)))
     = [EvPage (WaitForTimeout 1000) (Returns PNone)].
Proof. repeat split; vm_compute; reflexivity. Qed.

(** * More facts *)

Section Frames.

Variable W : World.

Lemma keeps_refl s : keeps s s.
Proof. repeat split. Qed.

Lemma keeps_trans s1 s2 s3 : keeps s1 s2 -> keeps s2 s3 -> keeps s1 s3.
Proof.
  intros (A1 & B1 & C1 & D1) (A2 & B2 & C2 & D2).
  repeat split; congruence.
Qed.

Lemma keeps_log s ev : keeps s (log ev s).
Proof. repeat split. Qed.

Lemma keeps_set_state s st : keeps s (set_state st s).
Proof. repeat split. Qed.

Lemma gentle_done {A} (x : A) : gentle (done x).
Proof. intros s y s' E. inversion E; subst. split; [apply keeps_refl | reflexivity]. Qed.

Lemma gentle_await c : gentle (await W c).
Proof.
  intros s x s' E. unfold await, call in E.
  destruct (page W (trace s) c); inversion E; subst;
    (split; [apply keeps_log | reflexivity]).
Qed.

Lemma gentle_then {A B} (m : T A) (k : A -> T B) :
  gentle m -> (forall x, gentle (k x)) -> gentle (then_ m k).
Proof.
  intros Hm Hk s y s' E. unfold then_ in E.
  destruct (m s) as [[x|e] s1] eqn:Em.
  - destruct (Hm _ _ _ Em) as [K1 S1]. destruct (Hk x _ _ _ E) as [K2 S2].
    split; [eapply keeps_trans; eauto | congruence].
  - inversion E; subst. exact (Hm _ _ _ Em).
Qed.

Lemma gentle_attempt a : gentle (attempt W a).
Proof.
  unfold attempt.
  repeat match goal with
  | |- gentle (if ?b then _ else _) => destruct b
  | |- gentle (then_ _ _) => apply gentle_then; [|intros ?]
  | |- gentle (await _ _) => apply gentle_await
  | |- gentle (done _) => apply gentle_done
  end.
  intros s0 y s1 E. inversion E; subst. split; [|reflexivity]. repeat split.
Qed.

Lemma execute_action_keeps a s ok r s' :
  execute_action W a s = ((ok, r), s') -> keeps s s' /\ state s' = state s.
Proof.
  unfold execute_action. destruct (execute_action_body W a s) as [[ok' r'] s1] eqn:B.
  intros E. inversion E; subst. clear E.
  assert (keeps s s1 /\ state s1 = state s) as [K S].
  { unfold execute_action_body in B. destruct (negb (page_open (browser s))).
    - inversion B; subst. split; [apply keeps_refl | reflexivity].
    - destruct (attempt W a s) as [[x|e] s2] eqn:Ea;
        destruct (gentle_attempt a _ _ _ Ea) as [K S].
      + inversion B; subst. auto.
      + unfold recover, call in B.
        destruct (page W (trace s2) (Reload 30000)); inversion B; subst;
          (split; [eapply keeps_trans; [exact K | apply keeps_log] | exact S]). }
  split; [eapply keeps_trans; [exact K | apply keeps_log] | exact S].
Qed.

(** Without a page, [execute_action] refuses at once. *)
Lemma execute_action_no_page a s :
  page_open (browser s) = false ->
  execute_action W a s
  = ((false, "Browser not initialized"),
     log (EvExecute a false "Browser not initialized") s).
Proof. intros P. unfold execute_action, execute_action_body. now rewrite P. Qed.

Lemma take_screenshot_keeps s :
  keeps s (snd (take_screenshot W s))
  /\ state (snd (take_screenshot W s)) = state s.
Proof.
  unfold take_screenshot. destruct (negb (page_open (browser s))).
  - split; [apply keeps_refl | reflexivity].
  - unfold call. destruct (page W (trace s) (Screenshot true 10000)) as [[]|];
      (split; [apply keeps_log | reflexivity]).
Qed.

Lemma take_screenshot_no_page s :
  page_open (browser s) = false -> take_screenshot W s = (EmptyString, s).
Proof. intros P. unfold take_screenshot. now rewrite P. Qed.

End Frames.

Section LoopMore.

Variable W : World.

Lemma executed_app (e1 e2 : list event) :
  executed (e1 ++ e2) = (executed e1 ++ executed e2)%list.
Proof.
  induction e1 as [|ev e1 IH]; [reflexivity|].
  destruct ev; simpl; now rewrite ?IH.
Qed.

Lemma quiet_executed (evs : list event) : Forall quiet evs -> executed evs = [].
Proof.
  induction 1 as [|ev evs Q _ IH]; [reflexivity|].
  destruct ev; simpl in *; try exact IH; contradiction.
Qed.

Lemma executed_step pe a ok r post :
  Forall quiet pe -> Forall quiet post ->
  executed (pe ++ EvExecute a ok r :: post) = [a].
Proof.
  intros Q1 Q2. rewrite executed_app, (quiet_executed pe Q1). simpl.
  now rewrite (quiet_executed post Q2).
Qed.

Lemma iadd_str_addable v line rc : iadd_str v line = Ok rc -> addable rc.
Proof. destruct v; simpl; intros E; inversion E; exact I. Qed.

Lemma addable_iadd_str v line : addable v -> exists rc, iadd_str v line = Ok rc.
Proof. destruct v; simpl; try contradiction; eauto. Qed.

(** One iteration, told by what was built from the element. *)
Lemma step_more u d v s res s' :
  step W u d v s = (res, s') ->
  exists evs,
    trace s' = (trace s ++ evs)%list /\ keeps s s'
    /\ match built u (task_context s) d with
       | Exn e => res = Exn e /\ evs = [] /\ state s' = state s
       | Ok a =>
           executed evs = [a]
           /\ match res with
              | Exn _ => state s' = state s
              | Ok (stop, v') =>
                  stop = failed evs
                  /\ addable (response_content v')
                  /\ state s' = (if stop then ERROR else state s)
              end
       end.
Proof.
  unfold step, built, bind, lift, total, update, ret. intros E.
  destruct (make_action d) as [a0|e] eqn:Em.
  2:{ inversion E; subst. exists []. rewrite app_nil_r.
      split; [reflexivity|]. split; [apply keeps_refl | auto]. }
  destruct (substitute u (task_context s) a0) as [a|e] eqn:Es.
  2:{ inversion E; subst. exists []. rewrite app_nil_r.
      split; [reflexivity|]. split; [apply keeps_refl | auto]. }
  destruct (execute_action W a s) as [[ok r] s1] eqn:Ex.
  destruct (execute_action_spec W _ _ _ _ _ Ex) as (pe & [T1 _] & Fe & _ & _).
  destruct (execute_action_keeps W _ _ _ _ _ Ex) as [K1 S1].
  assert (Forall quiet pe) as Qpe
    by (eapply Forall_impl; [exact Fe | apply executor_quiet]).
  destruct ok.
  - destruct (iadd_str (response_content v) (success_line W a r)) as [rc|e] eqn:Ei.
    2:{ inversion E; subst. exists (pe ++ [EvExecute a true r])%list.
        split; [exact T1|]. split; [exact K1|].
        split; [apply executed_step; [exact Qpe | constructor] | exact S1]. }
    assert (exists shots s2 shot,
               trace s2 = (trace s1 ++ shots)%list /\ Forall is_shot shots
               /\ keeps s1 s2 /\ state s2 = state s1
               /\ (res, s') = (Ok (false,
                                   mkLocals rc shot
                                     (if eq_str (action_type a) "extract"
                                      then (extracted_data v ++ [r])%list
                                      else extracted_data v)),
                               log (EvSleep (delay a)) s2))
      as (shots & s2 & shot & T2 & Fs & K2 & S2 & E2).
    { destruct (in_strs (action_type a) _).
      - destruct (take_screenshot_spec W s1) as (shots & [T2 _] & Fs).
        destruct (take_screenshot_keeps W s1) as [K2 S2].
        destruct (take_screenshot W s1) as [b64 s2]. simpl in *.
        exists shots, s2, (Some b64). now rewrite <- E.
      - exists [], s1, (screenshot v). rewrite app_nil_r.
        split; [reflexivity|]. split; [constructor|].
        split; [apply keeps_refl|]. split; [reflexivity | now rewrite <- E]. }
    inversion E2; subst. clear E2 E.
    assert (Forall quiet (shots ++ [EvSleep (delay a)])) as Qpost.
    { apply Forall_app; split; [|constructor; [exact I | constructor]].
      eapply Forall_impl; [exact Fs | apply is_shot_quiet]. }
    exists (pe ++ EvExecute a true r :: shots ++ [EvSleep (delay a)])%list.
    split.
    { simpl. rewrite T2, T1. rewrite <- !app_assoc. reflexivity. }
    split.
    { eapply keeps_trans; [exact K1|]. eapply keeps_trans; [exact K2|].
      apply keeps_log. }
    split; [apply executed_step; assumption|].
    rewrite (failed_step pe a true r _ Qpe Qpost). simpl.
    split; [reflexivity|]. split; [exact (iadd_str_addable _ _ _ Ei)|].
    congruence.
  - destruct (iadd_str (response_content v) (failure_line r)) as [rc|e] eqn:Ei.
    2:{ inversion E; subst. exists (pe ++ [EvExecute a false r])%list.
        split; [exact T1|]. split; [exact K1|].
        split; [apply executed_step; [exact Qpe | constructor] | exact S1]. }
    inversion E; subst. clear E.
    exists (pe ++ [EvExecute a false r])%list.
    split; [exact T1|].
    split; [eapply keeps_trans; [exact K1 | apply keeps_set_state]|].
    split; [apply executed_step; [exact Qpe | constructor]|].
    rewrite (failed_step pe a false r [] Qpe (Forall_nil_2 _)). simpl.
    split; [reflexivity|]. split; [exact (iadd_str_addable _ _ _ Ei) | reflexivity].
Qed.

(** The loop, told by the steps it ran: they are built from the first
    elements of the plan, in order, under the task context of the start;
    nothing but the state and the log is touched. *)
Lemma run_actions_more u actions : forall v s res s',
  run_actions W u actions v s = (res, s') ->
  exists evs,
    trace s' = (trace s ++ evs)%list /\ keeps s s'
    /\ Forall2 (fun d a => built u (task_context s) d = Ok a)
         (firstn (length (executed evs)) actions) (executed evs)
    /\ match res with
       | Exn _ => state s' = state s
       | Ok v' =>
           state s' = (if failed evs then ERROR else state s)
           /\ (failed evs = false -> length (executed evs) = length actions)
           /\ (executed evs = [] -> v' = v)
           /\ (executed evs <> [] -> addable (response_content v'))
       end.
Proof.
  induction actions as [|d rest IH]; intros v s res s' E.
  - inversion E; subst. exists []. rewrite app_nil_r. simpl.
    split; [reflexivity|]. split; [apply keeps_refl|]. split; [constructor|].
    repeat split; auto. congruence.
  - simpl in E. unfold bind in E.
    destruct (step W u d v s) as [r1 s1] eqn:Es.
    destruct (step_more _ _ _ _ _ _ Es) as (e1 & T1 & K1 & B).
    destruct (built u (task_context s) d) as [a|e] eqn:Eb.
    2:{ destruct B as (-> & -> & S1). inversion E; subst.
        exists []. split; [exact T1|]. split; [exact K1|].
        simpl. split; [constructor | exact S1]. }
    destruct B as (X1 & R1).
    destruct r1 as [[stop v1]|e].
    2:{ inversion E; subst. exists e1. split; [exact T1|]. split; [exact K1|].
        rewrite X1. simpl. split; [repeat constructor; exact Eb | exact R1]. }
    destruct R1 as (Hstop & Ha & Hst).
    destruct stop.
    + inversion E; subst. exists e1. split; [exact T1|]. split; [exact K1|].
      rewrite X1. simpl. split; [repeat constructor; exact Eb|].
      rewrite <- Hstop. split; [exact Hst|].
      split; [discriminate|]. split; [discriminate | intros _; exact Ha].
    + destruct (IH _ _ _ _ E) as (e2 & T2 & K2 & F2 & R2).
      exists (e1 ++ e2)%list.
      split; [rewrite T2, T1; now rewrite <- app_assoc|].
      split; [eapply keeps_trans; eauto|].
      rewrite executed_app, X1, failed_app, <- Hstop. simpl.
      destruct K1 as (C1 & _). rewrite C1 in F2.
      split; [constructor; [exact Eb | exact F2]|].
      destruct res as [v'|e].
      * destruct R2 as (S2 & L2 & N2 & A2).
        split; [now rewrite S2, Hst|].
        split; [intros Fl; now rewrite (L2 Fl)|].
        split; [discriminate|]. intros _.
        destruct (executed e2) as [|x xs] eqn:Ee.
        -- now rewrite (N2 eq_refl).
        -- apply A2. discriminate.
      * now rewrite R2, Hst.
Qed.

(** Without a page the loop stops at its first step. *)
Lemma run_actions_no_page u actions v s res s' :
  page_open (browser s) = false ->
  run_actions W u actions v s = (res, s') ->
  trace s' = trace s
  \/ exists a, trace s'
               = (trace s ++ [EvExecute a false "Browser not initialized"])%list.
Proof.
  intros P E. destruct actions as [|d rest].
  - inversion E; subst. now left.
  - simpl in E. unfold bind, step, bind, lift, total, update, ret in E.
    destruct (make_action d) as [a0|e]; [|inversion E; subst; now left].
    destruct (substitute u (task_context s) a0) as [a|e];
      [|inversion E; subst; now left].
    rewrite (execute_action_no_page W a s P) in E.
    destruct (iadd_str (response_content v) _); inversion E; subst;
      right; exists a; reflexivity.
Qed.

End LoopMore.

Section TurnMore.

Variable W : World.

Lemma run_plan_more u d v s res s' :
  run_plan W u d v s = (res, s') ->
  exists evs,
    trace s' = (trace s ++ evs)%list /\ keeps s s'
    /\ Forall2 (fun x a => built u (task_context s) x = Ok a)
         (firstn (length (executed evs)) (plan_steps d)) (executed evs)
    /\ (page_open (browser s) = false -> Forall refused evs)
    /\ match res with
       | Exn _ => state s' = state s
       | Ok v' =>
           state s' = (if failed evs then ERROR else state s)
           /\ (failed evs = false -> length (executed evs) = length (plan_steps d))
           /\ (executed evs = [] -> v' = v)
           /\ (executed evs <> [] -> addable (response_content v'))
       end.
Proof.
  unfold run_plan, plan_steps, bind, lift, ret. intros E.
  assert (exists evs, evs = @nil event /\ trace s = (trace s ++ evs)%list) as Nil
    by (exists []; split; [reflexivity | now rewrite app_nil_r]).
  destruct (py_get d "actions" PNone) as [acts|e] eqn:Eg.
  2:{ inversion E; subst. exists []. rewrite app_nil_r.
      split; [reflexivity|]. split; [apply keeps_refl|].
      split; [constructor|]. split; [constructor | reflexivity]. }
  destruct (truthy acts) eqn:Tr.
  2:{ inversion E; subst. exists []. rewrite app_nil_r.
      split; [reflexivity|]. split; [apply keeps_refl|].
      split; [constructor|]. split; [constructor|]. simpl.
      split; [reflexivity|]. split; [|split; [reflexivity | congruence]].
      intros _. destruct acts as [| | | | |l|]; try reflexivity.
      now destruct l. }
  assert (py_index d "actions" = Ok acts \/ exists e, py_index d "actions" = Exn e)
    as [Ei|[e Ei]].
  { destruct d as [| | | | | |dd]; simpl in *; try discriminate.
    destruct (dd !! "actions"); [left; congruence | right; eauto]. }
  2:{ rewrite Ei in E. inversion E; subst. exists []. rewrite app_nil_r.
      split; [reflexivity|]. split; [apply keeps_refl|].
      split; [constructor|]. split; [constructor | reflexivity]. }
  rewrite Ei in E.
  destruct acts as [| | | | |l|]; simpl in E;
    try (inversion E; subst; exists []; rewrite app_nil_r;
         split; [reflexivity|]; split; [apply keeps_refl|];
         split; [constructor|]; split; [constructor | reflexivity]).
  destruct (run_actions_more W _ _ _ _ _ _ E) as (evs & T & K & F & R).
  exists evs. split; [exact T|]. split; [exact K|]. split; [exact F|].
  split; [|exact R].
  intros P. destruct (run_actions_no_page W _ _ _ _ _ _ P E) as [T0|[a T0]];
    rewrite T0 in T.
  - rewrite <- (app_nil_r (trace s)) in T at 1. apply app_inv_head in T.
    subst evs. constructor.
  - apply app_inv_head in T. subst evs. constructor; [now exists a | constructor].
Qed.

Lemma finish_more v s res s' :
  finish W v s = (res, s') ->
  exists shots,
    trace s' = (trace s ++ shots)%list /\ Forall is_shot shots
    /\ (page_open (browser s) = false -> shots = [])
    /\ task_context s' = task_context s
    /\ page_open (browser s') = page_open (browser s)
    /\ is_initialized (browser s') = is_initialized (browser s)
    /\ match res with
       | Ok m =>
           state s' = IDLE
           /\ conversation_history s'
              = (conversation_history s ++ [mkEntry "assistant" (cm_content m)])%list
       | Exn _ => extracted_data v <> [] /\ ~ addable (response_content v)
       end.
Proof.
  unfold finish, bind, lift, update, ret. intros E.
  assert (exists shot s1 shots,
             (if no_screenshot (screenshot v) && is_initialized (browser s)
              then let (b64, s1) := take_screenshot W s in (Ok (Some b64), s1)
              else (Ok (screenshot v), s)) = (Ok shot, s1)
             /\ trace s1 = (trace s ++ shots)%list /\ Forall is_shot shots
             /\ (page_open (browser s) = false -> shots = [])
             /\ keeps s s1)
    as (shot & s1 & shots & Es & T & Fs & Np & (Kc & Kh & Kp & Ki)).
  { destruct (no_screenshot (screenshot v) && is_initialized (browser s)).
    - destruct (take_screenshot_spec W s) as (shots & [T _] & Fs).
      destruct (take_screenshot_keeps W s) as [K _].
      pose proof (take_screenshot_no_page W s) as Np.
      destruct (take_screenshot W s) as [b64 s1]. simpl in *.
      exists (Some b64), s1, shots. split; [reflexivity|].
      split; [exact T|]. split; [exact Fs|]. split; [|exact K].
      intros P. specialize (Np P). inversion Np; subst.
      rewrite <- (app_nil_r (trace s)) in T at 1. now apply app_inv_head in T.
    - exists (screenshot v), s, []. rewrite app_nil_r.
      split; [reflexivity|]. split; [reflexivity|]. split; [constructor|].
      split; [reflexivity | apply keeps_refl]. }
  rewrite Es in E. clear Es. exists shots.
  destruct (extracted_data v) as [|x xs] eqn:Ex.
  - inversion E; subst. simpl. repeat split; try assumption. now rewrite Kh.
  - destruct (iadd_str (response_content v) _) as [rc|e] eqn:Ei.
    + inversion E; subst. simpl. repeat split; try assumption. now rewrite Kh.
    + inversion E; subst. repeat split; try assumption; try discriminate.
      intros A. destruct (addable_iadd_str _
                            (nl +:+ nl +:+ "📋 Extracted Data:" +:+ nl
                             +:+ join nl (x :: xs)) A) as [rc Erc].
      congruence.
Qed.

(** The turn from the plan on, with what it leaves alone and the order
    of the steps it ran. *)
Lemma act_on_more u d s res s' :
  act_on W u d s = (res, s') ->
  exists evs shots,
    trace s' = (trace s ++ evs ++ shots)%list /\ Forall is_shot shots
    /\ task_context s' = task_context s
    /\ page_open (browser s') = page_open (browser s)
    /\ is_initialized (browser s') = is_initialized (browser s)
    /\ Forall2 (fun x a => built u (task_context s) x = Ok a)
         (firstn (length (executed evs)) (plan_steps d)) (executed evs)
    /\ (page_open (browser s) = false -> Forall refused (evs ++ shots))
    /\ match res with
       | Ok m =>
           (state s' = WAITING_FOR_INPUT
            /\ conversation_history s' = conversation_history s
            /\ evs = [] /\ shots = [])
           \/ (state s' = IDLE
               /\ conversation_history s'
                  = (conversation_history s
                     ++ [mkEntry "assistant" (cm_content m)])%list
               /\ (failed evs = false ->
                   length (executed evs) = length (plan_steps d)))
       | Exn _ =>
           conversation_history s' = conversation_history s
           /\ (state s' = state s \/ state s' = WAITING_FOR_INPUT
               \/ state s' = ACTING)
       end.
Proof.
  unfold act_on, bind, lift, update, ret. intros E.
  assert (forall (r : result ConversationMessage) (st : AgentState),
             (forall m, r = Ok m -> st = WAITING_FOR_INPUT) ->
             (st = state s \/ st = WAITING_FOR_INPUT \/ st = ACTING) ->
             (res, s') = (r, set_state st s) ->
             exists evs shots,
               trace s' = (trace s ++ evs ++ shots)%list /\ Forall is_shot shots
               /\ task_context s' = task_context s
               /\ page_open (browser s') = page_open (browser s)
               /\ is_initialized (browser s') = is_initialized (browser s)
               /\ Forall2 (fun x a => built u (task_context s) x = Ok a)
                    (firstn (length (executed evs)) (plan_steps d)) (executed evs)
               /\ (page_open (browser s) = false -> Forall refused (evs ++ shots))
               /\ match res with
                  | Ok m =>
                      (state s' = WAITING_FOR_INPUT
                       /\ conversation_history s' = conversation_history s
                       /\ evs = [] /\ shots = [])
                      \/ (state s' = IDLE
                          /\ conversation_history s'
                             = (conversation_history s
                                ++ [mkEntry "assistant" (cm_content m)])%list
                          /\ (failed evs = false ->
                              length (executed evs) = length (plan_steps d)))
                  | Exn _ =>
                      conversation_history s' = conversation_history s
                      /\ (state s' = state s \/ state s' = WAITING_FOR_INPUT
                          \/ state s' = ACTING)
                  end) as Quiet.
  { intros r st Hok Hst Er. inversion Er; subst. exists [], []. simpl.
    rewrite app_nil_r. repeat split; try constructor.
    destruct r as [m|e]; [left; rewrite (Hok m eq_refl); auto | auto]. }
  destruct (py_get d "requires_info" PNone) as [ri|e] eqn:G.
  2:{ apply (Quiet (Exn e) (state s)); [discriminate | auto |].
      rewrite <- E. destruct s; reflexivity. }
  destruct (truthy ri).
  { destruct (py_index d "response") as [resp|e].
    - apply (Quiet (Ok (reply resp None)) WAITING_FOR_INPUT); auto.
    - apply (Quiet (Exn e) WAITING_FOR_INPUT); [discriminate | auto | auto]. }
  destruct (py_index d "response") as [resp|e].
  2:{ apply (Quiet (Exn e) ACTING); [discriminate | auto | auto]. }
  destruct (run_plan W u d _ (set_state ACTING s)) as [rl s1] eqn:El.
  destruct (run_plan_more _ _ _ _ _ _ El)
    as (evs & T1 & (Kc & Kh & Kp & Ki) & F & Np & R).
  simpl in T1, Kc, Kh, Kp, Ki, F, Np.
  destruct rl as [v|e].
  2:{ inversion E; subst. exists evs, []. rewrite !app_nil_r.
      split; [exact T1|]. split; [constructor|]. split; [exact Kc|].
      split; [exact Kp|]. split; [exact Ki|]. split; [exact F|].
      split; [exact Np|]. split; [exact Kh|]. right; right. exact R. }
  destruct R as (St & Len & Same & Add).
  destruct (finish_more _ _ _ _ E) as (shots & T2 & Fs & Ns & Fc & Fp & Fi & Rf).
  exists evs, shots.
  split; [rewrite T2, T1; now rewrite app_assoc|]. split; [exact Fs|].
  split; [congruence|]. split; [congruence|]. split; [congruence|].
  split; [exact F|]. split.
  { intros P. rewrite (Ns (eq_trans Kp P)), app_nil_r. exact (Np P). }
  destruct res as [m|e].
  - right. destruct Rf as [Si Hh]. split; [exact Si|].
    split; [now rewrite Hh, Kh | exact Len].
  - exfalso. destruct Rf as [Ne Na].
    destruct (executed evs) as [|x xs] eqn:Ee.
    + rewrite (Same eq_refl) in Ne. now apply Ne.
    + apply Na, Add. discriminate.
Qed.

End TurnMore.

Section TurnCases.

Variable W : World.

Lemma events_of_turn_unique u s res s' evs :
  process_user_input W u s = (res, s') ->
  trace s' = (trace s ++ evs)%list ->
  events_of_turn W u s = evs.
Proof.
  intros E T. unfold events_of_turn. rewrite E. simpl. rewrite T.
  apply drop_app_length.
Qed.

(** Every way through [process_user_input], with the gate it passed,
    what it left alone and the steps it ran. *)
Lemma turn_more u s res s' :
  process_user_input W u s = (res, s') ->
  (events_of_turn W u s = []
   /\ state s' = WAITING_FOR_INPUT
   /\ conversation_history s' = (conversation_history s ++ [user_entry u])%list
   /\ task_context s' = task_context s
   /\ browser s' = browser s
   /\ ((res = Ok (reply (PStr ask_credentials) None)
        /\ contains "send email" (lower u) = true
        /\ truthy (context_get (task_context s) "email_credentials") = false)
       \/ (res = Ok (reply (PStr ask_details) None)
           /\ email_task u (task_context s) = true
           /\ (search re_recipient u = None \/ search re_subject u = None
               \/ search re_body u = None))))
  \/ exists ctx1 evs shots,
       ((email_task u (task_context s) = false /\ ctx1 = task_context s)
        \/ exists recipient subject body,
             email_task u (task_context s) = true
             /\ search re_recipient u = Some recipient
             /\ search re_subject u = Some subject
             /\ search re_body u = Some body
             /\ ctx1 = <["email_details" := email_details recipient subject body]>
                         (task_context s))
       /\ events_of_turn W u s
          = EvAnalyze (turn_messages u s) (turn_plan W u s) :: evs ++ shots
       /\ Forall is_shot shots
       /\ task_context s' = ctx1
       /\ page_open (browser s') = page_open (browser s)
       /\ is_initialized (browser s') = is_initialized (browser s)
       /\ Forall2 (fun x a => built u ctx1 x = Ok a)
            (firstn (length (executed evs)) (plan_steps (turn_plan W u s)))
            (executed evs)
       /\ (page_open (browser s) = false -> Forall refused (evs ++ shots))
       /\ match res with
          | Ok m =>
              (state s' = WAITING_FOR_INPUT
               /\ conversation_history s'
                  = (conversation_history s ++ [user_entry u])%list
               /\ evs = [] /\ shots = [])
              \/ (state s' = IDLE
                  /\ conversation_history s'
                     = (conversation_history s
                        ++ [user_entry u; mkEntry "assistant" (cm_content m)])%list
                  /\ (failed evs = false ->
                      length (executed evs)
                      = length (plan_steps (turn_plan W u s))))
          | Exn _ =>
              conversation_history s'
              = (conversation_history s ++ [user_entry u])%list
              /\ (state s' = THINKING \/ state s' = WAITING_FOR_INPUT
                  \/ state s' = ACTING)
          end.
Proof.
  intros E. pose proof E as E0.
  unfold process_user_input, bind, update, ret in E.
  set (s0 := append_history (mkEntry "user" (PStr u)) s) in *.
  change (task_context s0) with (task_context s) in E.
  (* from the state [s1] in which the plan is asked for *)
  assert (forall s1 : Agent,
             trace s1 = trace s ->
             conversation_history s1
             = (conversation_history s ++ [user_entry u])%list ->
             browser s1 = browser s ->
             act_on W u
               (fst (analyze_intent W u (conversation_history s1) (set_state THINKING s1)))
               (snd (analyze_intent W u (conversation_history s1) (set_state THINKING s1)))
             = (res, s') ->
             exists evs shots,
               events_of_turn W u s
               = EvAnalyze (turn_messages u s) (turn_plan W u s) :: evs ++ shots
               /\ Forall is_shot shots
               /\ task_context s' = task_context s1
               /\ page_open (browser s') = page_open (browser s)
               /\ is_initialized (browser s') = is_initialized (browser s)
               /\ Forall2 (fun x a => built u (task_context s1) x = Ok a)
                    (firstn (length (executed evs)) (plan_steps (turn_plan W u s)))
                    (executed evs)
               /\ (page_open (browser s) = false -> Forall refused (evs ++ shots))
               /\ match res with
                  | Ok m =>
                      (state s' = WAITING_FOR_INPUT
                       /\ conversation_history s'
                          = (conversation_history s ++ [user_entry u])%list
                       /\ evs = [] /\ shots = [])
                      \/ (state s' = IDLE
                          /\ conversation_history s'
                             = (conversation_history s
                                ++ [user_entry u; mkEntry "assistant" (cm_content m)])%list
                          /\ (failed evs = false ->
                              length (executed evs)
                              = length (plan_steps (turn_plan W u s))))
                  | Exn _ =>
                      conversation_history s'
                      = (conversation_history s ++ [user_entry u])%list
                      /\ (state s' = THINKING \/ state s' = WAITING_FOR_INPUT
                          \/ state s' = ACTING)
                  end) as Hact.
  { intros s1 T1 H1 B1 Ea. unfold analyze_intent in Ea. simpl in Ea.
    rewrite T1, H1 in Ea.
    change (parse_response W
              (generate_response W
                 (analyze_messages u (conversation_history s ++ [user_entry u]))
                 (trace s)))
      with (turn_plan W u s) in Ea.
    change (analyze_messages u (conversation_history s ++ [user_entry u]))
      with (turn_messages u s) in Ea.
    destruct (act_on_more W _ _ _ _ _ Ea)
      as (evs & shots & T & Fs & Kc & Kp & Ki & F & Np & R).
    simpl in T, Kc, Kp, Ki, F, Np, R. rewrite B1 in Kp, Ki, Np.
    exists evs, shots. split.
    { apply (events_of_turn_unique _ _ _ _ _ E0). rewrite T, T1.
      now rewrite <- app_assoc. }
    split; [exact Fs|]. split; [exact Kc|]. split; [exact Kp|].
    split; [exact Ki|]. split; [exact F|]. split; [exact Np|].
    rewrite H1 in R. destruct res as [m|e].
    - destruct R as [R|(Si & Hh & Len)]; [left; exact R | right].
      split; [exact Si|]. split; [|exact Len].
      rewrite Hh. now rewrite <- app_assoc.
    - destruct R as [Hh [St|[St|St]]]; split; auto. }
  destruct (contains "send email" (lower u)) eqn:Tr;
    [destruct (truthy (context_get (task_context s) "email_credentials")) eqn:Cr|];
    simpl in E.
  2:{ left. inversion E; subst.
      split; [apply (events_of_turn_unique _ _ _ _ _ E0); simpl; now rewrite app_nil_r|].
      repeat split. left. auto. }
  - (* the e-mail task *)
    assert (email_task u (task_context s) = true) as Et
      by (unfold email_task; now rewrite Tr, Cr).
    unfold email_task in E. rewrite Tr, Cr in E. simpl in E.
    destruct (search re_recipient u) as [recipient|] eqn:S1;
      [destruct (search re_subject u) as [subject|] eqn:S2;
       [destruct (search re_body u) as [body|] eqn:S3|]|];
      try (left; inversion E; subst;
           split; [apply (events_of_turn_unique _ _ _ _ _ E0); simpl; now rewrite app_nil_r|];
           repeat split; right; auto).
    right.
    destruct (Hact (set_context "email_details" (email_details recipient subject body) s0)
                eq_refl eq_refl eq_refl E)
      as (evs & shots & R).
    exists (<["email_details" := email_details recipient subject body]> (task_context s)),
      evs, shots.
    split; [right; exists recipient, subject, body; auto | exact R].
  - right. unfold email_task in E. rewrite Tr in E. simpl in E.
    destruct (Hact s0 eq_refl eq_refl eq_refl E) as (evs & shots & R).
    exists (task_context s), evs, shots.
    split; [left; split; [unfold email_task; now rewrite Tr | reflexivity] | exact R].
Qed.

End TurnCases.

(** ** What was built for a step *)

Lemma make_action_fields d a :
  make_action d = Ok a ->
  py_index d "action_type" = Ok (action_type a)
  /\ py_get d "target" (PStr EmptyString) = Ok (target a)
  /\ py_get d "text" (PStr EmptyString) = Ok (text a)
  /\ py_get d "description" (PStr EmptyString) = Ok (description a)
  /\ py_get d "value" PNone = Ok (value a)
  /\ delay a = default_delay.
Proof.
  unfold make_action.
  destruct (py_index d "action_type") as [ty|]; [|discriminate].
  destruct (py_get d "target" _) as [tg|]; [|discriminate].
  destruct (py_get d "text" _) as [tx|];
    [|destruct (py_get d "description" _); destruct (py_get d "value" _);
      discriminate].
  destruct (py_get d "description" _) as [ds|];
    [|destruct (py_get d "value" _); discriminate].
  destruct (py_get d "value" _) as [vl|]; [|discriminate].
  intros E. inversion E; subst. simpl. repeat split.
Qed.

Lemma with_text_fields a r a' :
  with_text a r = Ok a' ->
  r = Ok (text a')
  /\ action_type a' = action_type a /\ target a' = target a
  /\ description a' = description a /\ delay a' = delay a
  /\ value a' = value a.
Proof.
  destruct r as [t|e]; simpl; intros E; inversion E; subst.
  repeat split.
Qed.

Lemma substitute_fields u ctx a a' :
  substitute u ctx a = Ok a' ->
  action_type a' = action_type a /\ target a' = target a
  /\ description a' = description a /\ delay a' = delay a
  /\ value a' = value a.
Proof.
  unfold substitute.
  repeat match goal with
  | |- (if ?b then _ else _) = _ -> _ => destruct b
  end;
    try (intros E; apply with_text_fields in E; tauto);
    intros E; inversion E; subst; repeat split.
Qed.



Lemma built_fields u ctx d a :
  built u ctx d = Ok a ->
  py_index d "action_type" = Ok (action_type a)
  /\ py_get d "target" (PStr EmptyString) = Ok (target a)
  /\ py_get d "description" (PStr EmptyString) = Ok (description a)
  /\ py_get d "value" PNone = Ok (value a)
  /\ delay a = default_delay.
Proof.
  unfold built. destruct (make_action d) as [a0|] eqn:Em; [|discriminate].
  intros Es. destruct (make_action_fields _ _ Em) as (A & B & _ & C & D & E).
  destruct (substitute_fields _ _ _ _ Es) as (A' & B' & C' & D' & E').
  rewrite A', B', C', D', E'. auto.
Qed.



(** ** The events of a turn, read *)

Section TurnReadings.

Variable W : World.

Lemma shots_executed shots : Forall is_shot shots -> executed shots = [].
Proof.
  intros F. apply quiet_executed. eapply Forall_impl; [exact F|].
  apply is_shot_quiet.
Qed.

Lemma shots_failed shots : Forall is_shot shots -> failed shots = false.
Proof.
  intros F. apply quiet_failed. eapply Forall_impl; [exact F|].
  apply is_shot_quiet.
Qed.

Lemma acted_executed msgs d evs shots :
  Forall is_shot shots ->
  executed (EvAnalyze msgs d :: evs ++ shots) = executed evs.
Proof.
  intros F. simpl. rewrite executed_app, (shots_executed _ F).
  apply app_nil_r.
Qed.

Lemma acted_failed msgs d evs shots :
  Forall is_shot shots ->
  failed (EvAnalyze msgs d :: evs ++ shots) = failed evs.
Proof.
  intros F. simpl. rewrite failed_app, (shots_failed _ F).
  apply orb_false_r.
Qed.

End TurnReadings.

(** ** The outcomes of the executor *)

Section Outcomes.

Variable W : World.

Lemma orderly_done {A} (x : A) : orderly W (done x).
Proof.
  intros s y s' E. inversion E; subst. exists []. rewrite app_nil_r.
  split; [reflexivity | constructor].
Qed.

Lemma orderly_await c : orderly W (await W c).
Proof.
  intros s x s' E. unfold await, call in E.
  exists [EvPage c (page W (trace s) c)].
  destruct (page W (trace s) c) as [v|e]; inversion E; subst;
    (split; [reflexivity|]).
  - constructor; [exact I | constructor].
  - exists [], c. split; [reflexivity | constructor].
Qed.

Lemma orderly_then {A B} (m : T A) (k : A -> T B) :
  orderly W m -> (forall x, orderly W (k x)) -> orderly W (then_ m k).
Proof.
  intros Hm Hk s y s' E. unfold then_ in E.
  destruct (m s) as [[x|e] s1] eqn:Em.
  - destruct (Hm _ _ _ Em) as (p1 & T1 & A1).
    destruct (Hk x _ _ _ E) as (p2 & T2 & A2).
    exists (p1 ++ p2)%list. split; [rewrite T2, T1; now rewrite app_assoc|].
    destruct y as [y|e].
    + apply Forall_app. auto.
    + destruct A2 as (pre & c & -> & Fp). exists (p1 ++ pre)%list, c.
      split; [now rewrite app_assoc | apply Forall_app; auto].
  - inversion E; subst. exact (Hm _ _ _ Em).
Qed.

Lemma orderly_attempt a : orderly W (attempt W a).
Proof.
  unfold attempt.
  repeat match goal with
  | |- orderly _ (if ?b then _ else _) => destruct b
  | |- orderly _ (then_ _ _) => apply orderly_then; [|intros ?]
  | |- orderly _ (await _ _) => apply orderly_await
  | |- orderly _ (done _) => apply orderly_done
  end.
  intros s0 y s1 E. inversion E; subst. exists []. simpl.
  rewrite app_nil_r. split; [reflexivity | constructor].
Qed.

Lemma verdict_done r : verdict (done (true, r)).
Proof. intros s ok r' s' E. now inversion E. Qed.

Lemma verdict_then {A} (m : T A) (k : A -> T (bool * string)) :
  (forall x, verdict (k x)) -> verdict (then_ m k).
Proof.
  intros Hk s ok r s' E. unfold then_ in E.
  destruct (m s) as [[x|e] s1]; [exact (Hk x _ _ _ _ E) | discriminate].
Qed.

(** Of a known kind, the [try] block reports success when it ends. *)
Lemma attempt_known a :
  in_strs (action_type a) known_kinds = true -> verdict (attempt W a).
Proof.
  unfold in_strs, known_kinds, attempt. simpl. intros K.
  repeat match goal with
  | |- verdict (if ?b then _ else _) => destruct b; simpl in K
  | |- verdict (then_ _ _) => apply verdict_then; intros ?
  | |- verdict (done (true, _)) => apply verdict_done
  end; try discriminate.
  intros s0 ok r s1 E. now inversion E.
Qed.

Lemma forall_and {A} (P Q : A -> Prop) l :
  Forall P l -> Forall Q l -> Forall (fun x => P x /\ Q x) l.
Proof. induction 1; inversion 1; subst; constructor; auto. Qed.

End Outcomes.

(** ** The frame switched to is not looked at *)

Section Blind.

Variable W : World.

Lemma alike_refl s : alike s s.
Proof. repeat split. Qed.

Lemma alike_frame f s : alike (set_current_frame f s) s.
Proof. repeat split. Qed.

Lemma alike_frames f1 f2 s1 s2 :
  alike s1 s2 -> alike (set_current_frame f1 s1) (set_current_frame f2 s2).
Proof. intros (A & B & C & D & E & F). repeat split; assumption. Qed.

Lemma alike_log ev s1 s2 : alike s1 s2 -> alike (log ev s1) (log ev s2).
Proof.
  intros (A & B & C & D & E & F). repeat split; try assumption.
  simpl. now rewrite F.
Qed.

Lemma alike_set_state st s1 s2 :
  alike s1 s2 -> alike (set_state st s1) (set_state st s2).
Proof. intros (A & B & C & D & E & F). repeat split; assumption. Qed.

Lemma alike_append_history e s1 s2 :
  alike s1 s2 -> alike (append_history e s1) (append_history e s2).
Proof.
  intros (A & B & C & D & E & F). repeat split; try assumption.
  simpl. now rewrite B.
Qed.

Lemma alike_set_context k v s1 s2 :
  alike s1 s2 -> alike (set_context k v s1) (set_context k v s2).
Proof.
  intros (A & B & C & D & E & F). repeat split; try assumption.
  simpl. now rewrite C.
Qed.

Lemma blind_ret {A} (a : A) : blind (ret a).
Proof. intros s1 s2 H. simpl. auto. Qed.

Lemma blind_raise {A} (e : exn) : blind (@raise A e).
Proof. intros s1 s2 H. simpl. auto. Qed.

Lemma blind_lift {A} (r : result A) : blind (lift r).
Proof. intros s1 s2 H. simpl. auto. Qed.

Lemma blind_update (f : Agent -> Agent) :
  (forall s1 s2, alike s1 s2 -> alike (f s1) (f s2)) -> blind (update f).
Proof. intros Hf s1 s2 H. simpl. auto. Qed.

Lemma blind_total {A} (f : Agent -> A * Agent) : blind f -> blind (total f).
Proof.
  intros Hf s1 s2 H. unfold total. destruct (Hf _ _ H) as [R K].
  destruct (f s1), (f s2). simpl in *. split; [congruence | exact K].
Qed.

Lemma blind_bind {A B} (m : M A) (k : A -> M B) :
  blind m -> (forall a, blind (k a)) -> blind (bind m k).
Proof.
  intros Hm Hk s1 s2 H. unfold bind. destruct (Hm _ _ H) as [R K].
  destruct (m s1) as [[a1|e1] t1], (m s2) as [[a2|e2] t2]; simpl in *;
    try discriminate.
  - inversion R; subst. exact (Hk a2 _ _ K).
  - inversion R; subst. auto.
Qed.

Lemma blind_done {A} (a : A) : blind (done a).
Proof. intros s1 s2 H. simpl. auto. Qed.

Lemma blind_call c : blind (call W c).
Proof.
  intros s1 s2 H. unfold call. simpl.
  destruct H as (A & B & C & D & E & F). rewrite F.
  split; [reflexivity|]. repeat split; try assumption. simpl. now rewrite F.
Qed.

Lemma blind_await c : blind (await W c).
Proof.
  intros s1 s2 H. unfold await. destruct (blind_call c _ _ H) as [R K].
  destruct (call W c s1) as [a1 t1], (call W c s2) as [a2 t2]. simpl in *.
  subst a2. destruct a1; simpl; auto.
Qed.

Lemma blind_then {A B} (m : T A) (k : A -> T B) :
  blind m -> (forall a, blind (k a)) -> blind (then_ m k).
Proof.
  intros Hm Hk s1 s2 H. unfold then_. destruct (Hm _ _ H) as [R K].
  destruct (m s1) as [[a1|e1] t1], (m s2) as [[a2|e2] t2]; simpl in *;
    try discriminate.
  - inversion R; subst. exact (Hk a2 _ _ K).
  - inversion R; subst. auto.
Qed.

Lemma blind_attempt a : blind (attempt W a).
Proof.
  unfold attempt.
  repeat match goal with
  | |- blind (if ?b then _ else _) => destruct b
  | |- blind (then_ _ _) => apply blind_then; [|intros ?]
  | |- blind (await _ _) => apply blind_await
  | |- blind (done _) => apply blind_done
  end.
  intros s1 s2 H. simpl. split; [reflexivity | now apply alike_frames].
Qed.

Lemma blind_execute_action a : blind (execute_action W a).
Proof.
  intros s1 s2 H. unfold execute_action, execute_action_body.
  pose proof H as (_ & _ & _ & P & _ & _). rewrite P.
  destruct (negb (page_open (browser s2))).
  { simpl. split; [reflexivity | now apply alike_log]. }
  destruct (blind_attempt a _ _ H) as [R K].
  destruct (attempt W a s1) as [[[ok1 r1]|e1] t1],
           (attempt W a s2) as [[[ok2 r2]|e2] t2]; simpl in *;
    try discriminate.
  - inversion R; subst. split; [reflexivity | now apply alike_log].
  - inversion R; subst. unfold recover.
    destruct (blind_call (Reload 30000) _ _ K) as [R2 K2].
    destruct (call W (Reload 30000) t1) as [a1 u1],
             (call W (Reload 30000) t2) as [a2 u2]. simpl in *. subst a2.
    destruct a1; simpl; (split; [reflexivity | now apply alike_log]).
Qed.

Lemma blind_take_screenshot : blind (take_screenshot W).
Proof.
  intros s1 s2 H. unfold take_screenshot.
  pose proof H as (_ & _ & _ & P & _ & _). rewrite P.
  destruct (negb (page_open (browser s2))); [simpl; auto|].
  destruct (blind_call (Screenshot true 10000) _ _ H) as [R K].
  destruct (call W (Screenshot true 10000) s1) as [a1 t1],
           (call W (Screenshot true 10000) s2) as [a2 t2]. simpl in *.
  subst a2. destruct a1 as [[]|]; simpl; auto.
Qed.

Lemma blind_step u d v : blind (step W u d v).
Proof.
  unfold step. apply blind_bind; [apply blind_lift | intros a0].
  apply blind_bind.
  { intros s1 s2 H. simpl. pose proof H as (_ & _ & C & _). rewrite C. auto. }
  intros a. apply blind_bind;
    [apply blind_total, blind_execute_action | intros [ok r]].
  destruct ok.
  - apply blind_bind; [apply blind_lift | intros rc].
    apply blind_bind.
    { destruct (in_strs (action_type a) _); [|apply blind_ret].
      apply blind_bind; [apply blind_total, blind_take_screenshot|].
      intros b64. apply blind_ret. }
    intros shot. apply blind_bind; [|intros ?; apply blind_ret].
    apply blind_update. intros. now apply alike_log.
  - apply blind_bind; [apply blind_lift | intros rc].
    apply blind_bind; [|intros ?; apply blind_ret].
    apply blind_update. intros. now apply alike_set_state.
Qed.

Lemma blind_run_actions u actions : forall v, blind (run_actions W u actions v).
Proof.
  induction actions as [|d rest IH]; intros v; simpl; [apply blind_ret|].
  apply blind_bind; [apply blind_step | intros [stop v']].
  destruct stop; [apply blind_ret | apply IH].
Qed.

Lemma blind_run_plan u d v : blind (run_plan W u d v).
Proof.
  unfold run_plan. apply blind_bind; [apply blind_lift | intros acts].
  destruct (truthy acts); [|apply blind_ret].
  apply blind_bind; [apply blind_lift | intros l].
  destruct l; simpl; try apply blind_raise. apply blind_run_actions.
Qed.

Lemma blind_finish v : blind (finish W v).
Proof.
  unfold finish. apply blind_bind.
  { intros s1 s2 H. pose proof H as (_ & _ & _ & _ & I & _). rewrite I.
    destruct (no_screenshot (screenshot v) && is_initialized (browser s2));
      [|simpl; auto].
    destruct (blind_take_screenshot _ _ H) as [R K].
    destruct (take_screenshot W s1), (take_screenshot W s2). simpl in *.
    subst. auto. }
  intros shot. apply blind_bind.
  { destruct (extracted_data v); [apply blind_ret | apply blind_lift]. }
  intros rc. apply blind_bind.
  { apply blind_update. intros. now apply alike_append_history. }
  intros _. apply blind_bind; [|intros _; apply blind_ret].
  apply blind_update. intros. now apply alike_set_state.
Qed.

Lemma blind_act_on u d : blind (act_on W u d).
Proof.
  unfold act_on. apply blind_bind; [apply blind_lift | intros ri].
  destruct (truthy ri).
  - apply blind_bind.
    { apply blind_update. intros. now apply alike_set_state. }
    intros _. apply blind_bind; [apply blind_lift | intros ?; apply blind_ret].
  - apply blind_bind.
    { apply blind_update. intros. now apply alike_set_state. }
    intros _. apply blind_bind; [apply blind_lift | intros resp].
    apply blind_bind; [apply blind_run_plan | intros v; apply blind_finish].
Qed.

Lemma blind_process_user_input u : blind (process_user_input W u).
Proof.
  unfold process_user_input. apply blind_bind.
  { apply blind_update. intros. now apply alike_append_history. }
  intros _ s1 s2 H. pose proof H as (_ & Hh & C & _ & _ & Tr). rewrite C.
  destruct (contains "send email" (lower u)
            && negb (truthy (context_get (task_context s2) "email_credentials"))).
  { revert s1 s2 H Hh C Tr. intros s1 s2 H _ _ _. revert s1 s2 H.
    apply blind_bind; [|intros _; apply blind_ret].
    apply blind_update. intros. now apply alike_set_state. }
  revert H. generalize (email_task u (task_context s2)). intros et H.
  assert (forall gate : M bool, blind gate ->
            blind (bind gate (fun go : bool =>
                     if go
                     then
                       bind (update (set_state THINKING)) (fun _ =>
                         bind (fun s =>
                                 let (d, s') :=
                                   analyze_intent W u (conversation_history s) s
                                 in (Ok d, s'))
                              (fun intent_data => act_on W u intent_data))
                     else ret (reply (PStr ask_details) None)))) as Rest.
  { intros gate Hg. apply blind_bind; [exact Hg | intros go].
    destruct go; [|apply blind_ret].
    apply blind_bind.
    { apply blind_update. intros. now apply alike_set_state. }
    intros _. apply blind_bind; [|intros d; apply blind_act_on].
    intros t1 t2 K. unfold analyze_intent. simpl.
    pose proof K as (_ & Kh & _ & _ & _ & Kt). rewrite Kh, Kt.
    split; [reflexivity | now apply alike_log]. }
  apply Rest; [|exact H].
  destruct et; [|apply blind_ret].
  destruct (search re_recipient u); [destruct (search re_subject u);
    [destruct (search re_body u)|]|];
    (apply blind_bind; [|intros _; apply blind_ret]);
    apply blind_update; intros;
    (now apply alike_set_context) || (now apply alike_set_state).
Qed.

End Blind.

(** ** The three patterns *)

Module PatternFacts.

Import TextFacts.












End PatternFacts.

(** ** The life of the controller *)

Section Life.

Variable H : Host.

(** What the life-cycle methods leave alone in the agent. *)
Lemma controller_initialize_frame headless x r x' :
  Controller.initialize H headless x = (r, x') ->
  state (agent (fst x')) = state (agent (fst x))
  /\ conversation_history (agent (fst x')) = conversation_history (agent (fst x))
  /\ task_context (agent (fst x')) = task_context (agent (fst x))
  /\ trace (agent (fst x')) = trace (agent (fst x))
  /\ current_frame (browser (agent (fst x')))
     = current_frame (browser (agent (fst x))).
Proof.
  unfold Controller.initialize, Controller.launch, ask.
  repeat match goal with
  | |- context [H ?l ?c] => destruct (H l c); simpl
  end; intros E; inversion E; subst; simpl; repeat split.
Qed.

Lemma controller_initialize_spec headless x r x' :
  Controller.initialize H headless x = (r, x') ->
  exists calls,
    snd x' = (snd x ++ calls)%list
    /\ (forall a,
          In (LaunchPersistentContext user_data_dir headless None, a) calls ->
          exists e0,
            In (LaunchPersistentContext user_data_dir headless (Some "chrome"),
                Raises e0) calls)
    /\ (page_open (browser (agent (fst x))) = true ->
        page_open (browser (agent (fst x'))) = true)
    /\ (is_initialized (browser (agent (fst x))) = true ->
        is_initialized (browser (agent (fst x'))) = true)
    /\ (context_open (fst x) = true -> context_open (fst x') = true)
    /\ (playwright_on (fst x) = true -> playwright_on (fst x') = true)
    /\ match r with
       | None =>
           page_open (browser (agent (fst x'))) = true
           /\ is_initialized (browser (agent (fst x'))) = true
           /\ context_open (fst x') = true
           /\ playwright_on (fst x') = true
       | Some e =>
           exists pre c,
             calls = (pre ++ [(c, Raises e)])%list
             /\ match c with
                | ContextCookies =>
                    page_open (browser (agent (fst x'))) = true
                    /\ is_initialized (browser (agent (fst x'))) = true
                    /\ context_open (fst x') = true
                    /\ playwright_on (fst x') = true
                | _ =>
                    page_open (browser (agent (fst x')))
                    = page_open (browser (agent (fst x)))
                    /\ is_initialized (browser (agent (fst x')))
                       = is_initialized (browser (agent (fst x)))
                end
       end.
Proof.
  unfold Controller.initialize, Controller.launch, ask.
  repeat match goal with
  | |- context [H ?l ?c] => destruct (H l c); simpl
  end; intros E; inversion E; subst; simpl;
    (eexists; split; [rewrite <- ?app_assoc; simpl; reflexivity|]);
    (split; [intros a Hin; simpl in Hin;
             repeat (destruct Hin as [Hin|Hin]; try discriminate);
             try contradiction; eexists; simpl; eauto 10|]);
    (split; [auto|]); (split; [auto|]); (split; [auto|]); (split; [auto|]);
    try (repeat split; reflexivity);
    match goal with
    | |- exists pre c, ?l = _ /\ _ =>
        first
          [ exists [] ; eexists; split; [reflexivity | simpl; auto]
          | eexists [_]; eexists; split; [reflexivity | simpl; auto]
          | eexists [_; _]; eexists; split; [reflexivity | simpl; auto]
          | eexists [_; _; _]; eexists; split; [reflexivity | simpl; auto]
          | eexists [_; _; _; _]; eexists; split; [reflexivity | simpl; auto]
          | eexists [_; _; _; _; _]; eexists; split;
            [reflexivity | simpl; auto] ]
    end.
Qed.

Lemma controller_cleanup_spec x :
  state (agent (fst (Controller.cleanup H x))) = state (agent (fst x))
  /\ conversation_history (agent (fst (Controller.cleanup H x)))
     = conversation_history (agent (fst x))
  /\ task_context (agent (fst (Controller.cleanup H x)))
     = task_context (agent (fst x))
  /\ trace (agent (fst (Controller.cleanup H x))) = trace (agent (fst x))
  /\ page_open (browser (agent (fst (Controller.cleanup H x))))
     = page_open (browser (agent (fst x)))
  /\ context_open (fst (Controller.cleanup H x)) = context_open (fst x)
  /\ playwright_on (fst (Controller.cleanup H x)) = playwright_on (fst x)
  /\ exists calls,
       snd (Controller.cleanup H x) = (snd x ++ calls)%list
       /\ ((Forall (fun ev => exists v, snd ev = Returns v) calls
            /\ map fst calls
               = ((if page_open (browser (agent (fst x)))
                   then [ClosePage] else [])
                  ++ (if context_open (fst x) then [CloseContext] else [])
                  ++ (if playwright_on (fst x) then [StopPlaywright] else []))%list
            /\ is_initialized (browser (agent (fst (Controller.cleanup H x))))
               = false)
           \/ (exists pre c e,
                 calls = (pre ++ [(c, Raises e)])%list
                 /\ Forall (fun ev => exists v, snd ev = Returns v) pre
                 /\ is_initialized (browser (agent (fst (Controller.cleanup H x))))
                    = is_initialized (browser (agent (fst x))))).
Proof.
  unfold Controller.cleanup, Controller.close, ask.
  destruct x as [[s c p] hl]. simpl.
  destruct (page_open (browser s)) eqn:P, c, p; simpl;
    repeat match goal with
    | |- context [H ?l ?q] => destruct (H l q) eqn:?; simpl
    end;
    rewrite ?P;
    (split; [reflexivity|]); (split; [reflexivity|]); (split; [reflexivity|]);
    (split; [reflexivity|]); (split; [reflexivity|]); (split; [reflexivity|]);
    (split; [reflexivity|]);
    (eexists; split;
     [rewrite <- ?app_assoc; simpl;
      first [reflexivity | symmetry; apply app_nil_r]|]);
    first
      [ left; split; [repeat constructor; eexists; reflexivity|];
        split; reflexivity
      | right; first
          [ exists []; do 2 eexists; split; [reflexivity|];
            split; [constructor | reflexivity]
          | eexists [_]; do 2 eexists; split; [reflexivity|];
            split; [repeat constructor; eexists; reflexivity | reflexivity]
          | eexists [_; _]; do 2 eexists; split; [reflexivity|];
            split; [repeat constructor; eexists; reflexivity | reflexivity] ] ].
Qed.

End Life.

Section LifeOfATurn.

Variable W : World.

Lemma turn_keeps_browser u s :
  page_open (browser (snd (process_user_input W u s))) = page_open (browser s)
  /\ is_initialized (browser (snd (process_user_input W u s)))
     = is_initialized (browser s).
Proof.
  destruct (process_user_input W u s) as [res s'] eqn:E. simpl.
  destruct (turn_more W _ _ _ _ E)
    as [(_ & _ & _ & _ & -> & _)
       |(ctx1 & evs & shots & _ & _ & _ & _ & Kp & Ki & _)]; auto.
Qed.

Lemma outspoken_done ok r :
  r <> "Browser not initialized" -> outspoken (done (ok, r)).
Proof. intros N s ok' r' s' E. inversion E; subst. exact N. Qed.

Lemma outspoken_then {A} (m : T A) (k : A -> T (bool * string)) :
  (forall x, outspoken (k x)) -> outspoken (then_ m k).
Proof.
  intros Hk s ok r s' E. unfold then_ in E.
  destruct (m s) as [[x|e] s1]; [exact (Hk x _ _ _ _ E) | discriminate].
Qed.

Lemma outspoken_attempt a : outspoken (attempt W a).
Proof.
  unfold attempt.
  repeat match goal with
  | |- outspoken (if ?b then _ else _) => destruct b
  | |- outspoken (then_ _ _) => apply outspoken_then; intros ?
  | |- outspoken (done _) =>
      apply outspoken_done; intros D;
      rewrite ?TextFacts.app_cons in D; discriminate
  end.
  intros s0 ok r s1 E. inversion E; subst. intros D.
  rewrite ?TextFacts.app_cons in D. discriminate.
Qed.

(** With a page set, [execute_action] does not refuse for want of
    one. *)
Lemma page_set_is_not_refused a s :
  page_open (browser s) = true ->
  snd (fst (execute_action W a s)) <> "Browser not initialized".
Proof.
  intros P. unfold execute_action, execute_action_body. rewrite P. simpl.
  destruct (attempt W a s) as [[[ok r]|e] s1] eqn:Ea; simpl.
  - exact (outspoken_attempt a _ _ _ _ Ea).
  - unfold recover, call. destruct (page W (trace s1) (Reload 30000)); simpl;
      intros D; rewrite ?TextFacts.app_cons in D; discriminate.
Qed.

End LifeOfATurn.

(** ** The session of the application *)

Section SessionFacts.

Variable W : World.
Variable H : Host.

Lemma turn_without_page u s ev :
  page_open (browser s) = false ->
  In ev (events_of_turn W u s) ->
  ev = EvAnalyze (turn_messages u s) (turn_plan W u s) \/ refused ev.
Proof.
  intros P Hin. destruct (process_user_input W u s) as [res s'] eqn:E.
  destruct (turn_more W _ _ _ _ E)
    as [(Ev & _)
       |(ctx1 & evs & shots & _ & Ev & Fs & _ & _ & _ & _ & Np & _)];
    rewrite Ev in Hin; [contradiction|].
  destruct Hin as [<-|Hin]; [now left|]. right.
  specialize (Np P). rewrite Forall_forall in Np. apply Np.
  now apply list_elem_of_In.
Qed.

Lemma made_agent gmail_email gmail_password :
  state (agent (App.made gmail_email gmail_password)) = IDLE
  /\ conversation_history (agent (App.made gmail_email gmail_password)) = []
  /\ trace (agent (App.made gmail_email gmail_password)) = []
  /\ page_open (browser (agent (App.made gmail_email gmail_password))) = false
  /\ is_initialized (browser (agent (App.made gmail_email gmail_password)))
     = false
  /\ task_context (agent (App.made gmail_email gmail_password))
     = (if truthy (PStr gmail_email) && truthy (PStr gmail_password)
        then <["email_credentials" := App.gmail gmail_email gmail_password]> ∅
        else ∅).
Proof.
  unfold App.made.
  destruct (truthy (PStr gmail_email) && truthy (PStr gmail_password));
    repeat split.
Qed.

Lemma press_initialize_spec key gmail_email gmail_password x :
  truthy (PStr key) = true ->
  agent_initialized (App.press_initialize H key gmail_email gmail_password x)
  = true
  /\ session_agent (App.press_initialize H key gmail_email gmail_password x)
     = Some (fst (snd (Orchestrator.initialize H
                         (App.made gmail_email gmail_password, host_log x))))
  /\ host_log (App.press_initialize H key gmail_email gmail_password x)
     = snd (snd (Orchestrator.initialize H
                   (App.made gmail_email gmail_password, host_log x)))
  /\ messages (App.press_initialize H key gmail_email gmail_password x)
     = messages x
  /\ shown (App.press_initialize H key gmail_email gmail_password x)
     = (shown x
        ++ [match fst (Orchestrator.initialize H
                         (App.made gmail_email gmail_password, host_log x)) with
            | None => StSuccess "✅ Agent initialized! Start chatting below."
            | Some e => StError ("❌ Failed to initialize agent: " +:+ e)
            end])%list.
Proof.
  intros K. unfold App.press_initialize. rewrite K. simpl.
  destruct (Orchestrator.initialize H _) as [[e|] l]; simpl; repeat split.
Qed.

Lemma submit_spec u x sys :
  truthy (PStr u) = true -> agent_initialized x = true ->
  session_agent x = Some sys ->
  session_agent (App.submit W u x)
  = Some (mkSystem (snd (process_user_input W u (agent sys)))
            (context_open sys) (playwright_on sys))
  /\ host_log (App.submit W u x) = host_log x
  /\ agent_initialized (App.submit W u x) = true
  /\ match fst (process_user_input W u (agent sys)) with
     | Ok m =>
         messages (App.submit W u x)
         = (messages x ++ [mkUiMessage "user" (PStr u) None;
                           App.message_data m])%list
         /\ shown (App.submit W u x) = (shown x ++ [StRerun])%list
     | Exn e =>
         messages (App.submit W u x)
         = (messages x ++ [mkUiMessage "user" (PStr u) None])%list
         /\ shown (App.submit W u x) = (shown x ++ [StErrorOf "Error: " e])%list
     end.
Proof.
  intros Tu I A. unfold App.submit. rewrite Tu, I. simpl. rewrite A.
  unfold Orchestrator.converse. simpl.
  destruct (process_user_input W u (agent sys)) as [[m|e] s']; simpl;
    rewrite <- ?app_assoc; repeat split; exact I.
Qed.

Lemma submit_refused u x :
  agent_initialized x = false ->
  messages (App.submit W u x) = messages x
  /\ session_agent (App.submit W u x) = session_agent x
  /\ host_log (App.submit W u x) = host_log x
  /\ (truthy (PStr u) = true ->
      shown (App.submit W u x)
      = (shown x
         ++ [StError "Please initialize the agent first using the sidebar."])%list).
Proof.
  intros I. unfold App.submit. rewrite I.
  destruct (truthy (PStr u)); simpl; repeat split; intros; discriminate.
Qed.

Lemma trigger_is_text u :
  contains "send email" (lower u) = true -> truthy (PStr u) = true.
Proof. destruct u; [discriminate | reflexivity]. Qed.

Lemma orchestrator_initialize_frame x :
  conversation_history (agent (fst (snd (Orchestrator.initialize H x))))
  = conversation_history (agent (fst x))
  /\ task_context (agent (fst (snd (Orchestrator.initialize H x))))
     = task_context (agent (fst x))
  /\ trace (agent (fst (snd (Orchestrator.initialize H x))))
     = trace (agent (fst x)).
Proof.
  unfold Orchestrator.initialize.
  destruct (Controller.initialize H false x) as [[e|] x1] eqn:E;
    destruct (controller_initialize_frame H _ _ _ _ E) as (_ & Fh & Fc & Ft & _);
    simpl; auto.
Qed.

End SessionFacts.

(** ** One sleep for each step that succeeded *)

Section Pacing.

Variable W : World.

Lemma pauses_app e1 e2 : pauses (e1 ++ e2) = (pauses e1 + pauses e2)%nat.
Proof.
  induction e1 as [|ev e1 IH]; [reflexivity|].
  destruct ev; simpl; now rewrite IH.
Qed.

Lemma successes_app e1 e2 :
  successes (e1 ++ e2) = (successes e1 + successes e2)%nat.
Proof.
  induction e1 as [|ev e1 IH]; [reflexivity|].
  destruct ev as [| |a [] r|]; simpl; now rewrite IH.
Qed.

Lemma executor_counts pe :
  Forall executor_event pe -> pauses pe = 0%nat /\ successes pe = 0%nat.
Proof.
  induction 1 as [|ev pe E _ [IH1 IH2]]; [auto|].
  destruct ev; simpl in *; try contradiction. auto.
Qed.

Lemma shot_counts shots :
  Forall is_shot shots -> pauses shots = 0%nat /\ successes shots = 0%nat.
Proof.
  induction 1 as [|ev pe E _ [IH1 IH2]]; [auto|].
  destruct ev; simpl in *; try contradiction. auto.
Qed.

Lemma paces_quiet {A} (m : M A) :
  (forall s, trace (snd (m s)) = trace s) -> paces m.
Proof.
  intros Hm s res s' E. exists []. rewrite app_nil_r.
  specialize (Hm s). rewrite E in Hm. simpl. split; [exact Hm|].
  split; [lia | reflexivity].
Qed.

Lemma paces_ret {A} (a : A) : paces (ret a).
Proof. apply paces_quiet. reflexivity. Qed.

Lemma paces_lift {A} (r : result A) : paces (lift r).
Proof. apply paces_quiet. reflexivity. Qed.

Lemma paces_raise {A} (e : exn) : paces (@raise A e).
Proof. apply paces_quiet. reflexivity. Qed.

Lemma paces_update f : (forall s, trace (f s) = trace s) -> paces (update f).
Proof. intros Hf. apply paces_quiet. exact Hf. Qed.

Lemma paces_bind {A B} (m : M A) (k : A -> M B) :
  paces m -> (forall a, paces (k a)) -> paces (bind m k).
Proof.
  intros Hm Hk s res s' E. unfold bind in E.
  destruct (m s) as [[a|e] s1] eqn:Em.
  - destruct (Hm _ _ _ Em) as (e1 & T1 & B1 & Q1).
    destruct (Hk a _ _ _ E) as (e2 & T2 & B2 & Q2).
    specialize (Q1 a eq_refl).
    exists (e1 ++ e2)%list.
    split; [rewrite T2, T1; now rewrite app_assoc|].
    rewrite pauses_app, successes_app. split; [lia|].
    intros b Eb. specialize (Q2 b Eb). lia.
  - inversion E; subst. destruct (Hm _ _ _ Em) as (e1 & T1 & B1 & _).
    exists e1. split; [exact T1|]. split; [exact B1 | discriminate].
Qed.

Lemma paces_step u d v : paces (step W u d v).
Proof.
  intros s res s' E. unfold step, bind, lift, total, update, ret in E.
  assert (forall x : result (bool * locals),
            (res, s') = (x, s) ->
            exists evs, trace s' = (trace s ++ evs)%list
              /\ (pauses evs <= successes evs <= S (pauses evs))%nat
              /\ forall a, res = Ok a -> pauses evs = successes evs) as Nothing.
  { intros x Ex. inversion Ex; subst. exists []. rewrite app_nil_r.
    split; [reflexivity|]. split; [simpl; lia | reflexivity]. }
  destruct (make_action d) as [a0|e]; [|now apply (Nothing (Exn e))].
  destruct (substitute u (task_context s) a0) as [a|e];
    [|now apply (Nothing (Exn e))].
  destruct (execute_action W a s) as [[ok r] s1] eqn:Ex.
  destruct (execute_action_spec W _ _ _ _ _ Ex) as (pe & [T1 _] & Fe & _ & _).
  destruct (executor_counts pe Fe) as [P0 S0].
  destruct ok.
  - destruct (iadd_str (response_content v) (success_line W a r)) as [rc|e].
    2:{ inversion E; subst. exists (pe ++ [EvExecute a true r])%list.
        split; [exact T1|]. rewrite pauses_app, successes_app, P0, S0. simpl.
        split; [lia | discriminate]. }
    assert (exists shots s2 shot,
               trace s2 = (trace s1 ++ shots)%list /\ Forall is_shot shots
               /\ (res, s') = (Ok (false,
                                   mkLocals rc shot
                                     (if eq_str (action_type a) "extract"
                                      then (extracted_data v ++ [r])%list
                                      else extracted_data v)),
                               log (EvSleep (delay a)) s2))
      as (shots & s2 & shot & T2 & Fs & E2).
    { destruct (in_strs (action_type a) _).
      - destruct (take_screenshot_spec W s1) as (shots & [T2 _] & Fs).
        destruct (take_screenshot W s1) as [b64 s2]. simpl in *.
        exists shots, s2, (Some b64). now rewrite <- E.
      - exists [], s1, (screenshot v). rewrite app_nil_r.
        split; [reflexivity|]. split; [constructor | now rewrite <- E]. }
    inversion E2; subst. clear E2 E.
    destruct (shot_counts shots Fs) as [P1 S1].
    exists (pe ++ EvExecute a true r :: shots ++ [EvSleep (delay a)])%list.
    split.
    { simpl. rewrite T2, T1. rewrite <- !app_assoc. reflexivity. }
    rewrite pauses_app, successes_app, P0, S0. simpl.
    rewrite pauses_app, successes_app, P1, S1. simpl.
    split; [lia | reflexivity].
  - destruct (iadd_str (response_content v) (failure_line r)) as [rc|e];
      inversion E; subst; exists (pe ++ [EvExecute a false r])%list;
      (split; [exact T1|]); rewrite pauses_app, successes_app, P0, S0; simpl;
      (split; [lia | reflexivity]).
Qed.

Lemma paces_run_actions u actions : forall v, paces (run_actions W u actions v).
Proof.
  induction actions as [|d rest IH]; intros v; simpl; [apply paces_ret|].
  apply paces_bind; [apply paces_step | intros [stop v']].
  destruct stop; [apply paces_ret | apply IH].
Qed.

Lemma paces_run_plan u d v : paces (run_plan W u d v).
Proof.
  unfold run_plan. apply paces_bind; [apply paces_lift | intros acts].
  destruct (truthy acts); [|apply paces_ret].
  apply paces_bind; [apply paces_lift | intros l].
  destruct l; simpl; try apply paces_raise. apply paces_run_actions.
Qed.

Lemma paces_finish v : paces (finish W v).
Proof.
  unfold finish. apply paces_bind.
  { intros s res s' E.
    destruct (no_screenshot (screenshot v) && is_initialized (browser s)).
    - destruct (take_screenshot_spec W s) as (shots & [T _] & Fs).
      destruct (take_screenshot W s) as [b64 s1]. inversion E; subst.
      destruct (shot_counts shots Fs) as [P1 S1]. exists shots.
      split; [exact T|]. rewrite P1, S1. split; [lia | reflexivity].
    - inversion E; subst. exists []. rewrite app_nil_r.
      split; [reflexivity|]. split; [simpl; lia | reflexivity]. }
  intros shot. apply paces_bind.
  { destruct (extracted_data v); [apply paces_ret | apply paces_lift]. }
  intros rc. apply paces_bind; [apply paces_update; reflexivity|].
  intros _. apply paces_bind; [apply paces_update; reflexivity|].
  intros _. apply paces_ret.
Qed.

Lemma paces_act_on u d : paces (act_on W u d).
Proof.
  unfold act_on. apply paces_bind; [apply paces_lift | intros ri].
  destruct (truthy ri).
  - apply paces_bind; [apply paces_update; reflexivity|].
    intros _. apply paces_bind; [apply paces_lift | intros ?; apply paces_ret].
  - apply paces_bind; [apply paces_update; reflexivity|].
    intros _. apply paces_bind; [apply paces_lift | intros resp].
    apply paces_bind; [apply paces_run_plan | intros v; apply paces_finish].
Qed.

Lemma paces_process_user_input u : paces (process_user_input W u).
Proof.
  unfold process_user_input. apply paces_bind;
    [apply paces_update; reflexivity|].
  intros _ s res s'.
  destruct (contains "send email" (lower u)
            && negb (truthy (context_get (task_context s) "email_credentials"))).
  { revert s res s'. apply paces_bind; [apply paces_update; reflexivity|].
    intros _. apply paces_ret. }
  generalize (email_task u (task_context s)). intros et. revert s res s'.
  apply paces_bind.
  { destruct et; [|apply paces_ret].
    destruct (search re_recipient u); [destruct (search re_subject u);
      [destruct (search re_body u)|]|];
      (apply paces_bind; [apply paces_update; reflexivity|]);
      intros _; apply paces_ret. }
  intros go. destruct go; [|apply paces_ret].
  apply paces_bind; [apply paces_update; reflexivity|].
  intros _. apply paces_bind; [|intros d; apply paces_act_on].
  intros s res s' E. unfold analyze_intent in E. inversion E; subst.
  eexists [_]. split; [reflexivity|]. simpl. split; [lia | reflexivity].
Qed.

End Pacing.

(** ** The screenshot of a reply *)

Section Shots.

Variable W : World.

Lemma finish_shot v s m s' :
  finish W v s = (Ok m, s') ->
  state s' = IDLE
  /\ (is_initialized (browser s) = true -> exists b64, cm_screenshot m = Some b64)
  /\ (is_initialized (browser s) = false -> cm_screenshot m = screenshot v).
Proof.
  unfold finish, bind, lift, update, ret. intros E.
  assert (exists shot s1,
             (if no_screenshot (screenshot v) && is_initialized (browser s)
              then let (b64, s1) := take_screenshot W s in (Ok (Some b64), s1)
              else (Ok (screenshot v), s)) = (Ok shot, s1)
             /\ (is_initialized (browser s) = true -> exists b64, shot = Some b64)
             /\ (is_initialized (browser s) = false -> shot = screenshot v))
    as (shot & s1 & Es & Hi & Hn).
  { destruct (is_initialized (browser s)).
    - destruct (screenshot v) as [b|] eqn:Sv; simpl.
      + destruct (String.eqb b EmptyString).
        * destruct (take_screenshot W s) as [b64 s1]. exists (Some b64), s1.
          split; [reflexivity|]. split; [eauto | discriminate].
        * exists (Some b), s. split; [reflexivity|].
          split; [eauto | discriminate].
      + destruct (take_screenshot W s) as [b64 s1]. exists (Some b64), s1.
        split; [reflexivity|]. split; [eauto | discriminate].
    - rewrite andb_false_r. exists (screenshot v), s.
      split; [reflexivity|]. split; [discriminate | reflexivity]. }
  rewrite Es in E. clear Es.
  destruct (extracted_data v);
    [|destruct (iadd_str (response_content v) _); [|discriminate]];
    inversion E; subst; simpl; auto.
Qed.

Lemma act_on_shot u d s m s' :
  act_on W u d s = (Ok m, s') ->
  (state s' = WAITING_FOR_INPUT /\ cm_screenshot m = None)
  \/ (state s' = IDLE
      /\ (is_initialized (browser s) = true ->
          exists b64, cm_screenshot m = Some b64)).
Proof.
  unfold act_on, bind, lift, update, ret. intros E.
  destruct (py_get d "requires_info" PNone) as [ri|]; [|discriminate].
  destruct (truthy ri).
  { destruct (py_index d "response"); inversion E; subst. left. auto. }
  destruct (py_index d "response") as [resp|]; [|discriminate].
  destruct (run_plan W u d _ (set_state ACTING s)) as [[v|] s1] eqn:El;
    [|discriminate].
  destruct (run_plan_more W _ _ _ _ _ _ El) as (evs & _ & (_ & _ & _ & Ki) & _).
  simpl in Ki. destruct (finish_shot _ _ _ _ E) as (St & Hi & _).
  right. split; [exact St|]. intros I. apply Hi. congruence.
Qed.

End Shots.

(** * Further properties of a turn *)

Section TurnProperties.

Variable W : World.

(** X1: whatever the utterance, the provider and the page do, a call of
    [process_user_input] never leaves the agent in ERROR or COMPLETED:
    when it returns a message the state is WAITING_FOR_INPUT or IDLE,
    when it raises the state is the one of the phase that raised,
    THINKING, WAITING_FOR_INPUT or ACTING. *)
Theorem turn_never_rests_in_error u s :
  state (snd (process_user_input W u s)) <> ERROR
  /\ state (snd (process_user_input W u s)) <> COMPLETED
  /\ match fst (process_user_input W u s) with
     | Ok _ =>
         state (snd (process_user_input W u s)) = WAITING_FOR_INPUT
         \/ state (snd (process_user_input W u s)) = IDLE
     | Exn _ =>
         state (snd (process_user_input W u s)) = THINKING
         \/ state (snd (process_user_input W u s)) = WAITING_FOR_INPUT
         \/ state (snd (process_user_input W u s)) = ACTING
     end.
Proof.
  destruct (process_user_input W u s) as [res s'] eqn:E. simpl.
  assert (match res with
          | Ok _ => state s' = WAITING_FOR_INPUT \/ state s' = IDLE
          | Exn _ => state s' = THINKING \/ state s' = WAITING_FOR_INPUT
                     \/ state s' = ACTING
          end) as H.
  { destruct (turn_more W _ _ _ _ E)
      as [(_ & St & _ & _ & _ & [[-> _]|[-> _]])
         |(ctx1 & evs & shots & _ & _ & _ & _ & _ & _ & _ & _ & R)];
      [left; exact St | left; exact St |].
    destruct res as [m|e].
    - destruct R as [(St & _)|(St & _)]; auto.
    - exact (proj2 R). }
  split; [|split; [|exact H]];
    destruct res; intuition congruence.
Qed.

(** X2: a turn always records the utterance, and records a reply only
    when the plan was acted on to the end: a turn that ends in
    WAITING_FOR_INPUT (a prompt for credentials or details, or the
    plan's question) and a turn that raises append the user entry
    alone, a turn that ends in IDLE appends the user entry and then the
    assistant entry whose content is the content of the returned
    message.  Nothing recorded before is changed. *)
Theorem turn_history u s :
  match process_user_input W u s with
  | (Ok m, s') =>
      (state s' = WAITING_FOR_INPUT
       /\ conversation_history s'
          = (conversation_history s ++ [user_entry u])%list)
      \/ (state s' = IDLE
          /\ conversation_history s'
             = (conversation_history s
                ++ [user_entry u; mkEntry "assistant" (cm_content m)])%list)
  | (Exn _, s') =>
      conversation_history s' = (conversation_history s ++ [user_entry u])%list
  end.
Proof.
  destruct (process_user_input W u s) as [res s'] eqn:E.
  destruct (turn_more W _ _ _ _ E)
    as [(_ & St & Hh & _ & _ & [[-> _]|[-> _]])
       |(ctx1 & evs & shots & _ & _ & _ & _ & _ & _ & _ & _ & R)];
    [left; auto | left; auto |].
  destruct res as [m|e].
  - destruct R as [(St & Hh & _)|(St & Hh & _)]; auto.
  - exact (proj1 R).
Qed.

(** X3: the provider is asked at most once in a turn, and before
    anything else happens: the events of a turn are none at all, or
    the analysis of the turn's messages, giving the turn's plan,
    followed by events among which there is no further analysis. *)
Theorem provider_is_asked_once_and_first u s :
  events_of_turn W u s = []
  \/ exists rest,
       events_of_turn W u s
       = EvAnalyze (turn_messages u s) (turn_plan W u s) :: rest
       /\ forall msgs d, ~ In (EvAnalyze msgs d) rest.
Proof.
  destruct (events_of_turn_spec W u s) as [_ H].
  destruct H as [? ? ? ? ?|? ? ? ? ?|? ? ? ? ? ?|ri res s' loop shots G T Fl Hl Fs ? ?].
  - now left.
  - right. exists []. split; [reflexivity | intros ? ? []].
  - right. exists []. split; [reflexivity | intros ? ? []].
  - right. exists (loop ++ shots)%list. split; [reflexivity|].
    intros msgs d. now apply (loop_has_no_analyze W).
Qed.

(** X4: while the controller has no page, a turn touches no page and
    does not pause: among its events there is no page operation and no
    sleep, every step handed to the executor is refused with
    [Browser not initialized], and at most one step is handed over. *)
Theorem without_a_page_nothing_is_operated u s :
  page_open (browser s) = false ->
  (forall c a, ~ In (EvPage c a) (events_of_turn W u s))
  /\ (forall q, ~ In (EvSleep q) (events_of_turn W u s))
  /\ (forall a ok r, In (EvExecute a ok r) (events_of_turn W u s) ->
        ok = false /\ r = "Browser not initialized")
  /\ (length (executed (events_of_turn W u s)) <= 1)%nat.
Proof.
  intros P. destruct (process_user_input W u s) as [res s'] eqn:E.
  destruct (turn_more W _ _ _ _ E)
    as [(Ev & _)
       |(ctx1 & evs & shots & _ & Ev & Fs & _ & _ & _ & _ & Np & _)].
  { rewrite Ev. simpl. repeat split; try (intros; contradiction); lia. }
  specialize (Np P).
  assert (forall ev, In ev (events_of_turn W u s) ->
            ev = EvAnalyze (turn_messages u s) (turn_plan W u s)
            \/ refused ev) as Hev.
  { intros ev Hin. rewrite Ev in Hin. destruct Hin as [<-|Hin]; [now left|].
    right. rewrite Forall_forall in Np. apply Np. now apply list_elem_of_In. }
  split; [|split; [|split]].
  - intros c a Hin. destruct (Hev _ Hin) as [D|[x D]]; discriminate.
  - intros q Hin. destruct (Hev _ Hin) as [D|[x D]]; discriminate.
  - intros a ok r Hin. destruct (Hev _ Hin) as [D|[x D]]; [discriminate|].
    inversion D; auto.
  - (* a refused step is a failed one, after which the loop halts *)
    destruct (events_of_turn_run W _ _ _ _ E) as [_ H].
    remember (events_of_turn W u s) as all eqn:Ea.
    destruct H as [? ? ? ? ?|? ? ? ? ?|? ? ? ? ? ?|ri res s' loop shots' G T Fl Hl Fs' ? ?];
      simpl; try lia.
    rewrite executed_app, (shots_executed shots' Fs'), app_nil_r.
    assert (Forall refused loop) as Rl.
    { apply Forall_forall. intros ev Hin. apply list_elem_of_In in Hin.
      destruct (Hev ev) as [D|R]; [right; apply in_or_app; now left | | exact R].
      subst ev. rewrite Forall_forall in Fl.
      apply list_elem_of_In in Hin. destruct (Fl _ Hin). }
    destruct Rl as [|ev loop [a ->] Rl]; [simpl; lia|].
    simpl in Hl. subst loop. simpl. lia.
Qed.

(** X5: a turn writes to the task context under [email_details] only:
    whatever is stored under any other key, the credentials among
    them, is the same after the turn, and a turn that is no e-mail
    task leaves the whole task context as it was. *)
Theorem turn_writes_the_details_only u s k :
  k <> "email_details" ->
  task_context (snd (process_user_input W u s)) !! k = task_context s !! k
  /\ (email_task u (task_context s) = false ->
      task_context (snd (process_user_input W u s)) = task_context s).
Proof.
  intros Nk. destruct (process_user_input W u s) as [res s'] eqn:E. simpl.
  destruct (turn_more W _ _ _ _ E)
    as [(_ & _ & _ & Kc & _)
       |(ctx1 & evs & shots & Gate & _ & _ & Kc & _)].
  { rewrite Kc. auto. }
  rewrite Kc. destruct Gate as [[Et ->]|(r & sj & b & Et & _ & _ & _ & ->)].
  - auto.
  - split; [now apply lookup_insert_ne | congruence].
Qed.

(** X6: the steps handed to the executor in a turn are the steps built
    from the first elements of the plan's [actions], one for one and in
    the order of the plan, each built under the task context the turn
    ends with; and when the turn returns in IDLE and no step failed,
    every element of the plan was executed. *)
Theorem executed_steps_follow_the_plan u s res s' :
  process_user_input W u s = (res, s') ->
  Forall2 (fun d a => built u (task_context s') d = Ok a)
    (firstn (length (executed (events_of_turn W u s)))
       (plan_steps (turn_plan W u s)))
    (executed (events_of_turn W u s))
  /\ (state s' = IDLE -> failed (events_of_turn W u s) = false ->
      forall m, res = Ok m ->
      length (executed (events_of_turn W u s))
      = length (plan_steps (turn_plan W u s))).
Proof.
  intros E.
  destruct (turn_more W _ _ _ _ E)
    as [(Ev & St & _)
       |(ctx1 & evs & shots & _ & Ev & Fs & Kc & _ & _ & F & _ & R)].
  { rewrite Ev. simpl. split; [constructor | congruence]. }
  rewrite Ev, (acted_executed _ _ _ _ Fs), (acted_failed _ _ _ _ Fs), Kc.
  split; [exact F|]. intros Si Nf m ->.
  destruct R as [(St & _)|(_ & _ & Len)]; [congruence | exact (Len Nf)].
Qed.



End TurnProperties.

(** X9: the step built from an element of the plan has the kind, the
    target, the description and the value of the element (the defaults
    of [get] where the element gives none) and the default delay; the
    override with stored values writes to the text only, and only in an
    e-mail task and on one of the five locators it knows: otherwise
    the text is the element's too. *)
Theorem built_step_differs_in_text_only u ctx d a :
  built u ctx d = Ok a ->
  py_index d "action_type" = Ok (action_type a)
  /\ py_get d "target" (PStr EmptyString) = Ok (target a)
  /\ py_get d "description" (PStr EmptyString) = Ok (description a)
  /\ py_get d "value" PNone = Ok (value a)
  /\ delay a = default_delay
  /\ (email_task u ctx = false
      \/ in_strs (target a)
           ["input#identifierId"; "input[type='password']";
            "input[aria-label='To']"; "input[aria-label='Subject']";
            "div[aria-label='Message Body']"] = false ->
      py_get d "text" (PStr EmptyString) = Ok (text a)).
Proof.
  intros B. destruct (built_fields _ _ _ _ B) as (A1 & A2 & A3 & A4 & A5).
  split; [exact A1|]. split; [exact A2|]. split; [exact A3|].
  split; [exact A4|]. split; [exact A5|].
  unfold built in B. destruct (make_action d) as [a0|] eqn:Em; [|discriminate].
  destruct (make_action_fields _ _ Em) as (_ & _ & Tx & _).
  destruct (substitute_fields _ _ _ _ B) as (_ & Tg & _).
  rewrite Tg. intros Why. rewrite Tx.
  unfold substitute in B. destruct (email_task u ctx).
  - destruct Why as [D|In5]; [discriminate|]. unfold in_strs in In5.
    simpl in In5. repeat rewrite orb_false_iff in In5.
    destruct In5 as (N1 & N2 & N3 & N4 & N5 & _).
    rewrite N1, N2, N3, N4, N5 in B. congruence.
  - congruence.
Qed.

(** * Further properties of the executor *)

Section ExecutorProperties.

Variable W : World.

(** X10: the contract of [execute_action], for every step and page.
    It reports success exactly when a page is set, the kind is one of
    the nine known ones and every page operation of the step returned
    (none of them a reload or a screenshot).  It reports failure for
    one of three reasons, told apart by the explanation: no page
    ([Browser not initialized], nothing done), an unknown kind
    ([Unknown action type], nothing done), or a page operation of a
    known kind that raised, all operations before it having returned,
    followed by the one reload and [Action failed]. *)
Theorem execute_action_outcomes a s ok r s' :
  execute_action W a s = ((ok, r), s') ->
  exists pe,
    trace s' = (trace s ++ pe ++ [EvExecute a ok r])%list
    /\ if ok then
         page_open (browser s) = true
         /\ in_strs (action_type a) known_kinds = true
         /\ Forall (fun ev => attempt_event a ev /\ answered ev) pe
       else
         (page_open (browser s) = false
          /\ r = "Browser not initialized" /\ pe = [])
         \/ (page_open (browser s) = true
             /\ in_strs (action_type a) known_kinds = false
             /\ r = "Unknown action type: " +:+ py_str W (action_type a)
             /\ pe = [])
         \/ (page_open (browser s) = true
             /\ in_strs (action_type a) known_kinds = true
             /\ exists e pre c reloaded,
                  pe = (pre ++ [EvPage c (Raises e);
                                EvPage (Reload 30000) reloaded])%list
                  /\ Forall (fun ev => attempt_event a ev /\ answered ev) pre
                  /\ attempt_event a (EvPage c (Raises e))
                  /\ r = "Action failed: " +:+ e +:+
                         match reloaded with
                         | Returns _ => ". Page reloaded for retry."
                         | Raises _ => ". Could not recover."
                         end).
Proof.
  unfold execute_action, execute_action_body.
  destruct (page_open (browser s)) eqn:P; simpl.
  2:{ intros E. inversion E; subst. exists []. split; [reflexivity|].
      left. auto. }
  destruct (in_strs (action_type a) known_kinds) eqn:K.
  2:{ rewrite (unknown_kind W a K). simpl. intros E. inversion E; subst.
      exists []. split; [reflexivity|]. right. left. auto. }
  destruct (attempt W a s) as [[[ok0 r0]|e] s1] eqn:Ea.
  - intros E. inversion E; subst. clear E.
    rewrite (attempt_known W a K _ _ _ _ Ea).
    destruct (orderly_attempt W a _ _ _ Ea) as (pe & T1 & An).
    destruct (tried_attempt W a _ _ _ Ea) as (pe0 & [T0 _] & F0 & _).
    rewrite T1 in T0. apply app_inv_head in T0. subst pe0.
    exists pe. split; [simpl; rewrite T1; now rewrite app_assoc|].
    split; [reflexivity|]. split; [exact K|].
    now apply forall_and.
  - destruct (orderly_attempt W a _ _ _ Ea) as (pe & T1 & pre & c & -> & An).
    destruct (tried_attempt W a _ _ _ Ea) as (pe0 & [T0 _] & F0 & _).
    rewrite T1 in T0. apply app_inv_head in T0. subst pe0.
    apply Forall_app in F0 as [Fpre Fc]. inversion Fc as [|? ? Fc1 _]; subst.
    unfold recover, call.
    set (reloaded := page W (trace s1) (Reload 30000)).
    intros E.
    exists (pre ++ [EvPage c (Raises e); EvPage (Reload 30000) reloaded])%list.
    assert (ok = false
            /\ r = "Action failed: " +:+ e +:+
                   match reloaded with
                   | Returns _ => ". Page reloaded for retry."
                   | Raises _ => ". Could not recover."
                   end
            /\ trace s'
               = (trace s1 ++ [EvPage (Reload 30000) reloaded;
                               EvExecute a ok r])%list) as (-> & -> & T2).
    { destruct reloaded; inversion E; subst; simpl;
        rewrite <- app_assoc; auto. }
    split.
    { rewrite T2, T1. rewrite <- !app_assoc. reflexivity. }
    right. right. split; [reflexivity|]. split; [exact K|].
    exists e, pre, c, reloaded. split; [reflexivity|].
    split; [now apply forall_and|]. split; [exact Fc1 | reflexivity].
Qed.

End ExecutorProperties.

Section ExecutorBlind.

Variable W : World.

(** X11: the frame a [switch_frame] step stores is never looked at:
    two agents that differ in it alone get the same result from
    [execute_action] for every step, and the same reply and events from
    a whole turn; every operation goes to the page. *)
Theorem current_frame_is_never_consulted u a f s :
  fst (execute_action W a (set_current_frame f s))
  = fst (execute_action W a s)
  /\ trace (snd (execute_action W a (set_current_frame f s)))
     = trace (snd (execute_action W a s))
  /\ fst (process_user_input W u (set_current_frame f s))
     = fst (process_user_input W u s)
  /\ events_of_turn W u (set_current_frame f s) = events_of_turn W u s.
Proof.
  destruct (blind_execute_action W a _ _ (alike_frame f s))
    as (R1 & _ & _ & _ & _ & _ & T1).
  destruct (blind_process_user_input W u _ _ (alike_frame f s))
    as (R2 & _ & _ & _ & _ & _ & T2).
  split; [exact R1|]. split; [exact T1|]. split; [exact R2|].
  unfold events_of_turn. now rewrite T2.
Qed.

(** X12: when the provider does not deliver (a status other than 200,
    or an exception of [requests.post]) and the apology returned in its
    place is no JSON, the turn executes nothing: the plan is the
    fallback plan, the events of the turn are at most its analysis, the
    agent ends in WAITING_FOR_INPUT, and the turn returns a prompt, the
    request to clarify unless an e-mail precondition came first. *)
Theorem provider_outage_asks_to_clarify u s :
  delivered (post W (trace s) (turn_messages u s)) = false ->
  json_loads W apology_status = None ->
  json_loads W apology_exception = None ->
  turn_plan W u s = fallback_plan
  /\ (events_of_turn W u s = []
      \/ events_of_turn W u s = [EvAnalyze (turn_messages u s) fallback_plan])
  /\ state (snd (process_user_input W u s)) = WAITING_FOR_INPUT
  /\ exists prompt,
       fst (process_user_input W u s) = Ok (reply (PStr prompt) None)
       /\ (prompt = ask_credentials \/ prompt = ask_details
           \/ prompt = ask_to_clarify).
Proof.
  intros D J1 J2.
  assert (turn_plan W u s = fallback_plan) as Pl.
  { unfold turn_plan, parse_response, generate_response.
    destruct (post W (trace s) (turn_messages u s)) as [c b|]; simpl in D.
    - rewrite D. fold apology_status. now rewrite J1.
    - fold apology_exception. now rewrite J2. }
  split; [exact Pl|].
  destruct (events_of_turn_spec W u s) as [_ H].
  remember (fst (process_user_input W u s)) as res eqn:Er.
  remember (snd (process_user_input W u s)) as s' eqn:Es.
  remember (events_of_turn W u s) as evs eqn:Ee. clear Er Es Ee.
  destruct H as [prompt s' Pr St Hh|e s' G St Hh|ri s' G Tr St Hh
                |ri res s' loop shots G Tr Fl Hl Fs Hh R];
    rewrite ?Pl in *.
  - split; [now left|]. split; [exact St|]. exists prompt.
    split; [reflexivity | tauto].
  - discriminate.
  - split; [now right|]. split; [exact St|]. exists ask_to_clarify.
    split; [reflexivity | tauto].
  - inversion G; subst. discriminate.
Qed.

End ExecutorBlind.

(** * Properties of the three patterns *)

Section Patterns.

Import TextFacts PatternFacts.



End Patterns.

(** * Properties of the life of the controller *)

Section LifeProperties.

Variable W : World.
Variable H : Host.

(** X15: in every system that can be reached from a new agent by
    initializing, conversing, cleaning up and storing in the task
    context, in any order and whatever the host and the page answer, a
    controller that says it is initialized has its page, its context
    and Playwright set: the final screenshot of a turn, which is taken
    when the controller says so, never finds the page missing. *)
Theorem initialized_means_the_handles_are_set x :
  reachable W H x ->
  is_initialized (browser (agent (fst x))) = true ->
  page_open (browser (agent (fst x))) = true
  /\ context_open (fst x) = true
  /\ playwright_on (fst x) = true.
Proof.
  induction 1 as [hl|x R IH|x u R IH|x R IH|x k v R IH]; simpl.
  - discriminate.
  - unfold Orchestrator.initialize.
    destruct (Controller.initialize H false x) as [[e|] x1] eqn:E; simpl;
      destruct (controller_initialize_spec H _ _ _ _ E)
        as (calls & _ & _ & Mp & _ & Mc & Mw & R').
    + destruct R' as (pre & c & _ & Hc). intros I.
      destruct c; try tauto;
        destruct Hc as [Ep Ei]; rewrite Ei in I;
        destruct (IH I) as (A & B & C); rewrite Ep; auto.
    + intros _. tauto.
  - unfold Orchestrator.converse.
    pose proof (turn_keeps_browser W u (agent (fst x))) as [Kp Ki].
    destruct (process_user_input W u (agent (fst x))) as [res s']. simpl in *.
    rewrite Kp, Ki. exact IH.
  - unfold Orchestrator.cleanup.
    destruct (controller_cleanup_spec H x)
      as (_ & _ & _ & _ & Kp & Kc & Kw & calls & _ & [(_ & _ & Off)|(pre & c & e & _ & _ & Same)]).
    + rewrite Off. discriminate.
    + rewrite Same, Kp, Kc, Kw. exact IH.
  - exact IH.
Qed.

(** X16: the outcomes of the agent's [initialize].  The bundled
    Chromium is launched only after the launch of Chrome raised.  When
    [initialize] returns, the page, the context and Playwright are set,
    the controller is marked initialized and the agent is IDLE.  When
    it raises, the exception is the one of the last call made and the
    state of the agent is as before; the controller is then as it was
    before in page and mark, unless the call that raised is the
    reading of the cookies: then [initialize] raises although the page
    is set and the controller is marked initialized.  History, task
    context and log of the agent are untouched in every case. *)
Theorem initialize_outcomes x r x' :
  Orchestrator.initialize H x = (r, x') ->
  conversation_history (agent (fst x')) = conversation_history (agent (fst x))
  /\ task_context (agent (fst x')) = task_context (agent (fst x))
  /\ trace (agent (fst x')) = trace (agent (fst x))
  /\ exists calls,
       snd x' = (snd x ++ calls)%list
       /\ (forall a,
             In (LaunchPersistentContext user_data_dir false None, a) calls ->
             exists e0,
               In (LaunchPersistentContext user_data_dir false (Some "chrome"),
                   Raises e0) calls)
       /\ match r with
          | None =>
              page_open (browser (agent (fst x'))) = true
              /\ is_initialized (browser (agent (fst x'))) = true
              /\ context_open (fst x') = true
              /\ playwright_on (fst x') = true
              /\ state (agent (fst x')) = IDLE
          | Some e =>
              state (agent (fst x')) = state (agent (fst x))
              /\ exists pre c,
                   calls = (pre ++ [(c, Raises e)])%list
                   /\ match c with
                      | ContextCookies =>
                          page_open (browser (agent (fst x'))) = true
                          /\ is_initialized (browser (agent (fst x'))) = true
                      | _ =>
                          page_open (browser (agent (fst x')))
                          = page_open (browser (agent (fst x)))
                          /\ is_initialized (browser (agent (fst x')))
                             = is_initialized (browser (agent (fst x)))
                      end
          end.
Proof.
  unfold Orchestrator.initialize.
  destruct (Controller.initialize H false x) as [[e|] x1] eqn:E;
    intros E'; inversion E'; subst; clear E';
    destruct (controller_initialize_frame H _ _ _ _ E) as (Fs & Fh & Fc & Ft & _);
    destruct (controller_initialize_spec H _ _ _ _ E)
      as (calls & L & Ch & _ & _ & _ & _ & R'); simpl.
  - split; [exact Fh|]. split; [exact Fc|]. split; [exact Ft|].
    exists calls. split; [exact L|]. split; [exact Ch|].
    split; [exact Fs|]. destruct R' as (pre & c & Ec & Hc).
    exists pre, c. split; [exact Ec|]. destruct c; tauto.
  - split; [exact Fh|]. split; [exact Fc|]. split; [exact Ft|].
    exists calls. split; [exact L|]. split; [exact Ch|]. tauto.
Qed.

(** X17: [cleanup] closes the page, the context and Playwright, in this
    order and each when it is set, and stops at the first close that
    raises; the controller is marked not initialized exactly when no
    close raised.  It clears no handle: the page stays set, so a step
    executed after [cleanup] is not refused with [Browser not
    initialized] but is tried on the closed page.  The agent's state,
    history, task context and log are untouched. *)
Theorem cleanup_keeps_the_handles x :
  state (agent (fst (Orchestrator.cleanup H x))) = state (agent (fst x))
  /\ conversation_history (agent (fst (Orchestrator.cleanup H x)))
     = conversation_history (agent (fst x))
  /\ task_context (agent (fst (Orchestrator.cleanup H x)))
     = task_context (agent (fst x))
  /\ page_open (browser (agent (fst (Orchestrator.cleanup H x))))
     = page_open (browser (agent (fst x)))
  /\ context_open (fst (Orchestrator.cleanup H x)) = context_open (fst x)
  /\ playwright_on (fst (Orchestrator.cleanup H x)) = playwright_on (fst x)
  /\ (exists calls,
        snd (Orchestrator.cleanup H x) = (snd x ++ calls)%list
        /\ ((Forall (fun ev => exists v, snd ev = Returns v) calls
             /\ map fst calls
                = ((if page_open (browser (agent (fst x)))
                    then [ClosePage] else [])
                   ++ (if context_open (fst x) then [CloseContext] else [])
                   ++ (if playwright_on (fst x)
                       then [StopPlaywright] else []))%list
             /\ is_initialized (browser (agent (fst (Orchestrator.cleanup H x))))
                = false)
            \/ (exists pre c e,
                  calls = (pre ++ [(c, Raises e)])%list
                  /\ Forall (fun ev => exists v, snd ev = Returns v) pre
                  /\ is_initialized
                       (browser (agent (fst (Orchestrator.cleanup H x))))
                     = is_initialized (browser (agent (fst x))))))
  /\ forall a,
       page_open (browser (agent (fst x))) = true ->
       snd (fst (execute_action W a (agent (fst (Orchestrator.cleanup H x)))))
       <> "Browser not initialized".
Proof.
  unfold Orchestrator.cleanup.
  destruct (controller_cleanup_spec H x)
    as (Ks & Kh & Kc & _ & Kp & Kx & Kw & Calls).
  split; [exact Ks|]. split; [exact Kh|]. split; [exact Kc|].
  split; [exact Kp|]. split; [exact Kx|]. split; [exact Kw|].
  split; [exact Calls|].
  intros a P. apply page_set_is_not_refused. now rewrite Kp.
Qed.

End LifeProperties.

(** * Properties of the session of the application *)

Section SessionProperties.

Variable W : World.
Variable H : Host.

(** X18: the Initialize button marks the session initialized before the
    browser is started and does not take the mark back.  When
    [initialize] raises and no page was made, the session is marked
    initialized all the same and keeps the agent, the notice tells the
    failure, and a command submitted afterwards is accepted: it is
    added to the transcript and handed to the agent, whose turn makes
    no page operation and whose steps are all refused with [Browser
    not initialized]. *)
Theorem failed_start_leaves_the_session_initialized
    key gmail_email gmail_password u x e l :
  truthy (PStr key) = true ->
  truthy (PStr u) = true ->
  Orchestrator.initialize H (App.made gmail_email gmail_password, host_log x)
  = (Some e, l) ->
  page_open (browser (agent (fst l))) = false ->
  agent_initialized (App.press_initialize H key gmail_email gmail_password x)
  = true
  /\ session_agent (App.press_initialize H key gmail_email gmail_password x)
     = Some (fst l)
  /\ shown (App.press_initialize H key gmail_email gmail_password x)
     = (shown x ++ [StError ("❌ Failed to initialize agent: " +:+ e)])%list
  /\ exists sys',
       session_agent
         (App.submit W u
            (App.press_initialize H key gmail_email gmail_password x))
       = Some sys'
       /\ (forall c a, ~ In (EvPage c a) (trace (agent sys')))
       /\ (forall a ok r, In (EvExecute a ok r) (trace (agent sys')) ->
             ok = false /\ r = "Browser not initialized")
       /\ exists rest,
            messages
              (App.submit W u
                 (App.press_initialize H key gmail_email gmail_password x))
            = (messages x ++ mkUiMessage "user" (PStr u) None :: rest)%list.
Proof.
  intros K Tu E P.
  destruct (press_initialize_spec H key gmail_email gmail_password x K)
    as (I & A & _ & Ms & Sh).
  pose proof (orchestrator_initialize_frame H
                (App.made gmail_email gmail_password, host_log x))
    as (_ & _ & Ft).
  rewrite E in A, Sh, Ft. simpl in A, Sh, Ft.
  destruct (made_agent gmail_email gmail_password) as (_ & _ & T0 & _).
  rewrite T0 in Ft.
  split; [exact I|]. split; [exact A|]. split; [exact Sh|].
  destruct (submit_spec W u _ _ Tu I A) as (A' & _ & _ & M').
  eexists. split; [exact A'|]. simpl.
  destruct (events_of_turn_spec W u (agent (fst l))) as [Tr _].
  rewrite Ft in Tr. simpl in Tr. rewrite Tr.
  split; [|split].
  - intros c a Hin.
    destruct (turn_without_page W _ _ _ P Hin) as [D|[y D]]; discriminate.
  - intros a ok r Hin.
    destruct (turn_without_page W _ _ _ P Hin) as [D|[y D]];
      [discriminate | inversion D; auto].
  - rewrite Ms in M'.
    destruct (fst (process_user_input W u (agent (fst l)))) as [m|e'];
      destruct M' as [-> _]; eexists; reflexivity.
Qed.

(** X19: the Initialize button stores the Gmail credentials in the
    task context of the new agent only when both the address and the
    password were entered; with one of them missing nothing is stored,
    and a command that holds [send email] is then answered with the
    prompt for the credentials without the provider being asked,
    whether or not the browser came up. *)
Theorem credentials_are_stored_when_both_are_given
    key gmail_email gmail_password x :
  truthy (PStr key) = true ->
  (exists sys,
      session_agent (App.press_initialize H key gmail_email gmail_password x)
      = Some sys
      /\ task_context (agent sys)
         = (if truthy (PStr gmail_email) && truthy (PStr gmail_password)
            then <["email_credentials" := App.gmail gmail_email gmail_password]> ∅
            else ∅))
  /\ forall u,
       contains "send email" (lower u) = true ->
       truthy (PStr gmail_email) && truthy (PStr gmail_password) = false ->
       messages
         (App.submit W u
            (App.press_initialize H key gmail_email gmail_password x))
       = (messages x
          ++ [mkUiMessage "user" (PStr u) None;
              mkUiMessage "assistant" (PStr ask_credentials) None])%list
       /\ exists sys',
            session_agent
              (App.submit W u
                 (App.press_initialize H key gmail_email gmail_password x))
            = Some sys'
            /\ trace (agent sys') = [].
Proof.
  intros K.
  destruct (press_initialize_spec H key gmail_email gmail_password x K)
    as (I & A & _ & Ms & _).
  pose proof (orchestrator_initialize_frame H
                (App.made gmail_email gmail_password, host_log x))
    as (_ & Fc & Ft).
  destruct (made_agent gmail_email gmail_password)
    as (_ & _ & T0 & _ & _ & C0).
  simpl in Fc, Ft. rewrite C0 in Fc. rewrite T0 in Ft.
  split; [eexists; split; [exact A | exact Fc]|].
  intros u Tr Both. rewrite Both in Fc.
  destruct (submit_spec W u _ _ (trigger_is_text u Tr) I A) as (A' & _ & _ & M').
  assert (truthy (context_get
                    (task_context
                       (agent (fst (snd (Orchestrator.initialize H
                                           (App.made gmail_email gmail_password,
                                            host_log x))))))
                    "email_credentials") = false) as Cr
    by (rewrite Fc; reflexivity).
  rewrite (short_circuit_any_case W u _ Tr Cr) in M', A'. simpl in M', A'.
  destruct M' as [M' _]. rewrite Ms in M'. split; [exact M'|].
  eexists. split; [exact A'|]. simpl. exact Ft.
Qed.

(** X20: the transcript the user sees and the history the provider
    sees differ.  A command that is accepted is added to the
    transcript, followed by the agent's reply when the turn returns
    one; when the turn raises, the transcript holds the command alone
    and a notice is shown.  A reply with which the agent waits for
    input (a prompt, or the plan's question) is in the transcript but
    not in the agent's history, which holds the command alone; a reply
    that ends a turn in IDLE is in both. *)
Theorem transcript_and_history u x sys :
  truthy (PStr u) = true ->
  agent_initialized x = true ->
  session_agent x = Some sys ->
  exists sys',
    session_agent (App.submit W u x) = Some sys'
    /\ match fst (process_user_input W u (agent sys)) with
       | Ok m =>
           messages (App.submit W u x)
           = (messages x ++ [mkUiMessage "user" (PStr u) None;
                             App.message_data m])%list
           /\ ui_content (App.message_data m) = cm_content m
           /\ ((state (agent sys') = WAITING_FOR_INPUT
                /\ conversation_history (agent sys')
                   = (conversation_history (agent sys) ++ [user_entry u])%list)
               \/ (state (agent sys') = IDLE
                   /\ conversation_history (agent sys')
                      = (conversation_history (agent sys)
                         ++ [user_entry u;
                             mkEntry "assistant" (cm_content m)])%list))
       | Exn e =>
           messages (App.submit W u x)
           = (messages x ++ [mkUiMessage "user" (PStr u) None])%list
           /\ shown (App.submit W u x)
              = (shown x ++ [StErrorOf "Error: " e])%list
           /\ conversation_history (agent sys')
              = (conversation_history (agent sys) ++ [user_entry u])%list
       end.
Proof.
  intros Tu I A. destruct (submit_spec W u _ _ Tu I A) as (A' & _ & _ & M').
  eexists. split; [exact A'|]. simpl.
  destruct (process_user_input W u (agent sys)) as [res s'] eqn:E.
  simpl in *.
  destruct (turn_more W _ _ _ _ E)
    as [(_ & St & Hh & _ & _ & [[-> _]|[-> _]])
       |(ctx1 & evs & shots & _ & _ & _ & _ & _ & _ & _ & _ & R)].
  - destruct M' as [M' _]. split; [exact M'|]. split; [reflexivity|].
    left. auto.
  - destruct M' as [M' _]. split; [exact M'|]. split; [reflexivity|].
    left. auto.
  - destruct res as [m|e].
    + destruct M' as [M' _]. split; [exact M'|]. split; [reflexivity|].
      destruct R as [(St & Hh & _)|(St & Hh & _)]; auto.
    + destruct M' as [M' S']. split; [exact M'|]. split; [exact S'|].
      exact (proj1 R).
Qed.

(** X21: the Clear button, on a host whose removal of the data
    directory returns.  It forgets the agent and takes the mark back,
    and keeps the transcript; [cleanup] is asked of the agent only when
    its controller is marked initialized, so that after a start that
    failed the host is asked for the removal alone; and a command
    submitted afterwards is turned away: it is not added to the
    transcript and no agent is made for it. *)
Theorem clear_forgets_the_agent_and_keeps_the_transcript x sys :
  agent_initialized x = true ->
  session_agent x = Some sys ->
  (forall hl, exists v, H hl (RemoveTree user_data_dir true) = Returns v) ->
  agent_initialized (App.press_clear H x) = false
  /\ session_agent (App.press_clear H x) = None
  /\ messages (App.press_clear H x) = messages x
  /\ (is_initialized (browser (agent sys)) = false ->
      exists v,
        host_log (App.press_clear H x)
        = (host_log x ++ [(RemoveTree user_data_dir true, Returns v)])%list)
  /\ forall u,
       messages (App.submit W u (App.press_clear H x)) = messages x
       /\ session_agent (App.submit W u (App.press_clear H x)) = None.
Proof.
  intros I A Rm. unfold App.press_clear. rewrite I, A.
  set (l := if is_initialized (browser (agent sys))
            then Orchestrator.cleanup H (sys, host_log x)
            else (sys, host_log x)).
  assert (is_initialized (browser (agent sys)) = false ->
          l = (sys, host_log x)) as Hl by (intros N; unfold l; now rewrite N).
  unfold ask. destruct (Rm (snd l)) as [v Ev]. rewrite Ev. simpl.
  split; [reflexivity|]. split; [reflexivity|]. split; [reflexivity|].
  split.
  { intros N. exists v. now rewrite (Hl N). }
  intros u.
  match goal with
  | |- messages (App.submit W u ?y) = _ /\ _ =>
      destruct (submit_refused W u y eq_refl) as (M & Sa & _)
  end.
  rewrite M, Sa. split; reflexivity.
Qed.

End SessionProperties.

(** * Pacing and screenshots *)

Section PacingProperties.

Variable W : World.

(** X22: a turn sleeps once after each step that succeeded and never
    otherwise: in the events of a turn that returns there are as many
    pacing sleeps as successful steps, so that a turn of n successful
    steps lasts n seconds at least; in a turn that raises the last
    successful step may be without its sleep. *)
Theorem one_pause_for_each_successful_step u s :
  (pauses (events_of_turn W u s) <= successes (events_of_turn W u s)
   <= S (pauses (events_of_turn W u s)))%nat
  /\ forall m,
       fst (process_user_input W u s) = Ok m ->
       pauses (events_of_turn W u s) = successes (events_of_turn W u s).
Proof.
  destruct (process_user_input W u s) as [res s'] eqn:E.
  destruct (paces_process_user_input W u _ _ _ E) as (evs & T & B & Q).
  rewrite (events_of_turn_unique W _ _ _ _ _ E T). simpl.
  split; [exact B | exact Q].
Qed.

(** X23: the screenshot of a reply.  A reply with which the agent
    waits for input carries none.  A reply that ends a turn in IDLE
    carries one whenever the controller is marked initialized, be it
    the empty text [take_screenshot] gives when the page does not
    deliver. *)
Theorem reply_carries_a_screenshot u s m s' :
  process_user_input W u s = (Ok m, s') ->
  (state s' = WAITING_FOR_INPUT /\ cm_screenshot m = None)
  \/ (state s' = IDLE
      /\ (is_initialized (browser s) = true ->
          exists b64, cm_screenshot m = Some b64)).
Proof.
  intros E. unfold process_user_input, bind, update, ret in E.
  set (s0 := append_history (mkEntry "user" (PStr u)) s) in *.
  change (task_context s0) with (task_context s) in E.
  destruct (contains "send email" (lower u)
            && negb (truthy (context_get (task_context s) "email_credentials"))).
  { inversion E; subst. left. auto. }
  assert (forall s1 : Agent,
             is_initialized (browser s1) = is_initialized (browser s) ->
             act_on W u
               (fst (analyze_intent W u (conversation_history s1)
                       (set_state THINKING s1)))
               (snd (analyze_intent W u (conversation_history s1)
                       (set_state THINKING s1)))
             = (Ok m, s') ->
             (state s' = WAITING_FOR_INPUT /\ cm_screenshot m = None)
             \/ (state s' = IDLE
                 /\ (is_initialized (browser s) = true ->
                     exists b64, cm_screenshot m = Some b64))) as Hact.
  { intros s1 I1 Ea. destruct (act_on_shot W _ _ _ _ _ Ea) as [L|[St Hi]];
      [now left | right]. split; [exact St|]. intros I. apply Hi.
    simpl. congruence. }
  destruct (email_task u (task_context s)).
  - destruct (search re_recipient u); [destruct (search re_subject u);
      [destruct (search re_body u)|]|]; simpl in E;
      try (inversion E; subst; left; split; reflexivity).
    exact (Hact (set_context "email_details" _ s0) eq_refl E).
  - simpl in E. apply (Hact s0 eq_refl E).
Qed.

End PacingProperties.

(** ** The further properties on the scenarios *)

Import Cases.

Lemma without_a_page_witness :
  page_open (browser pageless) = false
  /\ events_of_turn click_world click_request pageless
     = [ EvAnalyze (turn_messages click_request pageless) click_plan;
         EvExecute click_action false "Browser not initialized" ]
  /\ (forall c a,
        ~ In (EvPage c a) (events_of_turn click_world click_request pageless))
  /\ (length (executed (events_of_turn click_world click_request pageless))
      <= 1)%nat.
Proof.
  assert (page_open (browser pageless) = false) as H1 by reflexivity.
  destruct (without_a_page_nothing_is_operated click_world click_request
              pageless H1) as (A & _ & _ & D).
  split; [exact H1|]. split; [vm_compute; reflexivity|].
  split; [exact A | exact D].
Defined.

Lemma turn_writes_the_details_only_witness :
  "email_credentials" <> "email_details"
  /\ task_context
       (snd (process_user_input compose_world sign_in_request (fresh vault)))
     !! "email_credentials"
     = vault !! "email_credentials".
Proof.
  assert ("email_credentials" <> "email_details") as H1 by discriminate.
  split; [exact H1|].
  exact (proj1 (turn_writes_the_details_only compose_world sign_in_request
                  (fresh vault) "email_credentials" H1)).
Defined.

Lemma executed_steps_follow_the_plan_witness :
  process_user_input compose_world sign_in_request (fresh vault)
  = (fst (process_user_input compose_world sign_in_request (fresh vault)),
     snd (process_user_input compose_world sign_in_request (fresh vault)))
  /\ executed (events_of_turn compose_world sign_in_request (fresh vault))
     = compose_steps
  /\ plan_steps (turn_plan compose_world sign_in_request (fresh vault))
     = [ action_data "type" "input[aria-label='To']" "someone"
           "Fill in the recipient";
         action_data "type" "input[aria-label='Subject']" "something"
           "Fill in the subject";
         action_data "type" "div[aria-label='Message Body']" "some text"
           "Write the message" ]
  /\ Forall2
       (fun d a =>
          built sign_in_request
            (task_context
               (snd (process_user_input compose_world sign_in_request
                       (fresh vault)))) d = Ok a)
       (firstn
          (length
             (executed (events_of_turn compose_world sign_in_request
                          (fresh vault))))
          (plan_steps (turn_plan compose_world sign_in_request (fresh vault))))
       (executed (events_of_turn compose_world sign_in_request (fresh vault))).
Proof.
  assert (process_user_input compose_world sign_in_request (fresh vault)
          = (fst (process_user_input compose_world sign_in_request
                    (fresh vault)),
             snd (process_user_input compose_world sign_in_request
                    (fresh vault)))) as H1
    by (destruct (process_user_input compose_world sign_in_request
                    (fresh vault)); reflexivity).
  split; [exact H1|]. split; [vm_compute; reflexivity|].
  split; [vm_compute; reflexivity|].
  exact (proj1 (executed_steps_follow_the_plan compose_world _ _ _ _ H1)).
Defined.



Lemma built_step_witness :
  built click_request ∅
    (action_data "click" "button.close" EmptyString "Close the dialog")
  = Ok click_action
  /\ py_get (action_data "click" "button.close" EmptyString "Close the dialog")
       "text" (PStr EmptyString)
     = Ok (text click_action).
Proof.
  assert (built click_request ∅
            (action_data "click" "button.close" EmptyString "Close the dialog")
          = Ok click_action) as H1 by (vm_compute; reflexivity).
  destruct (built_step_differs_in_text_only _ _ _ _ H1)
    as (_ & _ & _ & _ & _ & T).
  split; [exact H1|]. apply T. left. reflexivity.
Defined.

Lemma execute_action_outcomes_witness :
  execute_action sign_in_world sign_in_action (fresh vault)
  = ((true, sign_in_result),
     snd (execute_action sign_in_world sign_in_action (fresh vault)))
  /\ page_open (browser (fresh vault)) = true
  /\ in_strs (action_type sign_in_action) known_kinds = true.
Proof.
  assert (execute_action sign_in_world sign_in_action (fresh vault)
          = ((true, sign_in_result),
             snd (execute_action sign_in_world sign_in_action (fresh vault))))
    as H1 by (vm_compute; reflexivity).
  destruct (execute_action_outcomes sign_in_world _ _ _ _ _ H1)
    as (pe & _ & P & K & _).
  split; [exact H1|]. split; [exact P | exact K].
Defined.

Lemma provider_outage_witness :
  delivered (post down_world (trace (fresh ∅))
               (turn_messages click_request (fresh ∅))) = false
  /\ json_loads down_world apology_status = None
  /\ json_loads down_world apology_exception = None
  /\ events_of_turn down_world click_request (fresh ∅)
     = [EvAnalyze (turn_messages click_request (fresh ∅)) fallback_plan]
  /\ state (snd (process_user_input down_world click_request (fresh ∅)))
     = WAITING_FOR_INPUT
  /\ fst (process_user_input down_world click_request (fresh ∅))
     = Ok (reply (PStr ask_to_clarify) None).
Proof.
  assert (delivered (post down_world (trace (fresh ∅))
                       (turn_messages click_request (fresh ∅))) = false)
    as H1 by reflexivity.
  assert (json_loads down_world apology_status = None) as H2 by reflexivity.
  assert (json_loads down_world apology_exception = None) as H3
    by reflexivity.
  destruct (provider_outage_asks_to_clarify down_world click_request (fresh ∅)
              H1 H2 H3) as (_ & _ & St & _).
  split; [exact H1|]. split; [exact H2|]. split; [exact H3|].
  split; [vm_compute; reflexivity|]. split; [exact St|].
  vm_compute. reflexivity.
Defined.



Import Stage.

Lemma initialized_witness :
  reachable click_world host_fine
    (snd (Orchestrator.initialize host_fine (Orchestrator.new, [])))
  /\ is_initialized
       (browser (agent (fst (snd (Orchestrator.initialize host_fine
                                    (Orchestrator.new, []))))))
     = true
  /\ page_open
       (browser (agent (fst (snd (Orchestrator.initialize host_fine
                                    (Orchestrator.new, []))))))
     = true.
Proof.
  assert (reachable click_world host_fine
            (snd (Orchestrator.initialize host_fine (Orchestrator.new, []))))
    as H1 by (apply reach_initialize, reach_new).
  assert (is_initialized
            (browser (agent (fst (snd (Orchestrator.initialize host_fine
                                         (Orchestrator.new, []))))))
          = true) as H2 by reflexivity.
  split; [exact H1|]. split; [exact H2|].
  exact (proj1 (initialized_means_the_handles_are_set click_world host_fine
                  _ H1 H2)).
Defined.

Lemma initialize_outcomes_witness :
  Orchestrator.initialize host_no_cookies (Orchestrator.new, [])
  = (Some "cookies unavailable",
     snd (Orchestrator.initialize host_no_cookies (Orchestrator.new, [])))
  /\ is_initialized
       (browser (agent (fst (snd (Orchestrator.initialize host_no_cookies
                                    (Orchestrator.new, []))))))
     = true
  /\ state (agent (fst (snd (Orchestrator.initialize host_no_cookies
                              (Orchestrator.new, [])))))
     = state (agent Orchestrator.new)
  /\ trace (agent (fst (snd (Orchestrator.initialize host_no_cookies
                              (Orchestrator.new, [])))))
     = [].
Proof.
  assert (Orchestrator.initialize host_no_cookies (Orchestrator.new, [])
          = (Some "cookies unavailable",
             snd (Orchestrator.initialize host_no_cookies
                    (Orchestrator.new, [])))) as H1 by reflexivity.
  destruct (initialize_outcomes host_no_cookies _ _ _ H1)
    as (_ & _ & T & calls & _ & _ & St & _).
  split; [exact H1|]. split; [reflexivity|]. split; [exact St | exact T].
Defined.

Lemma failed_start_witness :
  truthy (PStr "sk-test") = true
  /\ truthy (PStr click_request) = true
  /\ Orchestrator.initialize host_down
       (App.made EmptyString EmptyString, host_log (App.start []))
     = (Some "Playwright is not installed",
        snd (Orchestrator.initialize host_down
               (App.made EmptyString EmptyString, host_log (App.start []))))
  /\ agent_initialized
       (App.press_initialize host_down "sk-test" EmptyString EmptyString
          (App.start []))
     = true
  /\ shown
       (App.press_initialize host_down "sk-test" EmptyString EmptyString
          (App.start []))
     = [StError "❌ Failed to initialize agent: Playwright is not installed"]
  /\ messages
       (App.submit click_world click_request
          (App.press_initialize host_down "sk-test" EmptyString EmptyString
             (App.start [])))
     = [ mkUiMessage "user" (PStr click_request) None;
         mkUiMessage "assistant"
           (PStr ("Closing the dialog." +:+ nl +:+ nl
                  +:+ "❌ Failed: Browser not initialized"))
           None ].
Proof.
  assert (truthy (PStr "sk-test") = true) as H1 by reflexivity.
  assert (truthy (PStr click_request) = true) as H2 by reflexivity.
  assert (Orchestrator.initialize host_down
            (App.made EmptyString EmptyString, host_log (App.start []))
          = (Some "Playwright is not installed",
             snd (Orchestrator.initialize host_down
                    (App.made EmptyString EmptyString,
                     host_log (App.start []))))) as H3 by reflexivity.
  assert (page_open
            (browser (agent (fst (snd (Orchestrator.initialize host_down
                                         (App.made EmptyString EmptyString,
                                          host_log (App.start [])))))))
          = false) as H4 by reflexivity.
  destruct (failed_start_leaves_the_session_initialized click_world host_down
              "sk-test" EmptyString EmptyString click_request (App.start [])
              _ _ H1 H2 H3 H4) as (I & _ & Sh & _).
  split; [exact H1|]. split; [exact H2|]. split; [exact H3|].
  split; [exact I|]. split; [exact Sh|]. vm_compute. reflexivity.
Defined.

Lemma credentials_witness :
  truthy (PStr "sk-test") = true
  /\ contains "send email" (lower "Send email to bob@example.com") = true
  /\ truthy (PStr "agent.test@gmail.com") && truthy (PStr EmptyString) = false
  /\ messages
       (App.submit ask_world "Send email to bob@example.com"
          (App.press_initialize host_fine "sk-test" "agent.test@gmail.com"
             EmptyString (App.start [])))
     = [ mkUiMessage "user" (PStr "Send email to bob@example.com") None;
         mkUiMessage "assistant" (PStr ask_credentials) None ].
Proof.
  assert (truthy (PStr "sk-test") = true) as H1 by reflexivity.
  assert (contains "send email" (lower "Send email to bob@example.com") = true)
    as H2 by reflexivity.
  assert (truthy (PStr "agent.test@gmail.com") && truthy (PStr EmptyString)
          = false) as H3 by reflexivity.
  destruct (credentials_are_stored_when_both_are_given ask_world host_fine
              "sk-test" "agent.test@gmail.com" EmptyString (App.start []) H1)
    as (_ & Ask).
  split; [exact H1|]. split; [exact H2|]. split; [exact H3|].
  exact (proj1 (Ask _ H2 H3)).
Defined.

Lemma transcript_witness :
  truthy (PStr "write to my boss") = true
  /\ agent_initialized ready = true
  /\ session_agent ready = Some (mkSystem (fresh ∅) true true)
  /\ messages (App.submit ask_world "write to my boss" ready)
     = [ mkUiMessage "user" (PStr "write to my boss") None;
         mkUiMessage "assistant" (PStr "What should the subject be?") None ]
  /\ exists sys',
       session_agent (App.submit ask_world "write to my boss" ready)
       = Some sys'
       /\ conversation_history (agent sys') = [user_entry "write to my boss"].
Proof.
  assert (truthy (PStr "write to my boss") = true) as H1 by reflexivity.
  assert (agent_initialized ready = true) as H2 by reflexivity.
  assert (session_agent ready = Some (mkSystem (fresh ∅) true true)) as H3
    by reflexivity.
  destruct (transcript_and_history ask_world "write to my boss" ready _
              H1 H2 H3) as (sys' & A & _).
  split; [exact H1|]. split; [exact H2|]. split; [exact H3|].
  split; [vm_compute; reflexivity|].
  exists sys'. split; [exact A|].
  assert (Some sys'
          = Some (mkSystem
                    (snd (process_user_input ask_world "write to my boss"
                            (fresh ∅))) true true)) as E
    by (rewrite <- A; vm_compute; reflexivity).
  inversion E. vm_compute. reflexivity.
Defined.

Lemma clear_witness :
  agent_initialized ready = true
  /\ session_agent ready = Some (mkSystem (fresh ∅) true true)
  /\ (forall hl, exists v,
        host_fine hl (RemoveTree user_data_dir true) = Returns v)
  /\ session_agent (App.press_clear host_fine ready) = None
  /\ messages (App.submit click_world click_request
                 (App.press_clear host_fine ready)) = [].
Proof.
  assert (agent_initialized ready = true) as H1 by reflexivity.
  assert (session_agent ready = Some (mkSystem (fresh ∅) true true)) as H2
    by reflexivity.
  assert (forall hl, exists v,
            host_fine hl (RemoveTree user_data_dir true) = Returns v) as H3
    by (intros hl; exists PNone; reflexivity).
  destruct (clear_forgets_the_agent_and_keeps_the_transcript click_world
              host_fine ready _ H1 H2 H3) as (_ & A & _ & _ & S).
  split; [exact H1|]. split; [exact H2|]. split; [exact H3|].
  split; [exact A|]. exact (proj1 (S click_request)).
Defined.

Lemma reply_screenshot_witness :
  process_user_input click_world click_request (fresh ∅)
  = (Ok (reply (PStr click_reply) (Some "aGk=")),
     snd (process_user_input click_world click_request (fresh ∅)))
  /\ state (snd (process_user_input click_world click_request (fresh ∅)))
     = IDLE
  /\ is_initialized (browser (fresh ∅)) = true
  /\ exists b64,
       cm_screenshot (reply (PStr click_reply) (Some "aGk=")) = Some b64.
Proof.
  assert (process_user_input click_world click_request (fresh ∅)
          = (Ok (reply (PStr click_reply) (Some "aGk=")),
             snd (process_user_input click_world click_request (fresh ∅))))
    as H1 by (vm_compute; reflexivity).
  assert (state (snd (process_user_input click_world click_request (fresh ∅)))
          = IDLE) as H2 by (vm_compute; reflexivity).
  split; [exact H1|]. split; [exact H2|]. split; [reflexivity|].
  destruct (reply_carries_a_screenshot click_world _ _ _ _ H1)
    as [[St _]|[_ Hi]].
  - rewrite H2 in St. discriminate.
  - exact (Hi eq_refl).
Defined.
